(** * Archon multi-agent orchestrator: a shallow embedding of
      [python/src/orchestrator/orchestrator.py]

    The orchestrator is a single Python object mutated by cooperative
    coroutines.  It is embedded here with explicit state passing: every
    method becomes a function from the orchestrator state (and the values the
    method reads from the outside world: clock readings, the fresh uuid, the
    answer of the remote adapter) to the new state and the returned value.

    - Python [float] is IEEE-754 binary64; it is embedded as [spec_float]
      with the operations of [Floats.SpecFloat] at precision 53.
    - Python [dict] keeps insertion order, which [_select_agent_for_task],
      [unregister_agent] and the dependency scans observe; it is embedded as
      an association list with unique keys.
    - [Task] objects are shared between the task store and the queue; the
      store never drops a task, so a reference to a task is its key in the
      store and the queue is a list of such keys.
    - [unregister_agent] requeues through [asyncio.create_task]: such a put
      runs when the event loop next gets control, not inside the call; the
      puts that have not run yet are part of the state. *)

From Stdlib Require Import List String ZArith NArith Bool Lia.
From Stdlib Require Import Floats.SpecFloat.
Import ListNotations.
Open Scope string_scope.
Open Scope Z_scope.

(* ================================================================== *)
(** ** Python floats *)

Module PyFloat.

Definition float := spec_float.

Definition prec : Z := 53.
Definition emax : Z := 1024.

Definition add : float -> float -> float := SFadd prec emax.
Definition sub : float -> float -> float := SFsub prec emax.
Definition mul : float -> float -> float := SFmul prec emax.
Definition div : float -> float -> float := SFdiv prec emax.

(** [x < y]; false as soon as one side is NaN. *)
Definition ltb : float -> float -> bool := SFltb.

Definition is_nan (x : float) : bool :=
  match x with S754_nan => true | _ => false end.

(** [float(n)] for a Python int: the nearest double, ties to even.
    (Python raises OverflowError from 2^1024 on, where this gives an
    infinity; the counters converted below count task executions.) *)
Definition of_int (n : Z) : float := binary_normalize prec emax n 0 false.

(** [a / b] on two positive Python ints: the exact quotient rounded
    once. *)
Definition int_truediv (a b : positive) : float :=
  div (S754_finite false a 0) (S754_finite false b 0).

Definition zero : float := S754_zero false.

(** The literal [0.1]. *)
Definition lit_0_1 : float := S754_finite false 7205759403792794 (-56).

End PyFloat.

Definition float := PyFloat.float.

(* ================================================================== *)
(** ** Python dicts with string keys (insertion ordered) *)

Section Dict.
Context {V : Type}.

Definition dict := list (string * V).

(** [d.get(k)] / [d[k]] / [k in d] *)
Fixpoint dict_get (d : dict) (k : string) : option V :=
  match d with
  | [] => None
  | (k', v) :: r => if String.eqb k' k then Some v else dict_get r k
  end.

Definition dict_mem (d : dict) (k : string) : bool :=
  match dict_get d k with Some _ => true | None => false end.

(** [d[k] = v]: an existing key keeps its place, a new one goes last. *)
Fixpoint dict_set (d : dict) (k : string) (v : V) : dict :=
  match d with
  | [] => [(k, v)]
  | (k', v') :: r =>
      if String.eqb k' k then (k, v) :: r else (k', v') :: dict_set r k v
  end.

(** [del d[k]] *)
Definition dict_del (d : dict) (k : string) : dict :=
  filter (fun kv => negb (String.eqb (fst kv) k)) d.

Definition dict_keys (d : dict) : list string := map fst d.

End Dict.

Arguments dict V : clear implicits.

(** [x in xs] on a list of strings. *)
Definition str_in (x : string) (xs : list string) : bool :=
  existsb (String.eqb x) xs.

(* ================================================================== *)
(** ** Data model *)

Inductive AgentStatus := IDLE | BUSY | ERROR | OFFLINE | INITIALIZING.

Inductive TaskPriority := LOW | MEDIUM | HIGH | CRITICAL.

Definition priority_value (p : TaskPriority) : Z :=
  match p with LOW => 1 | MEDIUM => 2 | HIGH => 3 | CRITICAL => 4 end.

Inductive TaskStatus :=
  PENDING | ASSIGNED | IN_PROGRESS | COMPLETED | FAILED | CANCELLED.

Definition AgentStatus_eqb (a b : AgentStatus) : bool :=
  match a, b with
  | IDLE, IDLE | BUSY, BUSY | ERROR, ERROR | OFFLINE, OFFLINE
  | INITIALIZING, INITIALIZING => true
  | _, _ => false
  end.

Definition TaskStatus_eqb (a b : TaskStatus) : bool :=
  match a, b with
  | PENDING, PENDING | ASSIGNED, ASSIGNED | IN_PROGRESS, IN_PROGRESS
  | COMPLETED, COMPLETED | FAILED, FAILED | CANCELLED, CANCELLED => true
  | _, _ => false
  end.

(** Opaque payloads ([Any]): only the shapes the orchestrator builds. *)
Inductive Any :=
| PyNone
| PyStr (s : string)
| PyDict (kv : list (string * string)).

(** A reading of [datetime.now()]. *)
Definition datetime := Z.

(** [AgentInfo].  The fields [id], [name], [status] and [metadata] carry
    an [agent_] prefix here, as [Task] has fields of the same names.  The
    counters start at 0 and are only ever incremented, hence [N]. *)
Record AgentInfo := mkAgentInfo {
  agent_id : string;
  agent_name : string;
  provider : string;
  capabilities : list string;
  agent_status : AgentStatus;
  current_task : option string;
  tasks_completed : N;
  tasks_failed : N;
  average_response_time : float;
  last_active : option datetime;
  agent_metadata : list (string * Any)
}.

(** [Task]; [id], [type] and [metadata] are [task_id], [task_type] and
    [task_metadata]. *)
Record Task := mkTask {
  task_id : string;
  task_type : string;
  prompt : string;
  priority : TaskPriority;
  status : TaskStatus;
  assigned_agent : option string;
  created_at : datetime;
  started_at : option datetime;
  completed_at : option datetime;
  result : option Any;
  error : option string;
  task_metadata : list (string * Any);
  dependencies : list string;
  retry_count : Z;
  max_retries : Z
}.

Record TaskResult := mkTaskResult {
  tr_task_id : string;
  tr_agent_id : string;
  tr_success : bool;
  tr_result : Any;
  tr_execution_time : float
}.

(** One entry of [performance_metrics]. *)
Record Metrics := mkMetrics {
  total_tasks : Z;
  successful_tasks : Z;
  failed_tasks : Z;
  total_time : float;
  average_time : float
}.

(** The [defaultdict] factory. *)
Definition default_metrics : Metrics :=
  mkMetrics 0 0 0 PyFloat.zero PyFloat.zero.

(** An adapter is known to the orchestrator only through its [execute]
    coroutine; the handle names it. *)
Definition Adapter := string.

(** The attributes of the orchestrator that its methods read or write
    ([task_history] and [workers] are only initialised), and the one piece
    of the event loop that they write: [pending_puts] are the
    [task_queue.put(task)] coroutines that [unregister_agent] has handed to
    the loop with [asyncio.create_task] and that the loop has not run yet,
    oldest first. *)
Record AgentOrchestrator := mkOrch {
  agents : dict AgentInfo;
  tasks : dict Task;
  task_queue : list string;
  max_concurrent_tasks : Z;
  active_tasks : Z;
  performance_metrics : dict Metrics;
  agent_adapters : dict Adapter;
  running : bool;
  pending_puts : list string
}.

(** [AgentOrchestrator.__init__] *)
Definition init (max_concurrent : Z) : AgentOrchestrator :=
  mkOrch [] [] [] max_concurrent 0 [] [] false [].

(** Field updates (Python attribute assignment). *)
Definition set_agents (s : AgentOrchestrator) x :=
  mkOrch x (tasks s) (task_queue s) (max_concurrent_tasks s) (active_tasks s)
         (performance_metrics s) (agent_adapters s) (running s)
         (pending_puts s).
Definition set_tasks (s : AgentOrchestrator) x :=
  mkOrch (agents s) x (task_queue s) (max_concurrent_tasks s) (active_tasks s)
         (performance_metrics s) (agent_adapters s) (running s)
         (pending_puts s).
Definition set_task_queue (s : AgentOrchestrator) x :=
  mkOrch (agents s) (tasks s) x (max_concurrent_tasks s) (active_tasks s)
         (performance_metrics s) (agent_adapters s) (running s)
         (pending_puts s).
Definition set_active_tasks (s : AgentOrchestrator) x :=
  mkOrch (agents s) (tasks s) (task_queue s) (max_concurrent_tasks s) x
         (performance_metrics s) (agent_adapters s) (running s)
         (pending_puts s).
Definition set_performance_metrics (s : AgentOrchestrator) x :=
  mkOrch (agents s) (tasks s) (task_queue s) (max_concurrent_tasks s)
         (active_tasks s) x (agent_adapters s) (running s) (pending_puts s).
Definition set_agent_adapters (s : AgentOrchestrator) x :=
  mkOrch (agents s) (tasks s) (task_queue s) (max_concurrent_tasks s)
         (active_tasks s) (performance_metrics s) x (running s)
         (pending_puts s).
Definition set_pending_puts (s : AgentOrchestrator) x :=
  mkOrch (agents s) (tasks s) (task_queue s) (max_concurrent_tasks s)
         (active_tasks s) (performance_metrics s) (agent_adapters s)
         (running s) x.

(** [asyncio.Queue]: [put] appends, [get] takes the oldest entry.  The
    queue is unbounded, so [put] never waits. *)
Definition queue_put (q : list string) (x : string) : list string := q ++ [x].

Definition queue_get (q : list string) : option (string * list string) :=
  match q with
  | [] => None
  | x :: r => Some (x, r)
  end.

Definition put_all (q : list string) (xs : list string) : list string :=
  fold_left queue_put xs q.

(* ================================================================== *)
(** ** Exceptions *)

Inductive exn :=
| KeyError (key : string)
| ValueError (message : string)
| RuntimeError (message : string).

(** What a call that may raise hands back. *)
Inductive res (A : Type) :=
| Ok (a : A)
| Exc (e : exn).
Arguments Ok {A} a.
Arguments Exc {A} e.

(* ================================================================== *)
(** ** Agent registry *)

(** [register_agent]; [adapter = None] stands for a missing or falsy
    adapter argument. *)
Definition register_agent (s : AgentOrchestrator)
    (agent_id name provider : string) (capabilities : list string)
    (adapter : option Adapter) (metadata : option (list (string * Any)))
  : AgentOrchestrator * AgentInfo :=
  let agent :=
    mkAgentInfo agent_id name provider capabilities IDLE None 0%N 0%N
                PyFloat.zero None
                (match metadata with Some m => m | None => [] end) in
  let s1 := set_agents s (dict_set (agents s) agent_id agent) in
  let s2 :=
    match adapter with
    | Some a => set_agent_adapters s1 (dict_set (agent_adapters s1) agent_id a)
    | None => s1
    end in
  (s2, agent).

(** The test of the loop in [unregister_agent]. *)
Definition held_by (agent_id : string) (t : Task) : bool :=
  match assigned_agent t with
  | Some a => String.eqb a agent_id
  | None => false
  end
  && (TaskStatus_eqb (status t) ASSIGNED
      || TaskStatus_eqb (status t) IN_PROGRESS).

Definition release_task (t : Task) : Task :=
  mkTask (task_id t) (task_type t) (prompt t) (priority t) PENDING None
         (created_at t) (started_at t) (completed_at t) (result t) (error t)
         (task_metadata t) (dependencies t) (retry_count t) (max_retries t).

(** What the loop body of [unregister_agent] does to a task it matches:
    [status] and [assigned_agent] are overwritten, nothing else. *)
Definition release_held (agent_id : string) (kv : string * Task)
  : string * Task :=
  if held_by agent_id (snd kv) then (fst kv, release_task (snd kv)) else kv.

(** [del self.agents[agent_id]] and the guarded [del] of the adapter. *)
Definition drop_agent (s : AgentOrchestrator) (agent_id : string)
  : AgentOrchestrator :=
  let s1 := set_agents s (dict_del (agents s) agent_id) in
  if dict_mem (agent_adapters s1) agent_id
  then set_agent_adapters s1 (dict_del (agent_adapters s1) agent_id)
  else s1.

(** [unregister_agent], called by a coroutine or a callback of the running
    event loop (as the API handler does).  The method is synchronous: each
    [asyncio.create_task(self.task_queue.put(task))] only hands the put to
    the loop, which runs it after the caller has given way.  At [return]
    the queue is therefore as it was, and the puts are pending, in the
    order of the task store. *)
Definition unregister_agent (s : AgentOrchestrator) (agent_id : string)
  : AgentOrchestrator * bool :=
  if dict_mem (agents s) agent_id then
    let held := filter (fun kv => held_by agent_id (snd kv)) (tasks s) in
    let s1 := set_tasks s (map (release_held agent_id) (tasks s)) in
    let s2 := set_pending_puts s1 (pending_puts s1 ++ dict_keys held) in
    (drop_agent s2 agent_id, true)
  else (s, false).

(** The loop of [unregister_agent] up to the first task it matches: that
    task gets its two assignments and the tasks after it are not
    reached. *)
Fixpoint release_first (agent_id : string) (store : dict Task)
  : option (dict Task) :=
  match store with
  | [] => None
  | kv :: rest =>
      if held_by agent_id (snd kv)
      then Some ((fst kv, release_task (snd kv)) :: rest)
      else option_map (cons kv) (release_first agent_id rest)
  end.

(** The same method called while no event loop is running in the thread:
    [asyncio.create_task] raises RuntimeError.  That happens at the first
    task the loop matches, after the two assignments to it; the call ends
    there, with the agent and its adapter still registered.  When no task
    matches, [asyncio.create_task] is not reached. *)
Definition unregister_agent_no_loop (s : AgentOrchestrator) (agent_id : string)
  : AgentOrchestrator * res bool :=
  if dict_mem (agents s) agent_id then
    match release_first agent_id (tasks s) with
    | Some store => (set_tasks s store, Exc (RuntimeError "no running event loop"))
    | None => (drop_agent s agent_id, Ok true)
    end
  else (s, Ok false).

(** The event loop runs the oldest pending put: the task reaches the back
    of the queue.  ([run_pending_puts] runs all of them.) *)
Definition run_pending_put (s : AgentOrchestrator) : AgentOrchestrator :=
  match pending_puts s with
  | [] => s
  | k :: rest =>
      set_pending_puts (set_task_queue s (queue_put (task_queue s) k)) rest
  end.

Definition run_pending_puts (s : AgentOrchestrator) : AgentOrchestrator :=
  set_pending_puts
    (set_task_queue s (put_all (task_queue s) (pending_puts s))) [].

(* ================================================================== *)
(** ** Submission and dependencies *)

(** [_are_dependencies_met], on the dependency list of the task. *)
Fixpoint _are_dependencies_met (store : dict Task) (deps : list string) : bool :=
  match deps with
  | [] => true
  | dep_id :: rest =>
      match dict_get store dep_id with
      | None => false
      | Some dep_task =>
          if TaskStatus_eqb (status dep_task) COMPLETED
          then _are_dependencies_met store rest
          else false
      end
  end.

(** [submit_task].  [new_id] is the value of [str(uuid.uuid4())] and [now]
    the clock reading taken by the [created_at] default.  The body has no
    [raise]: every path ends in [return task_id]. *)
Definition submit_task (s : AgentOrchestrator) (new_id : string) (now : datetime)
    (task_type prompt : string) (priority : TaskPriority)
    (dependencies : option (list string))
    (metadata : option (list (string * Any)))
  : AgentOrchestrator * res string :=
  let deps := match dependencies with Some d => d | None => [] end in
  let task :=
    mkTask new_id task_type prompt priority PENDING None now None None None
           None (match metadata with Some m => m | None => [] end) deps 0 3 in
  let s1 := set_tasks s (dict_set (tasks s) new_id task) in
  if negb (_are_dependencies_met (tasks s1) deps)
  then (s1, Ok new_id)
  else (set_task_queue s1 (queue_put (task_queue s1) new_id), Ok new_id).

(** One pass of the [for] loop of [_check_dependencies] (the watcher runs
    it once per second while [running]). *)
Definition watcher_ready (store : dict Task) (t : Task) : bool :=
  TaskStatus_eqb (status t) PENDING
  && negb (match dependencies t with [] => true | _ => false end)
  && _are_dependencies_met store (dependencies t).

Definition _check_dependencies (s : AgentOrchestrator) : AgentOrchestrator :=
  let ready := filter (fun kv => watcher_ready (tasks s) (snd kv)) (tasks s) in
  set_task_queue s (put_all (task_queue s) (dict_keys ready)).

(* ================================================================== *)
(** ** Selector *)

(** The two [continue] tests of [_select_agent_for_task]: an agent becomes
    a candidate when neither fires. *)
Definition eligible (task : Task) (agent : AgentInfo) : bool :=
  AgentStatus_eqb (agent_status agent) IDLE
  && negb (negb (str_in (task_type task) (capabilities agent))
           && negb (str_in "general" (capabilities agent))).

(** The score computed in the loop body.  [score] starts as the int [0]
    and turns into a float at the first float operand; the ints 0, 5 and 10
    convert exactly, so the base is taken as a float at once. *)
Definition agent_score (task : Task) (agent : AgentInfo) : float :=
  let s0 :=
    if str_in (task_type task) (capabilities agent) then PyFloat.of_int 10
    else if str_in "general" (capabilities agent) then PyFloat.of_int 5
    else PyFloat.of_int 0 in
  let s1 :=
    match tasks_completed agent with
    | N0 => s0
    | Npos c =>
        let total := match tasks_failed agent with
                     | N0 => c
                     | Npos f => (c + f)%positive
                     end in
        let success_rate := PyFloat.int_truediv c total in
        PyFloat.add s0 (PyFloat.mul success_rate (PyFloat.of_int 5))
    end in
  let s2 :=
    if PyFloat.ltb PyFloat.zero (average_response_time agent)
    then PyFloat.add s1
           (PyFloat.mul (PyFloat.div (PyFloat.of_int 1)
                                     (average_response_time agent))
                        (PyFloat.of_int 2))
    else s1 in
  PyFloat.sub s2
    (PyFloat.mul (PyFloat.of_int (Z.of_N (tasks_completed agent)))
                 PyFloat.lit_0_1).

(** The list built by the loop, in registry (insertion) order. *)
Definition candidates (task : Task) (registry : dict AgentInfo)
  : list (string * float) :=
  map (fun kv => (fst kv, agent_score task (snd kv)))
      (filter (fun kv => eligible task (snd kv)) registry).

(** [candidates.sort(key=lambda x: x[1], reverse=True)].  Python's sort is
    stable, also with [reverse=True]: entries with equal keys keep their
    order.  On keys that [<] orders totally every stable sort returns the
    same list; it is embedded as a stable insertion sort. *)
Fixpoint insert_desc (x : string * float) (l : list (string * float))
  : list (string * float) :=
  match l with
  | [] => [x]
  | y :: r =>
      if PyFloat.ltb (snd x) (snd y) then y :: insert_desc x r else x :: l
  end.

Definition sort_desc (l : list (string * float)) : list (string * float) :=
  fold_right insert_desc [] l.

(** [_select_agent_for_task] *)
Definition _select_agent_for_task (s : AgentOrchestrator) (task : Task)
  : option string :=
  match sort_desc (candidates task (agents s)) with
  | [] => None
  | best :: _ => Some (fst best)
  end.

(* ================================================================== *)
(** ** Metrics *)

(** [_update_metrics]; reading a missing provider creates the default
    entry ([defaultdict]). *)
Definition _update_metrics (s : AgentOrchestrator) (provider : string)
    (success : bool) (execution_time : float) : AgentOrchestrator :=
  let metrics :=
    match dict_get (performance_metrics s) provider with
    | Some m => m
    | None => default_metrics
    end in
  let total := total_tasks metrics + 1 in
  let succ := if success then successful_tasks metrics + 1
              else successful_tasks metrics in
  let fail := if success then failed_tasks metrics
              else failed_tasks metrics + 1 in
  let time := PyFloat.add (total_time metrics) execution_time in
  let avg := PyFloat.div time (PyFloat.of_int total) in
  set_performance_metrics s
    (dict_set (performance_metrics s) provider
              (mkMetrics total succ fail time avg)).

(* ================================================================== *)
(** ** Execution *)

(** What [await adapter.execute(...)] does: return a payload or raise. *)
Inductive Outcome :=
| Returned (payload : Any)
| Raised (message : string).

(** What one call of [_execute_task] reads from the outside world. *)
Record ExecEnv := mkEnv {
  started : datetime;       (* datetime.now() for started_at *)
  outcome : Outcome;        (* adapter.execute *)
  elapsed : float;          (* time.time() - start_time *)
  finished : datetime;      (* datetime.now() for completed_at *)
  idle_at : datetime        (* datetime.now() in the finally block *)
}.

Definition task_begin (t : Task) (agent_id : string) (now : datetime) : Task :=
  mkTask (task_id t) (task_type t) (prompt t) (priority t) IN_PROGRESS
         (Some agent_id) (created_at t) (Some now) (completed_at t)
         (result t) (error t) (task_metadata t) (dependencies t)
         (retry_count t) (max_retries t).

(** A Python value assigned to an [Optional] field: [None] is the field
    left unset. *)
Definition optional (v : Any) : option Any :=
  match v with
  | PyNone => None
  | _ => Some v
  end.

Definition task_complete (t : Task) (now : datetime) (payload : Any) : Task :=
  mkTask (task_id t) (task_type t) (prompt t) (priority t) COMPLETED
         (assigned_agent t) (created_at t) (started_at t) (Some now)
         (optional payload) (error t) (task_metadata t) (dependencies t)
         (retry_count t) (max_retries t).

Definition task_fail (t : Task) (now : datetime) (message : string) : Task :=
  mkTask (task_id t) (task_type t) (prompt t) (priority t) FAILED
         (assigned_agent t) (created_at t) (started_at t) (Some now)
         (result t) (Some message) (task_metadata t) (dependencies t)
         (retry_count t) (max_retries t).

Definition task_retry (t : Task) : Task :=
  mkTask (task_id t) (task_type t) (prompt t) (priority t) PENDING
         None (created_at t) (started_at t) (completed_at t)
         (result t) (error t) (task_metadata t) (dependencies t)
         (retry_count t + 1) (max_retries t).

Definition agent_busy (a : AgentInfo) (task : string) : AgentInfo :=
  mkAgentInfo (agent_id a) (agent_name a) (provider a) (capabilities a) BUSY
              (Some task) (tasks_completed a) (tasks_failed a)
              (average_response_time a) (last_active a) (agent_metadata a).

(** [tasks_completed += 1] and the running mean of the response time. *)
Definition agent_succeeded (a : AgentInfo) (execution_time : float) : AgentInfo :=
  let n := (tasks_completed a + 1)%N in
  let avg :=
    PyFloat.div
      (PyFloat.add (PyFloat.mul (average_response_time a)
                                (PyFloat.of_int (Z.of_N n - 1)))
                   execution_time)
      (PyFloat.of_int (Z.of_N n)) in
  mkAgentInfo (agent_id a) (agent_name a) (provider a) (capabilities a)
              (agent_status a) (current_task a) n (tasks_failed a) avg
              (last_active a) (agent_metadata a).

Definition agent_failed (a : AgentInfo) : AgentInfo :=
  mkAgentInfo (agent_id a) (agent_name a) (provider a) (capabilities a)
              (agent_status a) (current_task a) (tasks_completed a)
              (tasks_failed a + 1)%N (average_response_time a)
              (last_active a) (agent_metadata a).

(** The [finally] block. *)
Definition agent_reset (a : AgentInfo) (now : datetime) : AgentInfo :=
  mkAgentInfo (agent_id a) (agent_name a) (provider a) (capabilities a) IDLE
              None (tasks_completed a) (tasks_failed a)
              (average_response_time a) (Some now) (agent_metadata a).

(** [_execute_task], run from its first line to its [return] (or [raise])
    with no other coroutine scheduled during [await adapter.execute].  The
    task is the object the queue handed out, i.e. the store entry under the
    key [task]; a key handed out by the queue is always in the store. *)
Definition _execute_task (s : AgentOrchestrator) (task agent_id : string)
    (env : ExecEnv) : AgentOrchestrator * res TaskResult :=
  match dict_get (agents s) agent_id with
  | None => (s, Exc (KeyError agent_id))
  | Some agent =>
  match dict_get (agent_adapters s) agent_id with
  | None => (s, Exc (ValueError ("No adapter found for agent " ++ agent_id)))
  | Some adapter =>
  match dict_get (tasks s) task with
  | None => (s, Exc (KeyError task))
  | Some t =>
      let agent1 := agent_busy agent (task_id t) in
      let t1 := task_begin t agent_id (started env) in
      match outcome env with
      | Returned payload =>
          let t2 := task_complete t1 (finished env) payload in
          let agent2 := agent_succeeded agent1 (elapsed env) in
          let s1 := set_tasks s (dict_set (tasks s) task t2) in
          let s2 := _update_metrics s1 (provider agent2) true (elapsed env) in
          let agent3 := agent_reset agent2 (idle_at env) in
          (set_agents s2 (dict_set (agents s2) agent_id agent3),
           Ok (mkTaskResult (task_id t2) agent_id true payload (elapsed env)))
      | Raised e =>
          let t2 := task_fail t1 (finished env) e in
          let agent2 := agent_failed agent1 in
          let s1 := _update_metrics s (provider agent2) false (elapsed env) in
          let s2 :=
            if retry_count t2 <? max_retries t2 then
              let t3 := task_retry t2 in
              let s' := set_tasks s1 (dict_set (tasks s1) task t3) in
              set_task_queue s' (queue_put (task_queue s') task)
            else set_tasks s1 (dict_set (tasks s1) task t2) in
          let agent3 := agent_reset agent2 (idle_at env) in
          (set_agents s2 (dict_set (agents s2) agent_id agent3),
           Ok (mkTaskResult (task_id t2) agent_id false
                            (PyDict [("error", e)]) (elapsed env)))
      end
  end end end.

(* ================================================================== *)
(** ** Worker *)

(** What one turn of the worker loop did. *)
Inductive WorkerEvent :=
| QueueTimeout
| NoAgent (task : string)
| Executed (task agent : string) (success : bool)
| WorkerError (task : string).

(** The loop after a successful [_execute_task] call: every task that lists
    the executed one and whose dependencies are met is put on the queue. *)
Definition promotable (store : dict Task) (done : string) (other : Task) : bool :=
  str_in done (dependencies other)
  && _are_dependencies_met store (dependencies other).

Definition promote_dependents (s : AgentOrchestrator) (done : string)
  : AgentOrchestrator :=
  let ready := filter (fun kv => promotable (tasks s) done (snd kv)) (tasks s) in
  set_task_queue s (put_all (task_queue s) (dict_keys ready)).

(** One turn of the [while self.running] loop of [_worker]. *)
Definition _worker (s : AgentOrchestrator) (env : ExecEnv)
  : AgentOrchestrator * WorkerEvent :=
  match queue_get (task_queue s) with
  | None => (s, QueueTimeout)
  | Some (ref, rest) =>
      let s1 := set_task_queue s rest in
      match dict_get (tasks s1) ref with
      | None => (s1, WorkerError ref)
      | Some task =>
          match _select_agent_for_task s1 task with
          | None => (set_task_queue s1 (queue_put rest ref), NoAgent ref)
          | Some agent_id =>
              if String.eqb agent_id ""
              then (set_task_queue s1 (queue_put rest ref), NoAgent ref)
              else
                let s2 := set_active_tasks s1 (active_tasks s1 + 1) in
                let (s3, r) := _execute_task s2 ref agent_id env in
                match r with
                | Ok tr =>
                    let s4 := promote_dependents s3 (task_id task) in
                    (set_active_tasks s4 (active_tasks s4 - 1),
                     Executed ref agent_id (tr_success tr))
                | Exc _ =>
                    (set_active_tasks s3 (active_tasks s3 - 1), WorkerError ref)
                end
          end
      end
  end.

(* ================================================================== *)
(** ** Runs of the orchestrator *)

(** The coroutines run on one event loop and give way only at an await.
    A run is a schedule in which every call listed goes through to its end
    before the next one starts: API calls ([DoRegister], [DoUnregister],
    [DoSubmit]), passes of the dependency watcher ([DoWatch]), turns of a
    worker ([DoWork], with what the adapter and the clock answer) and the
    loop running a put that [unregister_agent] left pending ([DoPut]; the
    loop runs the puts of one call back to back, a schedule may list other
    calls between them). *)
Inductive Action :=
| DoRegister (agent_id name provider : string) (capabilities : list string)
             (adapter : option Adapter)
| DoUnregister (agent_id : string)
| DoSubmit (new_id : string) (now : datetime) (task_type prompt : string)
           (priority : TaskPriority) (dependencies : option (list string))
| DoWatch
| DoWork (env : ExecEnv)
| DoPut.

Definition step (s : AgentOrchestrator) (a : Action)
  : AgentOrchestrator * list WorkerEvent :=
  match a with
  | DoRegister i n p c ad => (fst (register_agent s i n p c ad None), [])
  | DoUnregister i => (fst (unregister_agent s i), [])
  | DoSubmit i now ty pr prio deps =>
      (fst (submit_task s i now ty pr prio deps None), [])
  | DoWatch => (_check_dependencies s, [])
  | DoWork env => let (s', e) := _worker s env in (s', [e])
  | DoPut => (run_pending_put s, [])
  end.

Fixpoint run (s : AgentOrchestrator) (acts : list Action)
  : AgentOrchestrator * list WorkerEvent :=
  match acts with
  | [] => (s, [])
  | a :: rest =>
      let (s1, e1) := step s a in
      let (s2, e2) := run s1 rest in
      (s2, (e1 ++ e2)%list)
  end.


(* ================================================================== *)
(** ** The selector as the specification words it *)

(** Eligibility: the agent is IDLE and its capabilities contain the task
    type or "general". *)
Definition spec_eligible (task : Task) (agent : AgentInfo) : bool :=
  AgentStatus_eqb (agent_status agent) IDLE
  && (str_in (task_type task) (capabilities agent)
      || str_in "general" (capabilities agent)).

(** Score: +10 for an explicit match, else +5; plus success_rate x 5 when
    completed > 0; plus (1 / average_response_time) x 2 when the average is
    positive; minus 0.1 x tasks_completed. *)
Definition spec_score (task : Task) (agent : AgentInfo) : float :=
  let completed := tasks_completed agent in
  let failed := tasks_failed agent in
  let base :=
    PyFloat.of_int
      (if str_in (task_type task) (capabilities agent) then 10 else 5) in
  let with_rate :=
    if (0 <? completed)%N
    then
      let success_rate :=
        match completed, (completed + failed)%N with
        | Npos c, Npos total => PyFloat.int_truediv c total
        | _, _ => PyFloat.zero
        end in
      PyFloat.add base (PyFloat.mul success_rate (PyFloat.of_int 5))
    else base in
  let with_speed :=
    if PyFloat.ltb PyFloat.zero (average_response_time agent)
    then PyFloat.add with_rate
           (PyFloat.mul (PyFloat.div (PyFloat.of_int 1)
                                     (average_response_time agent))
                        (PyFloat.of_int 2))
    else with_rate in
  PyFloat.sub with_speed
    (PyFloat.mul PyFloat.lit_0_1 (PyFloat.of_int (Z.of_N completed))).

(** The first entry of a candidate list that no later entry beats. *)
Fixpoint first_best (l : list (string * float)) : option (string * float) :=
  match l with
  | [] => None
  | x :: r =>
      match first_best r with
      | None => Some x
      | Some y => if PyFloat.ltb (snd x) (snd y) then Some y else Some x
      end
  end.

(** No score of the list is NaN. *)
Definition nan_free (l : list (string * float)) : Prop :=
  forallb (fun x => negb (PyFloat.is_nan (snd x))) l = true.

(** The tie-break as the specification states it: no other eligible agent
    with the same score has a smaller id than the selected one. *)
Definition lexicographic_tie_break (s : AgentOrchestrator) (task : Task) : Prop :=
  forall id agent k a,
    _select_agent_for_task s task = Some id ->
    In (id, agent) (agents s) ->
    In (k, a) (agents s) ->
    eligible task a = true ->
    agent_score task a = agent_score task agent ->
    String.leb id k = true.

(* ================================================================== *)
(** ** Queue order, traces and the properties under study *)

(** The order in which repeated [get] calls hand out the entries. *)
Fixpoint drain (fuel : nat) (q : list string) : list string :=
  match fuel with
  | O => []
  | S n =>
      match queue_get q with
      | None => []
      | Some (x, r) => x :: drain n r
      end
  end.

Definition dequeue_order (q : list string) : list string :=
  drain (List.length q) q.

(** The task a worker turn dealt with. *)
Definition event_task (e : WorkerEvent) : option string :=
  match e with
  | QueueTimeout => None
  | NoAgent t | Executed t _ _ | WorkerError t => Some t
  end.

(** Priority dominance as the specification states it: the entry handed
    out next has a priority at least that of every entry still queued. *)
Definition priority_dominance (s : AgentOrchestrator) : Prop :=
  forall first rest other t_first t_other,
    queue_get (task_queue s) = Some (first, rest) ->
    In other rest ->
    dict_get (tasks s) first = Some t_first ->
    dict_get (tasks s) other = Some t_other ->
    priority_value (priority t_other) <= priority_value (priority t_first).

(** Submission validation as the specification states it: a dependency
    that is not in the store makes the submission fail. *)
Definition rejects_missing_dependency (s : AgentOrchestrator)
    (new_id : string) (now : datetime) (task_type prompt : string)
    (priority : TaskPriority) (deps : list string) : Prop :=
  (exists d, In d deps /\ dict_get (tasks s) d = None) ->
  exists e,
    snd (submit_task s new_id now task_type prompt priority (Some deps) None)
    = Exc e.

(** Each task occupies at most one slot of the queue. *)
Definition at_most_one_slot (s : AgentOrchestrator) : Prop :=
  NoDup (task_queue s).


(** [completed_at] is set exactly on the terminal statuses. *)
Definition completed_iff_terminal (t : Task) : Prop :=
  completed_at t <> None <-> (status t = COMPLETED \/ status t = FAILED).

(** A sequence of [_update_metrics] calls. *)
Definition apply_updates (s : AgentOrchestrator)
    (updates : list (string * bool * float)) : AgentOrchestrator :=
  fold_left (fun s u => _update_metrics s (fst (fst u)) (snd (fst u)) (snd u))
            updates s.

(** How many of the updates were for the provider. *)
Definition attempts (provider : string)
    (updates : list (string * bool * float)) : Z :=
  Z.of_nat (List.length
              (filter (fun u => String.eqb (fst (fst u)) provider) updates)).

(** How many of them reported a success, how many a failure, and the
    execution times of the provider added up in the order of the updates. *)
Definition successes (provider : string)
    (updates : list (string * bool * float)) : Z :=
  Z.of_nat (List.length
              (filter (fun u => String.eqb (fst (fst u)) provider
                                && snd (fst u)) updates)).

Definition failures (provider : string)
    (updates : list (string * bool * float)) : Z :=
  Z.of_nat (List.length
              (filter (fun u => String.eqb (fst (fst u)) provider
                                && negb (snd (fst u))) updates)).

Definition time_spent (provider : string)
    (updates : list (string * bool * float)) : float :=
  fold_left (fun acc u => if String.eqb (fst (fst u)) provider
                          then PyFloat.add acc (snd u) else acc)
            updates PyFloat.zero.

(** What [performance_metrics] holds after the given updates: an entry for
    exactly the providers that have had one, with every field determined
    by the updates of that provider. *)
Definition metrics_inv (pm : dict Metrics)
    (updates : list (string * bool * float)) : Prop :=
  forall p,
    match dict_get pm p with
    | Some m =>
        0 < attempts p updates
        /\ total_tasks m = attempts p updates
        /\ successful_tasks m = successes p updates
        /\ failed_tasks m = failures p updates
        /\ total_time m = time_spent p updates
        /\ average_time m
           = PyFloat.div (total_time m) (PyFloat.of_int (total_tasks m))
    | None => attempts p updates = 0
    end.

(** The metric update a worker turn makes when it runs the adapter: the
    provider of the selected agent, the outcome and the measured time. *)
Definition turn_update (s : AgentOrchestrator) (env : ExecEnv)
  : list (string * bool * float) :=
  match snd (_worker s env) with
  | Executed _ agent_id ok =>
      match dict_get (agents s) agent_id with
      | Some agent => [(provider agent, ok, elapsed env)]
      | None => []
      end
  | _ => []
  end.

Definition step_updates (s : AgentOrchestrator) (a : Action)
  : list (string * bool * float) :=
  match a with
  | DoWork env => turn_update s env
  | _ => []
  end.

(** The metric updates of a run, in the order they are made. *)
Fixpoint run_updates (s : AgentOrchestrator) (acts : list Action)
  : list (string * bool * float) :=
  match acts with
  | [] => []
  | a :: rest => (step_updates s a ++ run_updates (fst (step s a)) rest)%list
  end.


(* ================================================================== *)
(** ** Status reports *)

(** The [value] of the two status enums. *)
Definition AgentStatus_value (st : AgentStatus) : string :=
  match st with
  | IDLE => "idle" | BUSY => "busy" | ERROR => "error"
  | OFFLINE => "offline" | INITIALIZING => "initializing"
  end.

Definition TaskStatus_value (st : TaskStatus) : string :=
  match st with
  | PENDING => "pending" | ASSIGNED => "assigned"
  | IN_PROGRESS => "in_progress" | COMPLETED => "completed"
  | FAILED => "failed" | CANCELLED => "cancelled"
  end.

(** The per-agent entry of [get_status]. *)
Record AgentView := mkAgentView {
  view_name : string;
  view_provider : string;
  view_status : string;
  view_current_task : option string;
  view_tasks_completed : N;
  view_tasks_failed : N;
  view_average_response_time : float
}.

(** The ["tasks"] entry of [get_status]. *)
Record TaskCounts := mkTaskCounts {
  count_total : nat;
  count_pending : nat;
  count_in_progress : nat;
  count_completed : nat;
  count_failed : nat
}.

Record StatusReport := mkStatusReport {
  report_running : bool;
  report_agents : dict AgentView;
  report_tasks : TaskCounts;
  report_queue_size : nat;
  report_active_tasks : Z;
  report_metrics : dict Metrics
}.

(** [sum(1 for t in self.tasks.values() if t.status == st)] *)
Definition count_status (store : dict Task) (st : TaskStatus) : nat :=
  List.length (filter (fun kv => TaskStatus_eqb (status (snd kv)) st) store).

(** [get_status] *)
Definition get_status (s : AgentOrchestrator) : StatusReport :=
  mkStatusReport
    (running s)
    (map (fun kv =>
            (fst kv,
             mkAgentView (agent_name (snd kv)) (provider (snd kv))
                         (AgentStatus_value (agent_status (snd kv)))
                         (current_task (snd kv)) (tasks_completed (snd kv))
                         (tasks_failed (snd kv))
                         (average_response_time (snd kv))))
         (agents s))
    (mkTaskCounts (List.length (tasks s))
                  (count_status (tasks s) PENDING)
                  (count_status (tasks s) IN_PROGRESS)
                  (count_status (tasks s) COMPLETED)
                  (count_status (tasks s) FAILED))
    (List.length (task_queue s))
    (active_tasks s)
    (performance_metrics s).

(** The projection [get_task_status] returns.  The three timestamps are
    rendered with [isoformat()]; the text stands for the instant. *)
Record TaskView := mkTaskView {
  tv_id : string;
  tv_type : string;
  tv_status : string;
  tv_priority : Z;
  tv_assigned_agent : option string;
  tv_created_at : option datetime;
  tv_started_at : option datetime;
  tv_completed_at : option datetime;
  tv_result : option Any;
  tv_error : option string;
  tv_retry_count : Z
}.

(** [get_task_status] *)
Definition get_task_status (s : AgentOrchestrator) (id : string)
  : option TaskView :=
  match dict_get (tasks s) id with
  | None => None
  | Some task =>
      Some (mkTaskView (task_id task) (task_type task)
                       (TaskStatus_value (status task))
                       (priority_value (priority task))
                       (assigned_agent task) (Some (created_at task))
                       (started_at task) (completed_at task)
                       (result task) (error task) (retry_count task))
  end.

(* ================================================================== *)
(** ** Adapters: construction and readiness (adapters.py) *)

Inductive AdapterClass :=
| ClaudeFlowAdapter | GPTAdapter | GeminiAdapter | GrokAdapter
| AnthropicAdapter.

(** [str.lower()] on ASCII text: provider tags and priority names are
    ASCII, and a string with other characters is outside this embedding. *)
Definition ascii_lower (c : Ascii.ascii) : Ascii.ascii :=
  let n := Ascii.nat_of_ascii c in
  if ((65 <=? n) && (n <=? 90))%nat then Ascii.ascii_of_nat (n + 32) else c.

Fixpoint str_lower (s : string) : string :=
  match s with
  | EmptyString => EmptyString
  | String c r => String (ascii_lower c) (str_lower r)
  end.

Fixpoint is_ascii (s : string) : bool :=
  match s with
  | EmptyString => true
  | String c r => (Ascii.nat_of_ascii c <? 128)%nat && is_ascii r
  end.

(** The table of [create_adapter]. *)
Definition adapters : dict AdapterClass :=
  [ ("claude_flow", ClaudeFlowAdapter);
    ("gpt", GPTAdapter); ("openai", GPTAdapter);
    ("gemini", GeminiAdapter); ("google", GeminiAdapter);
    ("grok", GrokAdapter); ("xai", GrokAdapter);
    ("anthropic", AnthropicAdapter); ("claude", AnthropicAdapter) ].

(** [os.getenv] *)
Definition Env := string -> option string.

(** Truth value of an optional string: [None] and [""] are false. *)
Definition str_truthy (o : option string) : bool :=
  match o with
  | None => false
  | Some EmptyString => false
  | Some _ => true
  end.

(** [a or b] *)
Definition str_or (a b : option string) : option string :=
  if str_truthy a then a else b.

(** What an adapter object keeps that its [initialize] looks at. *)
Record AdapterInstance := mkAdapter {
  adapter_class : AdapterClass;
  api_key : option string
}.

(** The environment variable each constructor falls back on. *)
Definition key_variable (c : AdapterClass) : option string :=
  match c with
  | ClaudeFlowAdapter => None
  | GPTAdapter => Some "OPENAI_API_KEY"
  | GeminiAdapter => Some "GOOGLE_API_KEY"
  | GrokAdapter => Some "XAI_API_KEY"
  | AnthropicAdapter => Some "ANTHROPIC_API_KEY"
  end.

(** The constructors: [super().__init__(api_key or os.getenv(...))]. *)
Definition construct (env : Env) (c : AdapterClass) (key : option string)
  : AdapterInstance :=
  mkAdapter c (match key_variable c with
               | Some v => str_or key (env v)
               | None => key
               end).

(** [create_adapter(provider, api_key=key)] *)
Definition create_adapter (env : Env) (provider : string) (key : option string)
  : res AdapterInstance :=
  match dict_get adapters (str_lower provider) with
  | Some c => Ok (construct env c key)
  | None => Exc (ValueError ("Unknown provider: " ++ provider))
  end.

(** How the HTTP probe of [initialize] went. *)
Inductive Probe :=
| Answered (status_code : Z)
| Unreachable (message : string).

Definition probe_ok (p : Probe) : bool :=
  match p with
  | Answered code => code =? 200
  | Unreachable _ => false
  end.

(** Truth value of what [initialize] returns.  [ClaudeFlowAdapter] probes
    its endpoint and needs no key; the OpenAI, Google and X.AI adapters
    return False without probing when they have no key;
    [AnthropicAdapter] only looks at its key. *)
Definition initialize (a : AdapterInstance) (p : Probe) : bool :=
  match adapter_class a with
  | ClaudeFlowAdapter => probe_ok p
  | GPTAdapter | GeminiAdapter | GrokAdapter =>
      if negb (str_truthy (api_key a)) then false else probe_ok p
  | AnthropicAdapter => str_truthy (api_key a)
  end.

(** The adapter object as the orchestrator holds it. *)
Definition adapter_handle (a : AdapterInstance) : Adapter :=
  match adapter_class a with
  | ClaudeFlowAdapter => "ClaudeFlowAdapter"
  | GPTAdapter => "GPTAdapter"
  | GeminiAdapter => "GeminiAdapter"
  | GrokAdapter => "GrokAdapter"
  | AnthropicAdapter => "AnthropicAdapter"
  end.

(* ================================================================== *)
(** ** Control API (api.py) *)

(** An endpoint returns a body or raises [HTTPException]. *)
Inductive Response (A : Type) :=
| Success (body : A)
| HTTPException (status_code : Z) (detail : string).
Arguments Success {A} body.
Arguments HTTPException {A} status_code detail.

(** [str(e)] *)
Definition exn_str (e : exn) : string :=
  match e with
  | KeyError k => "'" ++ k ++ "'"
  | ValueError m => m
  | RuntimeError m => m
  end.

Record AgentRegistration := mkRegistration {
  reg_agent_id : string;
  reg_name : string;
  reg_provider : string;
  reg_capabilities : list string;
  reg_api_key : option string;
  reg_metadata : option (list (string * Any))
}.

Record TaskSubmission := mkSubmission {
  sub_task_type : string;
  sub_prompt : string;
  sub_priority : string;
  sub_dependencies : option (list string);
  sub_metadata : option (list (string * Any))
}.

Record TaskResponse := mkTaskResponse {
  resp_task_id : string;
  resp_status : string;
  resp_message : string
}.

Record RegisterBody := mkRegisterBody {
  body_success : bool;
  body_agent_id : string;
  body_message : string
}.

(** [priority_map.get(submission.priority.lower(), TaskPriority.MEDIUM)] *)
Definition priority_map : dict TaskPriority :=
  [ ("low", LOW); ("medium", MEDIUM); ("high", HIGH); ("critical", CRITICAL) ].

Definition parse_priority (text : string) : TaskPriority :=
  match dict_get priority_map (str_lower text) with
  | Some p => p
  | None => MEDIUM
  end.

Definition not_initialized {A} : Response A :=
  HTTPException 503 "Orchestrator not initialized".

(** [POST /agents/register].  The global [orchestrator] is [None] until
    the startup event has run. *)
Definition api_register_agent (o : option AgentOrchestrator)
    (registration : AgentRegistration) (env : Env) (probe : Probe)
  : option AgentOrchestrator * Response RegisterBody :=
  match o with
  | None => (None, not_initialized)
  | Some s =>
      match create_adapter env (reg_provider registration)
                           (reg_api_key registration) with
      | Exc e => (Some s, HTTPException 400 (exn_str e))
      | Ok adapter =>
          if negb (initialize adapter probe)
          then (Some s,
                HTTPException 400
                  ("Failed to initialize " ++ reg_provider registration
                   ++ " adapter"))
          else
            let (s', agent) :=
              register_agent s (reg_agent_id registration)
                (reg_name registration) (reg_provider registration)
                (reg_capabilities registration)
                (Some (adapter_handle adapter))
                (reg_metadata registration) in
            (Some s',
             Success (mkRegisterBody true (agent_id agent)
                        ("Agent " ++ agent_name agent
                         ++ " registered successfully")))
      end
  end.

(** [DELETE /agents/{agent_id}] *)
Definition api_unregister_agent (o : option AgentOrchestrator) (id : string)
  : option AgentOrchestrator * Response string :=
  match o with
  | None => (None, not_initialized)
  | Some s =>
      let (s', ok) := unregister_agent s id in
      if ok then (Some s', Success ("Agent " ++ id ++ " unregistered"))
      else (Some s', HTTPException 404 ("Agent " ++ id ++ " not found"))
  end.

(** [POST /tasks/submit] *)
Definition api_submit_task (o : option AgentOrchestrator)
    (submission : TaskSubmission) (new_id : string) (now : datetime)
  : option AgentOrchestrator * Response TaskResponse :=
  match o with
  | None => (None, not_initialized)
  | Some s =>
      let priority := parse_priority (sub_priority submission) in
      let (s', r) :=
        submit_task s new_id now (sub_task_type submission)
                    (sub_prompt submission) priority
                    (sub_dependencies submission) (sub_metadata submission) in
      match r with
      | Ok id =>
          (Some s',
           Success (mkTaskResponse id "submitted"
                      ("Task " ++ id ++ " submitted successfully")))
      | Exc e => (Some s', HTTPException 400 (exn_str e))
      end
  end.

(** [GET /tasks/{task_id}] *)
Definition api_get_task_status (o : option AgentOrchestrator) (id : string)
  : Response TaskView :=
  match o with
  | None => not_initialized
  | Some s =>
      match get_task_status s id with
      | Some view => Success view
      | None => HTTPException 404 ("Task " ++ id ++ " not found")
      end
  end.

(** One block of [auto_register_agents]: build the adapter, probe it, and
    register the agent when the probe succeeds; every failure is logged and
    skipped. *)
Definition try_register (s : AgentOrchestrator) (env : Env)
    (tag : string) (key : option string) (probe : Probe)
    (id name provider : string) (capabilities : list string)
  : AgentOrchestrator :=
  match create_adapter env tag key with
  | Exc _ => s
  | Ok adapter =>
      if initialize adapter probe
      then fst (register_agent s id name provider capabilities
                               (Some (adapter_handle adapter)) None)
      else s
  end.

(** [auto_register_agents]; [probes] tells how each adapter's probe goes. *)
Definition auto_register_agents (s : AgentOrchestrator) (env : Env)
    (probes : AdapterClass -> Probe) : AgentOrchestrator :=
  let s1 :=
    try_register s env "claude_flow" None (probes ClaudeFlowAdapter)
      "claude_flow_hive" "Claude Flow Hive Mind" "claude_flow"
      ["general"; "code_generation"; "documentation"; "analysis"] in
  let s2 :=
    if str_truthy (env "OPENAI_API_KEY")
    then try_register s1 env "gpt" (env "OPENAI_API_KEY") (probes GPTAdapter)
           "gpt4_primary" "GPT-4 Primary" "openai"
           ["code_generation"; "documentation"; "analysis"]
    else s1 in
  let s3 :=
    if str_truthy (env "GOOGLE_API_KEY")
    then try_register s2 env "gemini" (env "GOOGLE_API_KEY")
           (probes GeminiAdapter)
           "gemini_pro" "Gemini Pro" "google"
           ["analysis"; "documentation"; "general"]
    else s2 in
  let s4 :=
    if str_truthy (env "ANTHROPIC_API_KEY")
    then try_register s3 env "anthropic" (env "ANTHROPIC_API_KEY")
           (probes AnthropicAdapter)
           "claude3_opus" "Claude 3 Opus" "anthropic"
           ["code_generation"; "analysis"; "documentation"]
    else s3 in
  if str_truthy (env "XAI_API_KEY")
  then try_register s4 env "grok" (env "XAI_API_KEY") (probes GrokAdapter)
         "grok_beta" "Grok Beta" "xai" ["analysis"; "general"]
  else s4.

(** [n] calls of [_execute_task] in a row on the same task and agent, each
    meeting the same answer from the adapter. *)
Definition execute_times (n : nat) (s : AgentOrchestrator)
    (task agent_id : string) (env : ExecEnv) : AgentOrchestrator :=
  Nat.iter n (fun s => fst (_execute_task s task agent_id env)) s.

(* ================================================================== *)
(** ** Invariants of runs *)

(** The store is a dictionary keyed by the tasks' own ids, and the queue
    and the pending puts only refer to stored tasks. *)
Definition store_consistent (s : AgentOrchestrator) : Prop :=
  NoDup (dict_keys (tasks s))
  /\ (forall k t, In (k, t) (tasks s) -> task_id t = k)
  /\ (forall k, In k (task_queue s) -> In k (dict_keys (tasks s)))
  /\ (forall k, In k (pending_puts s) -> In k (dict_keys (tasks s))).

(** What a task record looks like whenever no call is under way. *)
Definition settled_task (t : Task) : Prop :=
  max_retries t = 3
  /\ 0 <= retry_count t <= 3
  /\ match status t with
     | PENDING => assigned_agent t = None
     | COMPLETED =>
         started_at t <> None
         /\ completed_at t <> None /\ assigned_agent t <> None
     | FAILED =>
         error t <> None /\ started_at t <> None
         /\ completed_at t <> None /\ assigned_agent t <> None
         /\ retry_count t = 3
     | ASSIGNED | IN_PROGRESS | CANCELLED => False
     end.

Definition tasks_settled (s : AgentOrchestrator) : Prop :=
  forall k t, In (k, t) (tasks s) -> settled_task t.

(** The registry is a dictionary keyed by the agents' own ids, every agent
    in it is free, and every adapter belongs to a registered agent. *)
Definition registry_free (s : AgentOrchestrator) : Prop :=
  NoDup (dict_keys (agents s))
  /\ (forall k a, In (k, a) (agents s) ->
        agent_id a = k /\ agent_status a = IDLE /\ current_task a = None)
  /\ (forall k, In k (dict_keys (agent_adapters s)) ->
        In k (dict_keys (agents s))).

(** No call under way: the gauge is at zero and the registry is free. *)
Definition quiescent (s : AgentOrchestrator) : Prop :=
  active_tasks s = 0 /\ registry_free s.

(** The sum of one counter over all providers. *)
Definition metrics_sum (f : Metrics -> Z) (pm : dict Metrics) : Z :=
  fold_right (fun kv acc => f (snd kv) + acc) 0 pm.

(** How many worker turns of a trace ran the adapter, and with which
    result. *)
Definition count_events (f : WorkerEvent -> bool) (trace : list WorkerEvent) : Z :=
  Z.of_nat (List.length (filter f trace)).

Definition executed (e : WorkerEvent) : bool :=
  match e with Executed _ _ _ => true | _ => false end.

Definition executed_with (ok : bool) (e : WorkerEvent) : bool :=
  match e with Executed _ _ b => Bool.eqb b ok | _ => false end.

(** The three provider counters, summed, moved from [s0] to [s] by what the
    trace records. *)
Definition sums_match (s0 s : AgentOrchestrator) (trace : list WorkerEvent) : Prop :=
  metrics_sum total_tasks (performance_metrics s)
  = metrics_sum total_tasks (performance_metrics s0)
    + count_events executed trace
  /\ metrics_sum successful_tasks (performance_metrics s)
     = metrics_sum successful_tasks (performance_metrics s0)
       + count_events (executed_with true) trace
  /\ metrics_sum failed_tasks (performance_metrics s)
     = metrics_sum failed_tasks (performance_metrics s0)
       + count_events (executed_with false) trace.

(** A block of the bootstrap whose adapter is ready ([ready]) registers
    its agent with that adapter; any other block leaves the state alone. *)
Definition register_when (ready : bool) (s : AgentOrchestrator)
    (id name provider : string) (capabilities : list string)
    (adapter : Adapter) : AgentOrchestrator :=
  if ready
  then fst (register_agent s id name provider capabilities (Some adapter) None)
  else s.

(* ================================================================== *)
(** ** Concrete scenarios *)

Module Scenario.

(** A worker of provider "openai" holding task "t1" in flight. *)
Definition busy_agent : AgentInfo :=
  mkAgentInfo "gpt4_primary" "GPT-4" "openai" ["code_generation"] BUSY
              (Some "t1") 2%N 1%N PyFloat.zero None [].

Definition in_flight : Task :=
  mkTask "t1" "code_generation" "write it" HIGH IN_PROGRESS
         (Some "gpt4_primary") 100 (Some 105) None None None [] [] 0 3.

Definition busy_state : AgentOrchestrator :=
  mkOrch [("gpt4_primary", busy_agent)] [("t1", in_flight)] []
         10 1 [] [("gpt4_primary", "GPTAdapter")] true [].

(** The same moment with more around it: "t0" was completed by the same
    agent earlier, "t2" waits in the queue, and a second agent is
    registered. *)
Definition done_before : Task :=
  mkTask "t0" "code_generation" "earlier" LOW COMPLETED (Some "gpt4_primary")
         90 (Some 91) (Some 95) (Some (PyStr "done")) None [] [] 0 3.

Definition queued : Task :=
  mkTask "t2" "documentation" "next" MEDIUM PENDING None 101 None None None
         None [] [] 0 3.

Definition idle_agent : AgentInfo :=
  mkAgentInfo "claude" "Claude" "anthropic" ["documentation"] IDLE None 0%N
              0%N PyFloat.zero None [].

Definition crowded_state : AgentOrchestrator :=
  mkOrch [("gpt4_primary", busy_agent); ("claude", idle_agent)]
         [("t0", done_before); ("t1", in_flight); ("t2", queued)] ["t2"]
         10 1 [] [("gpt4_primary", "GPTAdapter"); ("claude", "AnthropicAdapter")]
         true [].

(** Two fresh agents with the same capabilities, registered as "b" then
    "a", and a task either of them can take. *)
Definition agent_b : AgentInfo :=
  mkAgentInfo "b" "second" "google" ["general"] IDLE None 0%N 0%N
              PyFloat.zero None [].

Definition agent_a : AgentInfo :=
  mkAgentInfo "a" "first" "xai" ["general"] IDLE None 0%N 0%N
              PyFloat.zero None [].

Definition tied_state : AgentOrchestrator :=
  fst (register_agent
         (fst (register_agent (init 10) "b" "second" "google" ["general"]
                              (Some "GeminiAdapter") None))
         "a" "first" "xai" ["general"] (Some "GrokAdapter") None).

(** A "general" agent registered first, then two analysts, all fresh: the
    analysts tie at the best score. *)
Definition ranked_state : AgentOrchestrator :=
  fst (register_agent
         (fst (register_agent
                 (fst (register_agent (init 10) "low" "generalist" "local"
                                      ["general"] (Some "LocalAdapter") None))
                 "b" "second" "google" ["analysis"] (Some "GeminiAdapter")
                 None))
         "a" "first" "xai" ["analysis"] (Some "GrokAdapter") None).

Definition analysis_task : Task :=
  mkTask "t7" "analysis" "look into it" MEDIUM PENDING None 50 None None
         None None [] [] 0 3.

(** A seasoned agent next to a fresh one. *)
Definition veteran : AgentInfo :=
  mkAgentInfo "v" "veteran" "openai" ["analysis"] IDLE None 3%N 1%N
              (PyFloat.div (PyFloat.of_int 1) (PyFloat.of_int 4)) (Some 40) [].

Definition mixed_state : AgentOrchestrator :=
  mkOrch [("b", agent_b); ("v", veteran); ("a", agent_a)] [] [] 10 0 []
         [("b", "GeminiAdapter"); ("v", "GPTAdapter"); ("a", "GrokAdapter")]
         true [].

(** Half a second. *)
Definition half : float := PyFloat.div (PyFloat.of_int 1) (PyFloat.of_int 2).

Definition ok_env : ExecEnv := mkEnv 10 (Returned (PyStr "ok")) half 11 12.

Definition fail_env : ExecEnv := mkEnv 30 (Raised "boom") half 31 32.

(** A low-priority submission followed by a critical one. *)
Definition two_priorities : list Action :=
  [ DoSubmit "t-low" 1 "general" "later" LOW None;
    DoSubmit "t-crit" 2 "general" "urgent" CRITICAL None ].

(** A coding agent runs "t1" to completion.  "t2", a documentation task
    that depends on "t1", is submitted next and queued; the worker that
    takes it finds no eligible agent and puts it back; the watcher then
    makes its pass. *)
Definition duplicating : list Action :=
  [ DoRegister "coder" "Coder" "openai" ["code_generation"] (Some "GPTAdapter");
    DoSubmit "t1" 1 "code_generation" "first" MEDIUM None;
    DoWork ok_env;
    DoSubmit "t2" 20 "documentation" "second" MEDIUM (Some ["t1"]);
    DoWork ok_env;
    DoWatch ].

(** "t1" gets two slots in the queue (a watcher pass).  Its first execution
    succeeds and promotes "t2"; its second fails and is retried behind
    "t2"; "t2" completes; then "t1" completes once more. *)
Definition completing_twice : list Action :=
  [ DoRegister "w" "worker" "openai" ["general"] (Some "GPTAdapter");
    DoSubmit "t0" 1 "general" "zeroth" MEDIUM None;
    DoWork ok_env;
    DoSubmit "t1" 2 "general" "first" MEDIUM (Some ["t0"]);
    DoWatch;
    DoSubmit "t2" 3 "general" "second" MEDIUM (Some ["t1"]);
    DoWork ok_env; DoWork fail_env; DoWork ok_env; DoWork ok_env ].


(** One agent and one queued task, about to be executed. *)
Definition ready_state : AgentOrchestrator :=
  fst (run (init 10)
         [ DoRegister "w" "worker" "openai" ["general"] (Some "GPTAdapter");
           DoSubmit "t1" 1 "general" "first" MEDIUM None ]).

(** "t2" waits for "t1", which has completed; "t3" waits for "t2". *)
Definition waiting_state : AgentOrchestrator :=
  fst (run (init 10)
         [ DoRegister "w" "worker" "openai" ["general"] (Some "GPTAdapter");
           DoSubmit "t1" 1 "general" "first" MEDIUM None;
           DoSubmit "t2" 2 "general" "second" MEDIUM (Some ["t1"]);
           DoSubmit "t3" 3 "general" "third" MEDIUM (Some ["t2"]);
           DoWork ok_env ]).

Definition some_updates : list (string * bool * float) :=
  [ ("openai", true, half); ("google", false, half); ("openai", false, half) ].

(** An agent registered without an adapter, with a task waiting for it. *)
Definition bare_state : AgentOrchestrator :=
  fst (run (init 10)
         [ DoRegister "bare" "No adapter" "local" ["general"] None;
           DoSubmit "t5" 7 "general" "anything" HIGH None ]).

(** "t1" has completed; nothing is queued. *)
Definition settled_state : AgentOrchestrator :=
  fst (run (init 10)
         [ DoRegister "w" "worker" "openai" ["general"] (Some "GPTAdapter");
           DoSubmit "t1" 1 "general" "first" MEDIUM None;
           DoWork ok_env ]).

(** Only the Anthropic key is set; the MCP endpoint answers, nothing else
    is reachable. *)
Definition sample_env : Env :=
  fun v => if String.eqb v "ANTHROPIC_API_KEY" then Some "sk-ant" else None.

Definition sample_probes (c : AdapterClass) : Probe :=
  match c with
  | ClaudeFlowAdapter => Answered 200
  | _ => Unreachable "connection refused"
  end.

Definition sample_registration : AgentRegistration :=
  mkRegistration "opus" "Opus" "Claude" ["analysis"] None None.

(** "t1" is at the head of the queue with a worker for it; "t2" waits for
    "t1" and is not queued. *)
Definition chained_state : AgentOrchestrator :=
  fst (run (init 10)
         [ DoRegister "w" "worker" "openai" ["general"] (Some "GPTAdapter");
           DoSubmit "t1" 1 "general" "first" MEDIUM None;
           DoSubmit "t2" 2 "general" "second" MEDIUM (Some ["t1"]) ]).

End Scenario.

(* ================================================================== *)
(** ** Dictionaries *)

Section DictFacts.
Context {V : Type}.
Implicit Types (d : dict V) (k : string) (v : V).

Lemma dict_get_set_same d k v : dict_get (dict_set d k v) k = Some v.
Proof.
  induction d as [|[k' v'] r IH]; simpl.
  - now rewrite String.eqb_refl.
  - destruct (String.eqb k' k) eqn:E; simpl.
    + now rewrite String.eqb_refl.
    + now rewrite E.
Qed.

Lemma dict_get_set_other d k k' v :
  k <> k' -> dict_get (dict_set d k v) k' = dict_get d k'.
Proof.
  intros Hne. induction d as [|[k0 v0] r IH]; simpl.
  - destruct (String.eqb_spec k k'); congruence.
  - destruct (String.eqb_spec k0 k) as [->|Hk]; simpl.
    + destruct (String.eqb_spec k k'); congruence.
    + now rewrite IH.
Qed.

Lemma dict_get_del_same d k : dict_get (dict_del d k) k = None.
Proof.
  unfold dict_del. induction d as [|[k' v'] r IH]; simpl; auto.
  destruct (String.eqb k' k) eqn:E; simpl; auto.
  now rewrite E.
Qed.

Lemma dict_get_del_other d k k' :
  k <> k' -> dict_get (dict_del d k) k' = dict_get d k'.
Proof.
  intros Hne. unfold dict_del. induction d as [|[k0 v0] r IH]; simpl; auto.
  destruct (String.eqb_spec k0 k) as [->|Hk]; simpl.
  - destruct (String.eqb_spec k k'); congruence.
  - now rewrite IH.
Qed.

Lemma dict_get_In d k v : dict_get d k = Some v -> In (k, v) d.
Proof.
  induction d as [|[k' v'] r IH]; simpl; [discriminate|].
  destruct (String.eqb_spec k' k) as [->|Hk]; intros H.
  - left. congruence.
  - right. auto.
Qed.

(** In-place mutation of the values leaves every key where it is. *)
Lemma dict_get_map_values (f : string * V -> V) d k :
  dict_get (map (fun kv => (fst kv, f kv)) d) k
  = match dict_get d k with Some v => Some (f (k, v)) | None => None end.
Proof.
  induction d as [|[k' v'] r IH]; simpl; auto.
  destruct (String.eqb_spec k' k) as [->|Hk]; auto.
Qed.

End DictFacts.

Lemma put_all_app q xs : put_all q xs = (q ++ xs)%list.
Proof.
  unfold put_all. revert q.
  induction xs as [|x xs IH]; intros q; simpl.
  - now rewrite app_nil_r.
  - rewrite IH. unfold queue_put. now rewrite <- app_assoc.
Qed.

(* ================================================================== *)
(** ** Agent registry *)

(** C10: registering an agent, whether or not the id is already taken,
    returns and stores a freshly built record: status IDLE, no current task,
    both counters 0 and average response time 0.0.  The record does not
    depend on the state, so whatever an older record under the same id held
    is gone. *)
Theorem register_agent_fresh_record :
  forall s id name prov caps adapter metadata,
    let r := register_agent s id name prov caps adapter metadata in
    agent_status (snd r) = IDLE
    /\ current_task (snd r) = None
    /\ tasks_completed (snd r) = 0%N
    /\ tasks_failed (snd r) = 0%N
    /\ average_response_time (snd r) = PyFloat.zero
    /\ dict_get (agents (fst r)) id = Some (snd r)
    /\ snd r = snd (register_agent (init 10) id name prov caps adapter metadata).
Proof.
  intros s id name prov caps adapter metadata r.
  subst r. unfold register_agent.
  destruct adapter as [a|]; cbn [fst snd agents set_agents set_agent_adapters
    agent_status current_task tasks_completed tasks_failed
    average_response_time];
    repeat split; apply dict_get_set_same.
Qed.

Lemma dict_del_absent {V} (d : dict V) k :
  dict_get d k = None -> dict_del d k = d.
Proof.
  unfold dict_del. induction d as [|[k' v] r IH]; simpl; auto.
  destruct (String.eqb k' k); [discriminate|].
  intros H. simpl. now rewrite IH.
Qed.

Lemma keys_dict_del_filter {V} (d : dict V) k :
  dict_keys (dict_del d k)
  = filter (fun k' => negb (String.eqb k' k)) (dict_keys d).
Proof.
  unfold dict_keys, dict_del. induction d as [|[k' v] r IH]; simpl; auto.
  destruct (String.eqb k' k); simpl; now rewrite IH.
Qed.

Lemma held_by_iff id t :
  held_by id t = true
  <-> assigned_agent t = Some id
      /\ (status t = ASSIGNED \/ status t = IN_PROGRESS).
Proof.
  unfold held_by. rewrite andb_true_iff, orb_true_iff.
  destruct (assigned_agent t) as [a|].
  - destruct (String.eqb_spec a id) as [->|Hne];
      destruct (status t); simpl; intuition congruence.
  - intuition congruence.
Qed.

Lemma release_held_values id (store : dict Task) :
  map (release_held id) store
  = map (fun kv => (fst kv, if held_by id (snd kv)
                            then release_task (snd kv) else snd kv)) store.
Proof.
  apply map_ext. intros [k t]. unfold release_held. simpl.
  now destruct (held_by id t).
Qed.

Lemma drop_agent_fields s id :
  agents (drop_agent s id) = dict_del (agents s) id
  /\ agent_adapters (drop_agent s id) = dict_del (agent_adapters s) id
  /\ tasks (drop_agent s id) = tasks s
  /\ task_queue (drop_agent s id) = task_queue s
  /\ pending_puts (drop_agent s id) = pending_puts s
  /\ active_tasks (drop_agent s id) = active_tasks s
  /\ performance_metrics (drop_agent s id) = performance_metrics s
  /\ max_concurrent_tasks (drop_agent s id) = max_concurrent_tasks s
  /\ running (drop_agent s id) = running s.
Proof.
  unfold drop_agent, dict_mem. cbn [agent_adapters set_agents].
  destruct (dict_get (agent_adapters s) id) eqn:E; simpl;
    repeat split; auto.
  symmetry. now apply dict_del_absent.
Qed.

Lemma unregister_agent_unknown s id :
  dict_get (agents s) id = None -> unregister_agent s id = (s, false).
Proof. intros H. unfold unregister_agent, dict_mem. now rewrite H. Qed.

Lemma unregister_agent_cases s id :
  unregister_agent s id = (s, false)
  \/ exists a, dict_get (agents s) id = Some a.
Proof.
  destruct (dict_get (agents s) id) as [a|] eqn:Ha; [right; eauto|left].
  now apply unregister_agent_unknown.
Qed.

(** Running a pending put moves nothing but the queue and the pending
    list. *)
Lemma run_pending_put_frame s :
  agents (run_pending_put s) = agents s
  /\ tasks (run_pending_put s) = tasks s
  /\ agent_adapters (run_pending_put s) = agent_adapters s
  /\ active_tasks (run_pending_put s) = active_tasks s
  /\ performance_metrics (run_pending_put s) = performance_metrics s.
Proof. unfold run_pending_put. now destruct (pending_puts s). Qed.

(** The state [unregister_agent] leaves for a registered agent. *)
Lemma unregister_agent_fields s id a :
  dict_get (agents s) id = Some a ->
  let s' := fst (unregister_agent s id) in
  snd (unregister_agent s id) = true
  /\ agents s' = dict_del (agents s) id
  /\ agent_adapters s' = dict_del (agent_adapters s) id
  /\ tasks s' = map (release_held id) (tasks s)
  /\ task_queue s' = task_queue s
  /\ pending_puts s' =
       (pending_puts s
        ++ dict_keys (filter (fun kv => held_by id (snd kv)) (tasks s)))%list
  /\ active_tasks s' = active_tasks s
  /\ performance_metrics s' = performance_metrics s
  /\ max_concurrent_tasks s' = max_concurrent_tasks s
  /\ running s' = running s.
Proof.
  intros Ha. unfold unregister_agent, dict_mem. rewrite Ha. cbn [fst snd].
  match goal with
  | |- context [drop_agent ?s0 id] =>
      destruct (drop_agent_fields s0 id)
        as (E1 & E2 & E3 & E4 & E5 & E6 & E7 & E8 & E9)
  end.
  rewrite E1, E2, E3, E4, E5, E6, E7, E8, E9.
  repeat split.
Qed.

(** C9: unregistering a registered agent (a BUSY one in particular) returns
    true.  Every task assigned to it whose status is ASSIGNED or
    IN_PROGRESS is back in PENDING with no assigned agent and all its other
    fields as they were, and every other task is untouched.  The requeue is
    a put handed to the event loop for each such task, in the order of the
    store: the queue is unchanged when the call returns, and the tasks
    stand at the back of the queue, behind what was queued or pending
    before, once the loop has run the puts.  The agent and its adapter are
    gone, the other agents and adapters stay as they were and in their
    order, and metrics and gauge are not touched.  Unregistering an unknown
    id returns false and changes nothing. *)
Theorem unregister_agent_requeues :
  forall s id,
    (forall a, dict_get (agents s) id = Some a ->
       let s' := fst (unregister_agent s id) in
       let puts :=
         dict_keys (filter (fun kv => held_by id (snd kv)) (tasks s)) in
       snd (unregister_agent s id) = true
       /\ (forall t, held_by id t = true
                     <-> assigned_agent t = Some id
                         /\ (status t = ASSIGNED \/ status t = IN_PROGRESS))
       /\ dict_keys (tasks s') = dict_keys (tasks s)
       /\ (forall k t, dict_get (tasks s) k = Some t ->
             dict_get (tasks s') k
             = Some (if held_by id t
                     then mkTask (task_id t) (task_type t) (prompt t)
                                 (priority t) PENDING None (created_at t)
                                 (started_at t) (completed_at t) (result t)
                                 (error t) (task_metadata t) (dependencies t)
                                 (retry_count t) (max_retries t)
                     else t))
       /\ task_queue s' = task_queue s
       /\ pending_puts s' = (pending_puts s ++ puts)%list
       /\ task_queue (run_pending_puts s')
          = (task_queue s ++ pending_puts s ++ puts)%list
       /\ pending_puts (run_pending_puts s') = []
       /\ dict_get (agents s') id = None
       /\ dict_get (agent_adapters s') id = None
       /\ dict_keys (agents s')
          = filter (fun k => negb (String.eqb k id)) (dict_keys (agents s))
       /\ dict_keys (agent_adapters s')
          = filter (fun k => negb (String.eqb k id))
                   (dict_keys (agent_adapters s))
       /\ (forall k, k <> id ->
             dict_get (agents s') k = dict_get (agents s) k
             /\ dict_get (agent_adapters s') k = dict_get (agent_adapters s) k)
       /\ performance_metrics s' = performance_metrics s
       /\ active_tasks s' = active_tasks s
       /\ max_concurrent_tasks s' = max_concurrent_tasks s
       /\ running s' = running s)
    /\ (dict_get (agents s) id = None -> unregister_agent s id = (s, false)).
Proof.
  intros s id. split; [|apply unregister_agent_unknown].
  intros a Ha s' puts. subst s' puts.
  destruct (unregister_agent_fields s id a Ha)
    as (Hok & Hag & Had & Htk & Hq & Hp & Hact & Hpm & Hmax & Hrun).
  split; [exact Hok|].
  split; [intros t; apply held_by_iff|].
  split.
  { rewrite Htk. unfold dict_keys. rewrite map_map. apply map_ext.
    intros [k t]. unfold release_held. simpl. now destruct (held_by id t). }
  split.
  { intros k t Hk. rewrite Htk, release_held_values.
    rewrite (dict_get_map_values
               (fun kv => if held_by id (snd kv)
                          then release_task (snd kv) else snd kv)), Hk.
    simpl. now destruct (held_by id t). }
  split; [exact Hq|]. split; [exact Hp|].
  split.
  { unfold run_pending_puts. cbn [task_queue set_pending_puts set_task_queue].
    now rewrite put_all_app, Hq, Hp. }
  split; [reflexivity|].
  split; [rewrite Hag; apply dict_get_del_same|].
  split; [rewrite Had; apply dict_get_del_same|].
  split; [rewrite Hag; apply keys_dict_del_filter|].
  split; [rewrite Had; apply keys_dict_del_filter|].
  split; [|repeat split; assumption].
  intros k Hk. rewrite Hag, Had.
  split; apply dict_get_del_other; congruence.
Qed.

Lemma unregister_agent_requeues_witness :
  dict_get (agents Scenario.crowded_state) "gpt4_primary"
  = Some Scenario.busy_agent
  /\ snd (unregister_agent Scenario.crowded_state "gpt4_primary") = true
  /\ dict_get (tasks (fst (unregister_agent Scenario.crowded_state
                             "gpt4_primary"))) "t1"
     = Some (mkTask "t1" "code_generation" "write it" HIGH PENDING None 100
                    (Some 105) None None None [] [] 0 3)
  /\ dict_get (tasks (fst (unregister_agent Scenario.crowded_state
                             "gpt4_primary"))) "t0"
     = Some Scenario.done_before
  /\ task_queue (fst (unregister_agent Scenario.crowded_state "gpt4_primary"))
     = ["t2"]
  /\ pending_puts (fst (unregister_agent Scenario.crowded_state
                          "gpt4_primary")) = ["t1"]
  /\ task_queue (run_pending_puts
                   (fst (unregister_agent Scenario.crowded_state
                           "gpt4_primary"))) = ["t2"; "t1"]
  /\ dict_keys (agents (fst (unregister_agent Scenario.crowded_state
                               "gpt4_primary"))) = ["claude"].
Proof.
  split; [reflexivity|].
  destruct (proj1 (unregister_agent_requeues Scenario.crowded_state
                     "gpt4_primary") Scenario.busy_agent eq_refl)
    as (Hok & _ & _ & Hget & Hq & Hp & Hrun & _ & _ & _ & Hkeys & _).
  split; [exact Hok|].
  split; [exact (Hget "t1" Scenario.in_flight eq_refl)|].
  split; [exact (Hget "t0" Scenario.done_before eq_refl)|].
  split; [exact Hq|]. split; [exact Hp|].
  split; [exact Hrun|exact Hkeys].
Defined.

(** Outside a running event loop the call only returns when it has nothing
    to requeue: with a task to requeue, [asyncio.create_task] raises after
    that task has been reset, and agent and adapter stay registered. *)
Lemma unregister_outside_loop :
  (forall s id,
     (forall k t, In (k, t) (tasks s) -> held_by id t = false) ->
     unregister_agent_no_loop s id
     = (fst (unregister_agent s id), Ok (snd (unregister_agent s id))))
  /\ unregister_agent_no_loop Scenario.busy_state "gpt4_primary"
     = (set_tasks Scenario.busy_state
                  [("t1", release_task Scenario.in_flight)],
        Exc (RuntimeError "no running event loop")).
Proof.
  split; [|reflexivity].
  intros s id Hfree.
  assert (Hnone : release_first id (tasks s) = None
                  /\ map (release_held id) (tasks s) = tasks s
                  /\ filter (fun kv => held_by id (snd kv)) (tasks s) = []).
  { revert Hfree. generalize (tasks s) as l.
    induction l as [|[k t] r IH]; intros Hfree; simpl; auto.
    unfold release_held at 1. simpl. rewrite (Hfree k t) by now left.
    destruct IH as (I1 & I2 & I3);
      [intros k' t' Hin; apply (Hfree k' t'); now right|].
    rewrite I1, I2, I3. auto. }
  destruct Hnone as (H1 & H2 & H3).
  unfold unregister_agent_no_loop, unregister_agent.
  destruct (dict_mem (agents s) id); [|reflexivity].
  rewrite H1, H2, H3. cbn [dict_keys map fst snd]. rewrite app_nil_r.
  destruct s; reflexivity.
Qed.

(** A put made before the caller gives way lands first: a task submitted
    right after the call stands in the queue ahead of the requeued one. *)
Example deferred_put_lands_last :
  task_queue
    (fst (run Scenario.crowded_state
            [ DoUnregister "gpt4_primary";
              DoSubmit "t9" 110 "documentation" "more" LOW None;
              DoPut ]))
  = ["t2"; "t9"; "t1"].
Proof. reflexivity. Qed.

(* ================================================================== *)
(** ** Order facts on floats *)

Module FloatOrder.

Ltac split_compare :=
  repeat match goal with
         | |- context [Z.compare ?x ?y] => destruct (Z.compare_spec x y)
         | H : context [Z.compare ?x ?y] |- _ => destruct (Z.compare_spec x y)
         | |- context [Pos.compare ?x ?y] => destruct (Pos.compare_spec x y)
         | H : context [Pos.compare ?x ?y] |- _ =>
             destruct (Pos.compare_spec x y)
         end.

Lemma ltb_irrefl x : PyFloat.ltb x x = false.
Proof.
  unfold PyFloat.ltb, SFltb.
  destruct x as [[]|[]| |[] m e]; simpl; try reflexivity;
    rewrite Z.compare_refl;
    change (Pos.compare_cont Eq m m) with (Pos.compare m m);
    now rewrite Pos.compare_refl.
Qed.

Lemma ltb_asym x y : PyFloat.ltb x y = true -> PyFloat.ltb y x = false.
Proof.
  unfold PyFloat.ltb, SFltb.
  destruct x as [[]|[]| |[] mx ex], y as [[]|[]| |[] my ey]; simpl;
    try reflexivity; try discriminate;
    change (Pos.compare_cont Eq mx my) with (Pos.compare mx my);
    change (Pos.compare_cont Eq my mx) with (Pos.compare my mx);
    split_compare; simpl; try reflexivity; try discriminate; lia.
Qed.

(** "Not below" is transitive away from NaN. *)
Lemma ltb_neg_trans x y z :
  PyFloat.is_nan y = false ->
  PyFloat.ltb x y = false -> PyFloat.ltb y z = false ->
  PyFloat.ltb x z = false.
Proof.
  unfold PyFloat.ltb, SFltb.
  destruct x as [[]|[]| |[] mx ex], y as [[]|[]| |[] my ey],
           z as [[]|[]| |[] mz ez]; simpl;
    try reflexivity; try discriminate;
    intros _;
    change (Pos.compare_cont Eq mx my) with (Pos.compare mx my);
    change (Pos.compare_cont Eq my mz) with (Pos.compare my mz);
    change (Pos.compare_cont Eq mx mz) with (Pos.compare mx mz);
    split_compare; simpl; try reflexivity; try discriminate; lia.
Qed.

(** The literal is the double nearest to one tenth. *)
Lemma lit_0_1_nearest :
  PyFloat.lit_0_1 = PyFloat.div (PyFloat.of_int 1) (PyFloat.of_int 10).
Proof. vm_compute. reflexivity. Qed.

Lemma mul_comm x y : PyFloat.mul x y = PyFloat.mul y x.
Proof.
  unfold PyFloat.mul, SFmul.
  destruct x as [[]|[]| |[] mx ex], y as [[]|[]| |[] my ey];
    try reflexivity;
    now rewrite (Pos.mul_comm mx my), (Z.add_comm ex ey).
Qed.

End FloatOrder.

(* ================================================================== *)
(** ** Selector *)

Section SelectorFacts.

Implicit Types (l : list (string * float)) (b x : string * float).

Lemma sort_desc_head l :
  match sort_desc l with [] => None | b :: _ => Some b end = first_best l.
Proof.
  induction l as [|x r IH]; simpl; auto.
  rewrite <- IH. destruct (sort_desc r) as [|y r']; simpl; auto.
  now destruct (PyFloat.ltb (snd x) (snd y)).
Qed.

Lemma first_best_none l : first_best l = None <-> l = [].
Proof.
  split; [|now intros ->].
  destruct l as [|x r]; simpl; auto.
  destruct (first_best r) as [y|]; [|discriminate].
  now destruct (PyFloat.ltb (snd x) (snd y)).
Qed.

(** Where the winner sits: everything before it scores strictly lower,
    and, NaN aside, nothing after it scores higher. *)
Lemma first_best_split l b :
  first_best l = Some b ->
  exists l1 l2,
    l = (l1 ++ b :: l2)%list
    /\ (forall x, In x l1 -> PyFloat.ltb (snd x) (snd b) = true)
    /\ ((forall x, In x l -> PyFloat.is_nan (snd x) = false) ->
        forall x, In x l2 -> PyFloat.ltb (snd b) (snd x) = false).
Proof.
  revert b. induction l as [|x r IH]; simpl; [discriminate|].
  intros b. destruct (first_best r) as [y|] eqn:Hr.
  - destruct (IH y eq_refl) as (l1 & l2 & -> & Hlow & Hhigh).
    destruct (PyFloat.ltb (snd x) (snd y)) eqn:Hxy; intros [= <-].
    + exists (x :: l1), l2. split; [reflexivity|]. split.
      * intros z [<-|Hz]; auto.
      * intros Hnan. apply Hhigh. intros z Hz. apply Hnan. now right.
    + exists [], (l1 ++ y :: l2)%list. split; [reflexivity|]. split.
      * intros z [].
      * intros Hnan z Hz.
        assert (Hy : PyFloat.is_nan (snd y) = false).
        { apply Hnan. right. apply in_or_app. right. now left. }
        apply (FloatOrder.ltb_neg_trans _ (snd y)); auto.
        apply in_app_or in Hz. destruct Hz as [Hz|[<-|Hz]].
        -- apply FloatOrder.ltb_asym. auto.
        -- apply FloatOrder.ltb_irrefl.
        -- apply Hhigh; auto.
  - apply first_best_none in Hr. subst r. intros [= <-].
    exists [], []. split; [reflexivity|].
    split; [intros z []|intros _ z []].
Qed.

Lemma filter_split {A} (p : A -> bool) (l l1 : list A) (x : A) (l2 : list A) :
  filter p l = (l1 ++ x :: l2)%list ->
  exists r1 r2,
    l = (r1 ++ x :: r2)%list
    /\ filter p r1 = l1 /\ p x = true /\ filter p r2 = l2.
Proof.
  revert l1. induction l as [|a l' IH]; intros l1; simpl.
  - destruct l1; discriminate.
  - destruct (p a) eqn:Hpa.
    + destruct l1 as [|a' l1']; simpl; intros [= -> H].
      * exists [], l'. simpl. auto.
      * destruct (IH _ H) as (r1 & r2 & -> & <- & Hx & <-).
        exists (a' :: r1), r2. simpl. rewrite Hpa. auto.
    + intros H. destruct (IH _ H) as (r1 & r2 & -> & <- & Hx & <-).
      exists (a :: r1), r2. simpl. rewrite Hpa. auto.
Qed.

Lemma select_first_best s task :
  _select_agent_for_task s task
  = option_map fst (first_best (candidates task (agents s))).
Proof.
  unfold _select_agent_for_task.
  rewrite <- sort_desc_head.
  now destruct (sort_desc (candidates task (agents s))).
Qed.

Lemma eligible_spec task agent :
  eligible task agent = spec_eligible task agent.
Proof.
  unfold eligible, spec_eligible.
  now destruct (AgentStatus_eqb _ _), (str_in (task_type task) _),
               (str_in "general" _).
Qed.

Lemma agent_score_spec task agent :
  eligible task agent = true ->
  agent_score task agent = spec_score task agent.
Proof.
  unfold eligible, agent_score, spec_score. intros He.
  apply andb_true_iff in He. destruct He as [_ He].
  rewrite (FloatOrder.mul_comm PyFloat.lit_0_1).
  destruct (str_in (task_type task) (capabilities agent)) eqn:Ht.
  - destruct (tasks_completed agent) as [|c]; simpl; [reflexivity|].
    now destruct (tasks_failed agent).
  - destruct (str_in "general" (capabilities agent)); [|discriminate].
    destruct (tasks_completed agent) as [|c]; simpl; [reflexivity|].
    now destruct (tasks_failed agent).
Qed.

Lemma nan_free_In l :
  nan_free l -> forall x, In x l -> PyFloat.is_nan (snd x) = false.
Proof.
  unfold nan_free. rewrite forallb_forall. intros H x Hx.
  apply negb_true_iff. auto.
Qed.

(** The selection, located in the registry. *)
Lemma select_located s task id :
  _select_agent_for_task s task = Some id ->
  exists before agent after,
    agents s = (before ++ (id, agent) :: after)%list
    /\ eligible task agent = true
    /\ (forall k a, In (k, a) before -> eligible task a = true ->
          PyFloat.ltb (agent_score task a) (agent_score task agent) = true)
    /\ (nan_free (candidates task (agents s)) ->
        forall k a, In (k, a) after -> eligible task a = true ->
          PyFloat.ltb (agent_score task agent) (agent_score task a) = false).
Proof.
  rewrite select_first_best.
  destruct (first_best (candidates task (agents s))) as [b|] eqn:Hb;
    [|discriminate].
  simpl. intros [= <-].
  destruct (first_best_split _ _ Hb) as (l1 & l2 & Hl & Hlow & Hhigh).
  unfold candidates in Hl.
  apply map_eq_app in Hl. destruct Hl as (f1 & f2 & Hf & <- & Hf2).
  destruct f2 as [|[k0 a0] f2]; [discriminate|].
  simpl in Hf2. injection Hf2 as <- <-.
  apply filter_split in Hf.
  destruct Hf as (r1 & r2 & Hreg & <- & Hel & <-).
  exists r1, a0, r2. simpl in Hlow, Hel |- *.
  split; [exact Hreg|]. split; [exact Hel|].
  split.
  - intros k a Hin Hea.
    apply (Hlow (k, agent_score task a)).
    apply (in_map (fun kv => (fst kv, agent_score task (snd kv))) _ (k, a)).
    apply filter_In. auto.
  - intros Hnan k a Hin Hea.
    apply (Hhigh (nan_free_In _ Hnan) (k, agent_score task a)).
    apply (in_map (fun kv => (fst kv, agent_score task (snd kv))) _ (k, a)).
    apply filter_In. auto.
Qed.

Lemma select_none s task :
  _select_agent_for_task s task = None
  <-> forall k a, In (k, a) (agents s) -> eligible task a = false.
Proof.
  rewrite select_first_best. split.
  - intros H k a Hin.
    destruct (first_best (candidates task (agents s))) eqn:Hb;
      [discriminate|].
    apply first_best_none in Hb. unfold candidates in Hb.
    apply map_eq_nil in Hb.
    destruct (eligible task a) eqn:He; auto.
    assert (Hf : In (k, a) (filter (fun kv => eligible task (snd kv))
                                   (agents s))) by (apply filter_In; auto).
    rewrite Hb in Hf. destruct Hf.
  - intros H. unfold candidates.
    replace (filter (fun kv => eligible task (snd kv)) (agents s))
      with (@nil (string * AgentInfo)); [reflexivity|].
    symmetry. induction (agents s) as [|[k a] r IH]; simpl; auto.
    rewrite (H k a) by now left.
    apply IH. intros k' a' Hin. apply (H k' a'). now right.
Qed.

End SelectorFacts.

(** The veteran of the scenario scores 10 + 0.75 * 5 + (1 / 0.25) * 2 - 0.3,
    which is the double 21.45; a fresh "general" agent scores 5.0. *)
Example veteran_score :
  agent_score Scenario.analysis_task Scenario.veteran
  = S754_finite false 6037638250443571 (-48)
  /\ agent_score Scenario.analysis_task Scenario.agent_a = PyFloat.of_int 5.
Proof. split; vm_compute; reflexivity. Qed.

(** C5 (as the code has it): the selector depends on nothing but the task
    and the registry; it returns None exactly when no agent is eligible;
    otherwise it returns an eligible agent that no eligible agent outscores
    (scores being numbers, not NaN), and of the eligible agents with that
    best score the one registered first: every eligible agent that comes
    before the selected one in the registry scores strictly lower, so none
    of them has the same score. *)
Theorem select_agent_tie_break :
  forall s task,
    (forall s', agents s' = agents s ->
       _select_agent_for_task s' task = _select_agent_for_task s task)
    /\ (_select_agent_for_task s task = None
        <-> forall k a, In (k, a) (agents s) -> eligible task a = false)
    /\ (forall id, _select_agent_for_task s task = Some id ->
        exists before agent after,
          agents s = (before ++ (id, agent) :: after)%list
          /\ eligible task agent = true
          /\ (forall k a, In (k, a) before -> eligible task a = true ->
                PyFloat.ltb (agent_score task a) (agent_score task agent) = true
                /\ agent_score task a <> agent_score task agent)
          /\ (nan_free (candidates task (agents s)) ->
              forall k a, In (k, a) (agents s) -> eligible task a = true ->
                PyFloat.ltb (agent_score task agent) (agent_score task a)
                = false)).
Proof.
  intros s task. split; [|split].
  - intros s' Heq. unfold _select_agent_for_task. now rewrite Heq.
  - apply select_none.
  - intros id Hsel.
    destruct (select_located s task id Hsel)
      as (before & agent & after & Hreg & Hel & Hlow & Hhigh).
    exists before, agent, after.
    split; [exact Hreg|]. split; [exact Hel|]. split.
    + intros k a Hin Hea. pose proof (Hlow k a Hin Hea) as Hlt.
      split; [exact Hlt|]. intros Heq. rewrite Heq in Hlt.
      now rewrite FloatOrder.ltb_irrefl in Hlt.
    + intros Hnan k a Hin Hea. rewrite Hreg in Hin.
      apply in_app_or in Hin. destruct Hin as [Hin|[Heq|Hin]].
      * apply FloatOrder.ltb_asym. now apply (Hlow k a).
      * injection Heq as <- <-. apply FloatOrder.ltb_irrefl.
      * now apply (Hhigh Hnan k a).
Qed.

Lemma select_agent_tie_break_witness :
  _select_agent_for_task Scenario.ranked_state Scenario.analysis_task = Some "b"
  /\ exists before agent after,
       agents Scenario.ranked_state = (before ++ ("b", agent) :: after)%list
       /\ eligible Scenario.analysis_task agent = true
       /\ (forall k a, In (k, a) before ->
             eligible Scenario.analysis_task a = true ->
             PyFloat.ltb (agent_score Scenario.analysis_task a)
                         (agent_score Scenario.analysis_task agent) = true)
       /\ (forall k a, In (k, a) (agents Scenario.ranked_state) ->
             eligible Scenario.analysis_task a = true ->
             PyFloat.ltb (agent_score Scenario.analysis_task agent)
                         (agent_score Scenario.analysis_task a) = false).
Proof.
  split; [reflexivity|].
  destruct (proj2 (proj2 (select_agent_tie_break Scenario.ranked_state
                            Scenario.analysis_task)) "b" eq_refl)
    as (before & agent & after & Hreg & Hel & Hlow & Hhigh).
  exists before, agent, after.
  split; [exact Hreg|]. split; [exact Hel|]. split.
  - intros k a Hin Hea. now apply (Hlow k a).
  - apply Hhigh. reflexivity.
Defined.

(** C5, the tie-break as stated: with "b" registered before "a", both fresh
    and both eligible with the same score, the selector returns "b". *)
Lemma select_tie_not_lexicographic :
  ~ lexicographic_tie_break Scenario.tied_state Scenario.analysis_task.
Proof.
  intros H.
  specialize (H "b" Scenario.agent_b "a" Scenario.agent_a).
  assert (Hleb : String.leb "b" "a" = true).
  { apply H.
    - reflexivity.
    - simpl. auto.
    - simpl. auto.
    - reflexivity.
    - reflexivity. }
  discriminate Hleb.
Qed.

(** C6: the candidates are exactly the agents that are IDLE and whose
    capabilities contain the task type or "general", each scored by the
    stated formula (base 10 or 5, success-rate and response-time bonuses
    under their guards, load penalty); and the returned agent is one of them
    whose score no other candidate exceeds (scores being numbers, not
    NaN). *)
Theorem select_agent_scoring :
  forall s task,
    candidates task (agents s)
    = map (fun kv => (fst kv, spec_score task (snd kv)))
          (filter (fun kv => spec_eligible task (snd kv)) (agents s))
    /\ forall id,
        _select_agent_for_task s task = Some id ->
        nan_free (candidates task (agents s)) ->
        exists agent,
          In (id, agent) (agents s)
          /\ spec_eligible task agent = true
          /\ forall k a, In (k, a) (agents s) -> spec_eligible task a = true ->
               PyFloat.ltb (spec_score task agent) (spec_score task a) = false.
Proof.
  intros s task. split.
  - unfold candidates.
    rewrite (filter_ext _ _ (fun kv => eligible_spec task (snd kv))).
    apply map_ext_in. intros [k a] Hin. apply filter_In in Hin.
    destruct Hin as [_ Hel]. simpl in *.
    now rewrite agent_score_spec by now rewrite eligible_spec.
  - intros id Hsel Hnan.
    destruct (select_located s task id Hsel)
      as (before & agent & after & Hreg & Hel & Hlow & Hhigh).
    exists agent. split; [rewrite Hreg; apply in_or_app; right; now left|].
    split; [now rewrite <- eligible_spec|].
    intros k a Hin Hsp. rewrite <- eligible_spec in Hsp.
    rewrite <- !agent_score_spec by assumption.
    rewrite Hreg in Hin. apply in_app_or in Hin.
    destruct Hin as [Hin|[Heq|Hin]].
    + apply FloatOrder.ltb_asym. eauto.
    + injection Heq as <- <-. apply FloatOrder.ltb_irrefl.
    + eauto.
Qed.

Lemma select_agent_scoring_witness :
  _select_agent_for_task Scenario.mixed_state Scenario.analysis_task = Some "v"
  /\ nan_free (candidates Scenario.analysis_task (agents Scenario.mixed_state))
  /\ exists agent,
       In ("v", agent) (agents Scenario.mixed_state)
       /\ spec_eligible Scenario.analysis_task agent = true
       /\ forall k a, In (k, a) (agents Scenario.mixed_state) ->
            spec_eligible Scenario.analysis_task a = true ->
            PyFloat.ltb (spec_score Scenario.analysis_task agent)
                        (spec_score Scenario.analysis_task a) = false.
Proof.
  split; [reflexivity|]. split; [reflexivity|].
  apply (select_agent_scoring Scenario.mixed_state Scenario.analysis_task);
    reflexivity.
Defined.

(* ================================================================== *)
(** ** Queue order *)

Lemma drain_all q : dequeue_order q = q.
Proof.
  unfold dequeue_order. induction q as [|x r IH]; simpl; congruence.
Qed.

(** C1 (as the code has it): the ready queue is a plain FIFO.  A
    submission without dependencies goes to the back of the queue whatever
    its priority; entries are handed out in the order they were put,
    priorities and creation times playing no part; a worker turn deals with
    the oldest entry, and puts it at the back again when no agent can take
    it. *)
Theorem queue_is_fifo :
  (forall s new_id now task_type prompt priority metadata,
     task_queue (fst (submit_task s new_id now task_type prompt priority
                                  None metadata))
     = (task_queue s ++ [new_id])%list)
  /\ (forall q puts, dequeue_order (put_all q puts) = (q ++ puts)%list)
  /\ (forall s env oldest rest,
        event_task (snd (_worker (set_task_queue s (oldest :: rest)) env))
        = Some oldest)
  /\ (forall s env oldest rest task,
        dict_get (tasks s) oldest = Some task ->
        _select_agent_for_task s task = None ->
        _worker (set_task_queue s (oldest :: rest)) env
        = (set_task_queue s (rest ++ [oldest]), NoAgent oldest)).
Proof.
  split; [|split; [|split]].
  - intros. unfold submit_task. cbn [negb]. reflexivity.
  - intros. now rewrite drain_all, put_all_app.
  - intros s env oldest rest. unfold _worker.
    cbn [task_queue set_task_queue queue_get tasks].
    destruct (dict_get (tasks s) oldest) as [task|]; [|reflexivity].
    destruct (_select_agent_for_task _ task) as [agent_id|]; [|reflexivity].
    destruct (String.eqb agent_id ""); [reflexivity|].
    destruct (_execute_task _ oldest agent_id env) as [s3 [tr|e]]; reflexivity.
  - intros s env oldest rest task Htask Hnone. unfold _worker.
    assert (Hsel : forall s1, agents s1 = agents s ->
                     _select_agent_for_task s1 task = None).
    { intros s1 Heq. unfold _select_agent_for_task in *. now rewrite Heq. }
    cbn [task_queue set_task_queue queue_get tasks]. rewrite Htask.
    now rewrite Hsel by reflexivity.
Qed.

Lemma queue_is_fifo_witness :
  task_queue (fst (run (init 10) Scenario.two_priorities)) = ["t-low"; "t-crit"]
  /\ task_queue (fst (_worker (fst (run (init 10) Scenario.two_priorities))
                             Scenario.ok_env))
     = ["t-crit"; "t-low"].
Proof.
  split; [reflexivity|].
  destruct queue_is_fifo as (_ & _ & _ & Hback).
  exact (f_equal (fun r => task_queue (fst r))
           (Hback (fst (run (init 10) Scenario.two_priorities))
                  Scenario.ok_env "t-low" ["t-crit"] _ eq_refl eq_refl)).
Defined.

(** C1, priority dominance as stated: a LOW task submitted before a
    CRITICAL one is handed out first. *)
Lemma low_before_critical :
  ~ priority_dominance (fst (run (init 10) Scenario.two_priorities)).
Proof.
  intros H.
  specialize (H "t-low" ["t-crit"] "t-crit").
  cbn in H.
  specialize (H _ _ eq_refl (or_introl eq_refl) eq_refl eq_refl).
  cbn in H. lia.
Qed.

(* ================================================================== *)
(** ** Submission *)

Lemma deps_unmet (store : dict Task) (deps : list string) (d : string) :
  In d deps ->
  match dict_get store d with
  | None => True
  | Some t => status t <> COMPLETED
  end ->
  _are_dependencies_met store deps = false.
Proof.
  induction deps as [|x r IH]; simpl; [intros []|].
  intros [->|Hin] Hd.
  - destruct (dict_get store d) as [t|]; [|reflexivity].
    destruct (status t); simpl; auto; congruence.
  - destruct (dict_get store x) as [t|]; [|reflexivity].
    destruct (TaskStatus_eqb (status t) COMPLETED); auto.
Qed.

Lemma deps_met_all (store : dict Task) (deps : list string) :
  _are_dependencies_met store deps = true
  <-> forall d, In d deps ->
        exists t, dict_get store d = Some t /\ status t = COMPLETED.
Proof.
  induction deps as [|x r IH]; simpl.
  - split; [intros _ d []|reflexivity].
  - destruct (dict_get store x) as [t|] eqn:Hx.
    + destruct (status t) eqn:Hs; simpl;
        try (split; [discriminate|];
             intros H; destruct (H x (or_introl eq_refl)) as (t' & Ht' & Hc);
             congruence).
      rewrite IH. split.
      * intros H d [<-|Hd]; eauto.
      * intros H d Hd. apply H. now right.
    + split; [discriminate|].
      intros H. destruct (H x (or_introl eq_refl)) as (t' & Ht' & _).
      congruence.
Qed.

(** C2 (as the code has it): a submission that names a dependency absent
    from the store does not fail.  It returns the new id, stores the task in
    PENDING and leaves the queue as it was; the task waits for the
    dependency watcher. *)
Theorem submit_with_missing_dependency :
  forall s new_id now task_type prompt priority deps metadata,
    (exists d, In d deps /\ dict_get (tasks s) d = None) ->
    let r := submit_task s new_id now task_type prompt priority (Some deps)
                         metadata in
    snd r = Ok new_id
    /\ (exists t, dict_get (tasks (fst r)) new_id = Some t
                  /\ status t = PENDING /\ dependencies t = deps)
    /\ task_queue (fst r) = task_queue s.
Proof.
  intros s new_id now task_type prompt priority deps metadata (d & Hin & Hd) r.
  subst r. unfold submit_task.
  cbn [tasks set_tasks].
  rewrite (deps_unmet _ deps d Hin).
  - cbn [negb fst snd tasks task_queue set_tasks].
    split; [reflexivity|]. split; [|reflexivity].
    eexists. split; [apply dict_get_set_same|]. split; reflexivity.
  - destruct (String.eqb_spec new_id d) as [->|Hne].
    + rewrite dict_get_set_same. simpl. discriminate.
    + rewrite dict_get_set_other by assumption. now rewrite Hd.
Qed.

Lemma submit_with_missing_dependency_witness :
  (exists d, In d ["ghost"] /\ dict_get (tasks (init 10)) d = None)
  /\ snd (submit_task (init 10) "t9" 5 "general" "p" HIGH (Some ["ghost"]) None)
     = Ok "t9"
  /\ task_queue (fst (submit_task (init 10) "t9" 5 "general" "p" HIGH
                                  (Some ["ghost"]) None)) = [].
Proof.
  assert (Hex : exists d, In d ["ghost"] /\ dict_get (tasks (init 10)) d = None).
  { exists "ghost". split; [now left|reflexivity]. }
  split; [exact Hex|].
  destruct (submit_with_missing_dependency (init 10) "t9" 5 "general" "p" HIGH
              ["ghost"] None Hex) as (Hret & _ & Hq).
  split; [exact Hret|exact Hq].
Defined.

(** C2, as stated: submitting a task that depends on an unknown id returns
    the task id instead of failing. *)
Lemma missing_dependency_accepted :
  ~ rejects_missing_dependency (init 10) "t9" 5 "general" "p" HIGH ["ghost"].
Proof.
  intros H. destruct H as (e & He).
  - exists "ghost". split; [now left|reflexivity].
  - discriminate He.
Qed.

(* ================================================================== *)
(** ** Promotion of waiting tasks *)

Lemma TaskStatus_eqb_eq a b : TaskStatus_eqb a b = true <-> a = b.
Proof. destruct a, b; simpl; split; congruence. Qed.

Lemma str_in_In x xs : str_in x xs = true <-> In x xs.
Proof.
  unfold str_in. rewrite existsb_exists. split.
  - intros (y & Hy & Heq). apply String.eqb_eq in Heq. now subst.
  - intros H. exists x. split; [exact H|apply String.eqb_refl].
Qed.

Lemma keys_of_filter {V} (f : string * V -> bool) (d : dict V) k :
  In k (dict_keys (filter f d)) <-> exists v, In (k, v) d /\ f (k, v) = true.
Proof.
  unfold dict_keys. rewrite in_map_iff. split.
  - intros ([k' v] & <- & Hin). apply filter_In in Hin. simpl. eauto.
  - intros (v & Hin & Hf). exists (k, v). split; [reflexivity|].
    apply filter_In. auto.
Qed.

Lemma watcher_ready_iff store t :
  watcher_ready store t = true
  <-> status t = PENDING
      /\ dependencies t <> []
      /\ forall d, In d (dependencies t) ->
           exists dt, dict_get store d = Some dt /\ status dt = COMPLETED.
Proof.
  unfold watcher_ready.
  rewrite !andb_true_iff, TaskStatus_eqb_eq, deps_met_all, negb_true_iff.
  destruct (dependencies t); intuition congruence.
Qed.

Lemma promotable_iff store done t :
  promotable store done t = true
  <-> In done (dependencies t)
      /\ forall d, In d (dependencies t) ->
           exists dt, dict_get store d = Some dt /\ status dt = COMPLETED.
Proof.
  unfold promotable. now rewrite andb_true_iff, str_in_In, deps_met_all.
Qed.

Lemma NoDup_keys_filter {V} (f : string * V -> bool) (d : dict V) :
  NoDup (dict_keys d) -> NoDup (dict_keys (filter f d)).
Proof.
  unfold dict_keys. induction d as [|[k v] r IH]; simpl; auto.
  intros Hnd. inversion Hnd as [|x l Hnotin Hnd']; subst.
  destruct (f (k, v)); simpl; auto.
  constructor; [|auto].
  intros Hin. apply Hnotin. apply in_map_iff in Hin.
  destruct Hin as ([k1 v1] & Heq & Hin). apply filter_In in Hin.
  apply in_map_iff. exists (k1, v1). tauto.
Qed.

(** C3 (as the code has it): neither the dependency watcher nor the
    promotion after an execution looks at what the queue already holds:
    each appends its tasks to the queue whatever is in it, one slot per
    task, and changes nothing else.  A pass of the watcher appends exactly the stored tasks that are
    PENDING, have a non-empty prerequisite list and have every prerequisite
    COMPLETED.  The promotion appends only stored tasks that list the
    executed task and have every prerequisite COMPLETED, and it appends
    every such task that is PENDING. *)
Theorem enqueue_conditions :
  forall s,
    (exists added,
        (forall q, _check_dependencies (set_task_queue s q)
                   = set_task_queue s (q ++ added)%list)
        /\ _check_dependencies s
           = set_task_queue s (task_queue s ++ added)%list
        /\ (NoDup (dict_keys (tasks s)) -> NoDup added)
        /\ forall k, In k added <->
             exists t, In (k, t) (tasks s)
                       /\ status t = PENDING
                       /\ dependencies t <> []
                       /\ forall d, In d (dependencies t) ->
                            exists dt, dict_get (tasks s) d = Some dt
                                       /\ status dt = COMPLETED)
    /\ (forall done, exists added,
        (forall q, promote_dependents (set_task_queue s q) done
                   = set_task_queue s (q ++ added)%list)
        /\ promote_dependents s done
           = set_task_queue s (task_queue s ++ added)%list
        /\ (NoDup (dict_keys (tasks s)) -> NoDup added)
        /\ (forall k, In k added ->
             exists t, In (k, t) (tasks s)
                       /\ In done (dependencies t)
                       /\ forall d, In d (dependencies t) ->
                            exists dt, dict_get (tasks s) d = Some dt
                                       /\ status dt = COMPLETED)
        /\ (forall k t, In (k, t) (tasks s) ->
              status t = PENDING ->
              In done (dependencies t) ->
              (forall d, In d (dependencies t) ->
                 exists dt, dict_get (tasks s) d = Some dt
                            /\ status dt = COMPLETED) ->
              In k added)).
Proof.
  intros s. split.
  - exists (dict_keys (filter (fun kv => watcher_ready (tasks s) (snd kv))
                              (tasks s))).
    split; [|split; [|split]].
    + intros q. unfold _check_dependencies.
      cbn [task_queue tasks set_task_queue]. rewrite put_all_app.
      reflexivity.
    + unfold _check_dependencies. now rewrite put_all_app.
    + apply NoDup_keys_filter.
    + intros k. rewrite keys_of_filter. cbn [snd].
      split; intros (t & Hin & H); exists t; (split; [exact Hin|]);
        now apply watcher_ready_iff.
  - intros done.
    exists (dict_keys (filter (fun kv => promotable (tasks s) done (snd kv))
                              (tasks s))).
    split; [|split; [|split; [|split]]].
    + intros q. unfold promote_dependents.
      cbn [task_queue tasks set_task_queue]. rewrite put_all_app.
      reflexivity.
    + unfold promote_dependents. now rewrite put_all_app.
    + apply NoDup_keys_filter.
    + intros k Hin. apply keys_of_filter in Hin. cbn [snd] in Hin.
      destruct Hin as (t & Hin & H). exists t. split; [exact Hin|].
      now apply promotable_iff.
    + intros k t Hin _ Hdone Hmet. apply keys_of_filter. exists t.
      split; [exact Hin|]. cbn [snd]. now apply promotable_iff.
Qed.

Lemma enqueue_conditions_witness :
  task_queue Scenario.waiting_state = ["t2"]
  /\ exists added,
       task_queue (_check_dependencies Scenario.waiting_state)
       = (task_queue Scenario.waiting_state ++ added)%list
       /\ NoDup added
       /\ In "t2" added
       /\ ~ In "t1" added
       /\ ~ In "t3" added.
Proof.
  split; [reflexivity|].
  destruct (enqueue_conditions Scenario.waiting_state)
    as [(added & _ & Hq & Hnd & Hiff) _].
  exists added. split; [now rewrite Hq|].
  split.
  { apply Hnd. repeat constructor; simpl; intuition discriminate. }
  split.
  { apply Hiff.
    exists (mkTask "t2" "general" "second" MEDIUM PENDING None 2 None None None
                   None [] ["t1"] 0 3).
    split; [right; left; reflexivity|].
    split; [reflexivity|].
    split; [discriminate|].
    intros d [<-|[]]. eexists. split; reflexivity. }
  split; intros Hin; apply Hiff in Hin;
    destruct Hin as (t & Hin & Hst & Hne & Hall);
    vm_compute in Hin; destruct Hin as [Heq|[Heq|[Heq|[]]]];
    inversion Heq; subst; try discriminate.
  destruct (Hall "t2" (or_introl eq_refl)) as (dt & Hdt & Hc).
  injection Hdt as <-. discriminate Hc.
Defined.

(** C3, as stated: when the watcher makes a pass while a promoted task is
    still waiting in the queue, the task is queued a second time. *)
Lemma watcher_duplicates_entry :
  ~ at_most_one_slot (fst (run (init 10) Scenario.duplicating)).
Proof.
  unfold at_most_one_slot.
  change (task_queue (fst (run (init 10) Scenario.duplicating)))
    with ["t2"; "t2"].
  intros H. inversion H as [|x l Hnotin _]; subst.
  apply Hnotin. now left.
Qed.

(** The promotion, unlike the watcher, does not test the status of the
    task it appends: when "t1" completes for the second time, "t2", which
    is COMPLETED by then, is put on the queue again. *)
Example promotion_requeues_completed :
  task_queue (fst (run (init 10) Scenario.completing_twice)) = ["t2"]
  /\ option_map status
       (dict_get (tasks (fst (run (init 10) Scenario.completing_twice))) "t2")
     = Some COMPLETED.
Proof. split; vm_compute; reflexivity. Qed.

(* ================================================================== *)
(** ** Execution and retries *)

(** C4: a failed execution with retries left puts the task back in PENDING
    with the [completed_at] written a few lines earlier still in place, so
    the task is not terminal and yet carries a completion time. *)
Lemma retry_keeps_completed_at :
  exists t,
    dict_get (tasks (fst (_execute_task Scenario.ready_state "t1" "w"
                                        Scenario.fail_env))) "t1" = Some t
    /\ status t = PENDING
    /\ retry_count t = 1
    /\ completed_at t = Some 31
    /\ ~ completed_iff_terminal t.
Proof.
  eexists. split; [reflexivity|].
  split; [reflexivity|]. split; [reflexivity|]. split; [reflexivity|].
  unfold completed_iff_terminal. simpl. intros [H _].
  destruct H as [H|H]; discriminate.
Qed.








(* ================================================================== *)
(** ** Metrics *)

Lemma attempts_snoc p updates q ok time :
  attempts p (updates ++ [(q, ok, time)])
  = attempts p updates + (if String.eqb q p then 1 else 0).
Proof.
  unfold attempts. rewrite filter_app, length_app, Nat2Z.inj_add. simpl.
  now destruct (String.eqb q p).
Qed.

Lemma successes_snoc p updates q ok time :
  successes p (updates ++ [(q, ok, time)])
  = successes p updates + (if String.eqb q p && ok then 1 else 0).
Proof.
  unfold successes. rewrite filter_app, length_app, Nat2Z.inj_add. simpl.
  now destruct (String.eqb q p && ok).
Qed.

Lemma failures_snoc p updates q ok time :
  failures p (updates ++ [(q, ok, time)])
  = failures p updates + (if String.eqb q p && negb ok then 1 else 0).
Proof.
  unfold failures. rewrite filter_app, length_app, Nat2Z.inj_add. simpl.
  now destruct (String.eqb q p && negb ok).
Qed.

Lemma time_spent_snoc p updates q ok time :
  time_spent p (updates ++ [(q, ok, time)])
  = if String.eqb q p then PyFloat.add (time_spent p updates) time
    else time_spent p updates.
Proof. unfold time_spent. now rewrite fold_left_app. Qed.

Lemma attempts_nonneg p updates : 0 <= attempts p updates.
Proof. unfold attempts. lia. Qed.

Lemma attempts_split p updates :
  attempts p updates = successes p updates + failures p updates.
Proof.
  induction updates as [|[[q ok] time] updates IH] using rev_ind.
  - reflexivity.
  - rewrite attempts_snoc, successes_snoc, failures_snoc, IH.
    destruct (String.eqb q p), ok; simpl; lia.
Qed.

Lemma apply_updates_snoc s updates q ok time :
  apply_updates s (updates ++ [(q, ok, time)])
  = _update_metrics (apply_updates s updates) q ok time.
Proof.
  unfold apply_updates. now rewrite fold_left_app.
Qed.

Lemma update_metrics_inv s updates q ok time :
  metrics_inv (performance_metrics s) updates ->
  metrics_inv (performance_metrics (_update_metrics s q ok time))
              (updates ++ [(q, ok, time)]).
Proof.
  intros Hinv p.
  rewrite attempts_snoc, successes_snoc, failures_snoc, time_spent_snoc.
  pose proof (attempts_nonneg p updates) as Hpos.
  unfold _update_metrics. cbn [performance_metrics set_performance_metrics].
  specialize (Hinv p).
  destruct (String.eqb_spec q p) as [->|Hne].
  - rewrite dict_get_set_same.
    cbn [total_tasks successful_tasks failed_tasks total_time average_time
         andb].
    destruct (dict_get (performance_metrics s) p) as [m|].
    + destruct Hinv as (_ & Ht & Hs & Hf & Htime & _).
      rewrite Htime. destruct ok; simpl; repeat split; lia.
    + unfold time_spent in Hinv |- *.
      assert (Hs : successes p updates = 0 /\ failures p updates = 0).
      { pose proof (attempts_split p updates).
        unfold successes, failures in *. lia. }
      destruct Hs as [Hs Hf].
      assert (Htime : time_spent p updates = PyFloat.zero).
      { clear - Hinv. unfold attempts in Hinv.
        induction updates as [|[[q ok] time] updates IH] using rev_ind;
          [reflexivity|].
        rewrite time_spent_snoc. rewrite filter_app, length_app in Hinv.
        simpl in Hinv. destruct (String.eqb q p); simpl in Hinv; [lia|].
        apply IH. lia. }
      fold (time_spent p updates). rewrite Htime, Hs, Hf, Hinv.
      destruct ok; simpl; repeat split; lia.
  - rewrite dict_get_set_other by assumption.
    cbn [andb]. rewrite !Z.add_0_r. exact Hinv.
Qed.

Lemma apply_updates_inv s updates :
  performance_metrics s = [] ->
  metrics_inv (performance_metrics (apply_updates s updates)) updates.
Proof.
  intros Hempty.
  induction updates as [|[[q ok] time] updates IH] using rev_ind.
  - intros p. simpl. now rewrite Hempty.
  - rewrite apply_updates_snoc. now apply update_metrics_inv.
Qed.

Lemma update_metrics_congr s1 s2 p ok time :
  performance_metrics s1 = performance_metrics s2 ->
  performance_metrics (_update_metrics s1 p ok time)
  = performance_metrics (_update_metrics s2 p ok time).
Proof.
  intros H. unfold _update_metrics.
  cbn [performance_metrics set_performance_metrics]. now rewrite H.
Qed.

Lemma apply_updates_congr updates :
  forall s1 s2,
    performance_metrics s1 = performance_metrics s2 ->
    performance_metrics (apply_updates s1 updates)
    = performance_metrics (apply_updates s2 updates).
Proof.
  induction updates as [|[[q ok] time] updates IH]; intros s1 s2 H; [exact H|].
  apply IH. now apply update_metrics_congr.
Qed.

(** One execution that reaches the adapter makes one update, for the
    provider of the agent. *)
Lemma execute_updates_once s task agent_id env agent adapter t :
  dict_get (agents s) agent_id = Some agent ->
  dict_get (agent_adapters s) agent_id = Some adapter ->
  dict_get (tasks s) task = Some t ->
  performance_metrics (fst (_execute_task s task agent_id env))
  = performance_metrics
      (_update_metrics s (provider agent)
         (match outcome env with Returned _ => true | Raised _ => false end)
         (elapsed env))
  /\ exists tr,
       snd (_execute_task s task agent_id env) = Ok tr
       /\ tr_success tr
          = match outcome env with Returned _ => true | Raised _ => false end.
Proof.
  intros Ha Had Ht. unfold _execute_task. rewrite Ha, Had, Ht.
  destruct (outcome env) as [payload|message].
  - split; [reflexivity|]. eexists. split; reflexivity.
  - cbn [retry_count max_retries task_fail task_begin].
    split; [now destruct (_ <? _)|]. eexists. split; reflexivity.
Qed.

Lemma execute_raises_unchanged s task agent_id env e :
  snd (_execute_task s task agent_id env) = Exc e ->
  fst (_execute_task s task agent_id env) = s.
Proof.
  unfold _execute_task.
  destruct (dict_get (agents s) agent_id); [|reflexivity].
  destruct (dict_get (agent_adapters s) agent_id); [|reflexivity].
  destruct (dict_get (tasks s) task); [|reflexivity].
  destruct (outcome env); discriminate.
Qed.

Lemma worker_updates s env :
  performance_metrics (fst (_worker s env))
  = performance_metrics (apply_updates s (turn_update s env))
  /\ Z.of_nat (List.length (turn_update s env))
     = count_events executed [snd (_worker s env)].
Proof.
  unfold turn_update, _worker.
  destruct (queue_get (task_queue s)) as [[ref rest]|]; [|now split].
  cbn [tasks set_task_queue].
  destruct (dict_get (tasks s) ref) as [task|] eqn:Htask; [|now split].
  destruct (_select_agent_for_task _ task) as [agent_id|]; [|now split].
  destruct (String.eqb agent_id ""); [now split|].
  match goal with
  | |- context [_execute_task ?s0 ref agent_id env] => set (s2 := s0)
  end.
  destruct (dict_get (agents s) agent_id) as [agent|] eqn:Ha.
  - destruct (dict_get (agent_adapters s) agent_id) as [adapter|] eqn:Had.
    + destruct (execute_updates_once s2 ref agent_id env agent adapter task
                  Ha Had Htask) as (Hpm & tr & Hres & Hok).
      destruct (_execute_task s2 ref agent_id env) as [s3 r].
      cbn [fst snd] in *. subst r. cbn [snd fst]. rewrite Ha.
      split; [|reflexivity].
      cbn [performance_metrics set_active_tasks promote_dependents
           set_task_queue apply_updates fold_left fst snd].
      rewrite Hpm, Hok. now apply update_metrics_congr.
    + unfold _execute_task. cbn [agents agent_adapters s2 set_active_tasks
                                 set_task_queue].
      rewrite Ha, Had. now split.
  - unfold _execute_task. cbn [agents s2 set_active_tasks set_task_queue].
    rewrite Ha. now split.
Qed.

Lemma step_metrics s a :
  performance_metrics (fst (step s a))
  = performance_metrics (apply_updates s (step_updates s a))
  /\ Z.of_nat (List.length (step_updates s a))
     = count_events executed (snd (step s a)).
Proof.
  destruct a as [i n p c ad|i|i now ty pr prio deps| |env| ];
    cbn [step step_updates fst snd];
    try (split; [|reflexivity]).
  - unfold register_agent. now destruct ad.
  - destruct (unregister_agent_cases s i) as [E|[a Ha]]; [now rewrite E|].
    apply (unregister_agent_fields s i a Ha).
  - unfold submit_task. now destruct (negb _).
  - reflexivity.
  - pose proof (worker_updates s env) as H.
    now destruct (_worker s env).
  - apply run_pending_put_frame.
Qed.

Lemma run_metrics acts :
  forall s,
    performance_metrics (fst (run s acts))
    = performance_metrics (apply_updates s (run_updates s acts))
    /\ Z.of_nat (List.length (run_updates s acts))
       = count_events executed (snd (run s acts)).
Proof.
  induction acts as [|a rest IH]; intros s; [now split|].
  cbn [run run_updates].
  destruct (step_metrics s a) as [Hpm Hlen].
  destruct (step s a) as [s1 e1]. cbn [fst snd] in *.
  destruct (IH s1) as [IHpm IHlen].
  destruct (run s1 rest) as [s2 e2]. cbn [fst snd] in *.
  split.
  - rewrite IHpm. unfold apply_updates at 2. rewrite fold_left_app.
    now apply apply_updates_congr.
  - rewrite length_app, Nat2Z.inj_add, Hlen, IHlen.
    unfold count_events. rewrite filter_app, length_app. lia.
Qed.

(** C8: after any sequence of metric updates on a fresh orchestrator, a
    provider has an entry exactly when an update was made for it, and its
    entry has total_tasks = successful_tasks + failed_tasks and
    average_time = total_time / total_tasks, total_tasks being the number
    of updates made for the provider (successful_tasks and failed_tasks the
    number of those that reported a success or a failure, total_time the
    sum of their times).  Every execution that reaches the adapter, first
    attempt or retry, successful or not, makes exactly one update, for the
    provider of its agent; so over any run of the orchestrator the metrics
    are those of one update per execution. *)
Theorem metrics_identity :
  (forall s updates,
     performance_metrics s = [] ->
     forall p,
       (attempts p updates = 0 ->
        dict_get (performance_metrics (apply_updates s updates)) p = None)
       /\ (0 < attempts p updates ->
           exists m,
             dict_get (performance_metrics (apply_updates s updates)) p
             = Some m
             /\ total_tasks m = attempts p updates
             /\ successful_tasks m = successes p updates
             /\ failed_tasks m = failures p updates
             /\ total_tasks m = successful_tasks m + failed_tasks m
             /\ total_time m = time_spent p updates
             /\ average_time m
                = PyFloat.div (total_time m)
                              (PyFloat.of_int (total_tasks m))))
  /\ (forall s task agent_id env agent adapter t,
        dict_get (agents s) agent_id = Some agent ->
        dict_get (agent_adapters s) agent_id = Some adapter ->
        dict_get (tasks s) task = Some t ->
        performance_metrics (fst (_execute_task s task agent_id env))
        = performance_metrics
            (apply_updates s
               [(provider agent,
                 match outcome env with
                 | Returned _ => true
                 | Raised _ => false
                 end,
                 elapsed env)]))
  /\ (forall n acts,
        performance_metrics (fst (run (init n) acts))
        = performance_metrics
            (apply_updates (init n) (run_updates (init n) acts))
        /\ Z.of_nat (List.length (run_updates (init n) acts))
           = count_events executed (snd (run (init n) acts))).
Proof.
  split; [|split].
  - intros s updates Hempty p.
    pose proof (apply_updates_inv s updates Hempty p) as H.
    pose proof (attempts_split p updates) as Hsplit.
    destruct (dict_get (performance_metrics (apply_updates s updates)) p)
      as [m|].
    + destruct H as (Hpos & Ht & Hs & Hf & Htime & Havg). split.
      * intros Hzero. lia.
      * intros _. exists m. repeat split; auto. lia.
    + split; [reflexivity|]. intros Hpos. lia.
  - intros s task agent_id env agent adapter t Ha Had Ht.
    apply (execute_updates_once s task agent_id env agent adapter t Ha Had Ht).
  - intros n acts. apply run_metrics.
Qed.

Lemma metrics_identity_witness :
  (exists m,
     dict_get (performance_metrics
                 (apply_updates (init 10) Scenario.some_updates)) "openai"
     = Some m
     /\ total_tasks m = 2 /\ successful_tasks m = 1 /\ failed_tasks m = 1
     /\ total_time m = PyFloat.of_int 1
     /\ average_time m = Scenario.half)
  /\ (exists m,
        dict_get (performance_metrics
                    (apply_updates (init 10) Scenario.some_updates)) "google"
        = Some m
        /\ total_tasks m = 1 /\ successful_tasks m = 0 /\ failed_tasks m = 1)
  /\ dict_get (performance_metrics
                 (apply_updates (init 10) Scenario.some_updates)) "xai" = None.
Proof.
  pose proof (proj1 metrics_identity (init 10) Scenario.some_updates eq_refl)
    as H.
  split; [|split].
  - destruct (proj2 (H "openai")) as (m & Hm & Ht & Hs & Hf & _ & Htime & Havg);
      [reflexivity|].
    exists m. split; [exact Hm|].
    split; [exact Ht|]. split; [exact Hs|]. split; [exact Hf|].
    split; [exact Htime|].
    rewrite Havg, Htime, Ht. vm_compute. reflexivity.
  - destruct (proj2 (H "google")) as (m & Hm & Ht & Hs & Hf & _);
      [reflexivity|].
    exists m. repeat split; assumption.
  - apply (proj1 (H "xai")). reflexivity.
Defined.

(* ================================================================== *)
(** ** Further properties of the orchestrator's methods *)

Lemma In_dict_get {V} (d : dict V) k v : In (k, v) d -> dict_get d k <> None.
Proof.
  induction d as [|[k' v'] r IH]; simpl; [intros []|].
  intros [[= -> ->]|Hin].
  - now rewrite String.eqb_refl.
  - destruct (String.eqb k' k); [discriminate|auto].
Qed.

Lemma dict_del_set_fresh {V} (d : dict V) k v :
  dict_get d k = None -> dict_del (dict_set d k v) k = d.
Proof.
  unfold dict_del. induction d as [|[k' v'] r IH]; simpl.
  - now rewrite String.eqb_refl.
  - destruct (String.eqb k' k) eqn:E; [discriminate|].
    intros H. simpl. rewrite E. simpl. now rewrite IH.
Qed.

(** X1: [submit_task] always returns the new id and stores the task in
    PENDING with no retries used and three allowed, leaving every other
    stored task as it was; it puts the task on the queue exactly when every
    dependency is another task, already stored and COMPLETED. *)
Theorem submit_enqueues_iff_ready :
  forall s new_id now task_type prompt priority deps metadata,
    let r := submit_task s new_id now task_type prompt priority (Some deps)
                         metadata in
    let ready :=
      forall d, In d deps ->
        d <> new_id
        /\ exists dt, dict_get (tasks s) d = Some dt /\ status dt = COMPLETED in
    snd r = Ok new_id
    /\ (exists t, dict_get (tasks (fst r)) new_id = Some t
                  /\ task_id t = new_id /\ status t = PENDING
                  /\ assigned_agent t = None /\ created_at t = now
                  /\ retry_count t = 0 /\ max_retries t = 3
                  /\ dependencies t = deps)
    /\ (forall k, k <> new_id ->
          dict_get (tasks (fst r)) k = dict_get (tasks s) k)
    /\ (ready -> task_queue (fst r) = (task_queue s ++ [new_id])%list)
    /\ (~ ready -> task_queue (fst r) = task_queue s).
Proof.
  intros s new_id now task_type prompt priority deps metadata r ready.
  set (task := mkTask new_id task_type prompt priority PENDING None now None
                      None None None
                      (match metadata with Some m => m | None => [] end)
                      deps 0 3).
  assert (Hmet : _are_dependencies_met (dict_set (tasks s) new_id task) deps
                 = true <-> ready).
  { rewrite deps_met_all. subst ready. split; intros H d Hd.
    - destruct (H d Hd) as (dt & Hget & Hst).
      destruct (String.eqb_spec new_id d) as [->|Hne].
      + rewrite dict_get_set_same in Hget. injection Hget as <-.
        discriminate Hst.
      + rewrite dict_get_set_other in Hget by assumption.
        split; [congruence|eauto].
    - destruct (H d Hd) as (Hne & dt & Hget & Hst).
      exists dt. split; [|exact Hst].
      rewrite dict_get_set_other by congruence. exact Hget. }
  subst r. unfold submit_task. cbn [tasks set_tasks]. fold task.
  destruct (_are_dependencies_met (dict_set (tasks s) new_id task) deps)
    eqn:Hb; cbn [negb fst snd tasks task_queue set_tasks set_task_queue].
  - split; [reflexivity|]. split.
    { exists task. split; [apply dict_get_set_same|]. repeat split. }
    split; [intros k Hk; now apply dict_get_set_other|].
    split; [reflexivity|].
    intros Hnot. exfalso. apply Hnot. now apply Hmet.
  - split; [reflexivity|]. split.
    { exists task. split; [apply dict_get_set_same|]. repeat split. }
    split; [intros k Hk; now apply dict_get_set_other|].
    split; [|reflexivity].
    intros Hready. apply Hmet in Hready. discriminate.
Qed.

Lemma submit_enqueues_iff_ready_witness :
  task_queue Scenario.settled_state = []
  /\ task_queue (fst (submit_task Scenario.settled_state "t2" 20 "general"
                                  "second" LOW (Some ["t1"]) None)) = ["t2"]
  /\ task_queue (fst (submit_task Scenario.settled_state "t3" 21 "general"
                                  "third" LOW (Some ["t3"]) None)) = [].
Proof.
  split; [reflexivity|]. split.
  - apply (submit_enqueues_iff_ready Scenario.settled_state "t2" 20 "general"
             "second" LOW ["t1"] None).
    intros d [<-|[]]. split; [discriminate|].
    eexists. split; reflexivity.
  - apply (submit_enqueues_iff_ready Scenario.settled_state "t3" 21 "general"
             "third" LOW ["t3"] None).
    intros Hready. destruct (Hready "t3" (or_introl eq_refl)) as [Hne _].
    now apply Hne.
Defined.

(** X2: a successful execution leaves the task COMPLETED with the
    adapter's payload as its result (a returned None being the same as no
    result), the agent and both timestamps recorded and the retry counter
    untouched; no other task changes,
    nothing is put on the queue, and the returned [TaskResult] reports the
    success with the payload and the measured time. *)
Theorem successful_execution :
  forall s task agent_id env agent adapter t payload,
    dict_get (agents s) agent_id = Some agent ->
    dict_get (agent_adapters s) agent_id = Some adapter ->
    dict_get (tasks s) task = Some t ->
    outcome env = Returned payload ->
    let r := _execute_task s task agent_id env in
    snd r = Ok (mkTaskResult (task_id t) agent_id true payload (elapsed env))
    /\ (exists t', dict_get (tasks (fst r)) task = Some t'
                   /\ status t' = COMPLETED
                   /\ result t' = match payload with
                                   | PyNone => None
                                   | _ => Some payload
                                   end
                   /\ assigned_agent t' = Some agent_id
                   /\ started_at t' = Some (started env)
                   /\ completed_at t' = Some (finished env)
                   /\ retry_count t' = retry_count t
                   /\ error t' = error t)
    /\ (forall k, k <> task ->
          dict_get (tasks (fst r)) k = dict_get (tasks s) k)
    /\ task_queue (fst r) = task_queue s.
Proof.
  intros s task agent_id env agent adapter t payload Ha Had Ht Hout r.
  subst r. unfold _execute_task. rewrite Ha, Had, Ht, Hout.
  cbn [fst snd tasks task_queue set_agents set_tasks _update_metrics
       set_performance_metrics task_complete task_begin task_id].
  split; [reflexivity|]. split.
  - eexists. split; [apply dict_get_set_same|]. repeat split.
  - split; [|reflexivity]. intros k Hk. apply dict_get_set_other. congruence.
Qed.

Lemma successful_execution_witness :
  exists t',
    dict_get (tasks (fst (_execute_task Scenario.ready_state "t1" "w"
                                        Scenario.ok_env))) "t1" = Some t'
    /\ status t' = COMPLETED
    /\ result t' = Some (PyStr "ok")
    /\ task_queue (fst (_execute_task Scenario.ready_state "t1" "w"
                                      Scenario.ok_env)) = ["t1"].
Proof.
  destruct (successful_execution Scenario.ready_state "t1" "w" Scenario.ok_env
              _ _ _ (PyStr "ok") eq_refl eq_refl eq_refl eq_refl)
    as (_ & (t' & Hget & Hst & Hres & _) & _ & Hq).
  exists t'. repeat split; assumption.
Defined.

(** X3: whichever way the adapter call ends, [_execute_task] hands the
    agent back IDLE with no current task and a fresh [last_active], having
    added one to exactly one of its two counters (completed on a return,
    failed on an exception); the other agents, the adapters and the
    active-task gauge are untouched. *)
Theorem execution_releases_agent :
  forall s task agent_id env agent adapter t,
    dict_get (agents s) agent_id = Some agent ->
    dict_get (agent_adapters s) agent_id = Some adapter ->
    dict_get (tasks s) task = Some t ->
    let s' := fst (_execute_task s task agent_id env) in
    (exists agent',
        dict_get (agents s') agent_id = Some agent'
        /\ agent_status agent' = IDLE
        /\ current_task agent' = None
        /\ last_active agent' = Some (idle_at env)
        /\ capabilities agent' = capabilities agent
        /\ provider agent' = provider agent
        /\ match outcome env with
           | Returned _ =>
               tasks_completed agent' = (tasks_completed agent + 1)%N
               /\ tasks_failed agent' = tasks_failed agent
           | Raised _ =>
               tasks_completed agent' = tasks_completed agent
               /\ tasks_failed agent' = (tasks_failed agent + 1)%N
           end)
    /\ (forall k, k <> agent_id ->
          dict_get (agents s') k = dict_get (agents s) k)
    /\ agent_adapters s' = agent_adapters s
    /\ active_tasks s' = active_tasks s.
Proof.
  intros s task agent_id env agent adapter t Ha Had Ht s'.
  subst s'. unfold _execute_task. rewrite Ha, Had, Ht.
  destruct (outcome env) as [payload|message].
  - cbn [fst agents agent_adapters active_tasks set_agents set_tasks
         _update_metrics set_performance_metrics].
    split.
    + eexists. split; [apply dict_get_set_same|]. repeat split.
    + split; [|split; reflexivity].
      intros k Hk. apply dict_get_set_other. congruence.
  - cbn [retry_count max_retries task_fail task_begin].
    destruct (retry_count t <? max_retries t);
      cbn [fst agents agent_adapters active_tasks set_agents set_tasks
           set_task_queue _update_metrics set_performance_metrics];
      (split;
       [ eexists; split; [apply dict_get_set_same|]; repeat split
       | split; [|split; reflexivity];
         intros k Hk; apply dict_get_set_other; congruence ]).
Qed.

Lemma execution_releases_agent_witness :
  exists agent',
    dict_get (agents (fst (_execute_task Scenario.ready_state "t1" "w"
                                         Scenario.fail_env))) "w" = Some agent'
    /\ agent_status agent' = IDLE
    /\ current_task agent' = None
    /\ last_active agent' = Some 32.
Proof.
  destruct (execution_releases_agent Scenario.ready_state "t1" "w"
              Scenario.fail_env _ _ _ eq_refl eq_refl eq_refl)
    as ((agent' & Hget & Hst & Hcur & Hlast & _) & _).
  exists agent'. repeat split; assumption.
Defined.

(** X4: when the selected agent has no adapter (it was registered without
    one), the worker's turn takes the task off the queue and changes nothing
    else: the task is neither executed, nor failed, nor requeued, no metric
    is updated, and the active-task gauge is back where it was. *)
Theorem worker_drops_task_without_adapter :
  forall s env oldest rest task agent_id,
    dict_get (tasks s) oldest = Some task ->
    _select_agent_for_task s task = Some agent_id ->
    agent_id <> "" ->
    dict_get (agent_adapters s) agent_id = None ->
    _worker (set_task_queue s (oldest :: rest)) env
    = (set_task_queue s rest, WorkerError oldest).
Proof.
  intros s env oldest rest task agent_id Htask Hsel Hne Had.
  assert (Hsel' : forall s1, agents s1 = agents s ->
                    _select_agent_for_task s1 task = Some agent_id).
  { intros s1 Heq. unfold _select_agent_for_task in *. now rewrite Heq. }
  unfold _worker. cbn [task_queue set_task_queue queue_get tasks].
  rewrite Htask, Hsel' by reflexivity.
  destruct (String.eqb_spec agent_id "") as [->|_]; [congruence|].
  unfold _execute_task.
  cbn [agents agent_adapters tasks set_active_tasks set_task_queue
       active_tasks].
  destruct (dict_get (agents s) agent_id); [rewrite Had|];
    cbn [set_active_tasks active_tasks agents tasks task_queue
         max_concurrent_tasks performance_metrics agent_adapters running];
    unfold set_task_queue;
    cbn [agents tasks task_queue max_concurrent_tasks active_tasks
         performance_metrics agent_adapters running];
    rewrite Z.add_simpl_r; reflexivity.
Qed.

Lemma worker_drops_task_without_adapter_witness :
  task_queue Scenario.bare_state = ["t5"]
  /\ _worker Scenario.bare_state Scenario.ok_env
     = (set_task_queue Scenario.bare_state [], WorkerError "t5").
Proof.
  split; [reflexivity|].
  refine (worker_drops_task_without_adapter Scenario.bare_state Scenario.ok_env
          "t5" [] _ "bare" eq_refl eq_refl _ eq_refl).
  discriminate.
Defined.

(** X5: the promotion loop only ever fires for a COMPLETED task: run for a
    stored task in any other status (as happens after a failed execution),
    it changes nothing. *)
Theorem promotion_needs_completion :
  forall s done t,
    dict_get (tasks s) done = Some t ->
    status t <> COMPLETED ->
    promote_dependents s done = s.
Proof.
  intros s done t Hget Hst. unfold promote_dependents.
  assert (Hnone : forall l : dict Task,
            filter (fun kv => promotable (tasks s) done (snd kv)) l = []).
  { induction l as [|[k o] r IH]; simpl; auto.
    destruct (promotable (tasks s) done o) eqn:Hp; [|exact IH].
    apply promotable_iff in Hp. destruct Hp as [Hin Hall].
    destruct (Hall done Hin) as (dt & Hdt & Hc). congruence. }
  rewrite Hnone. destruct s. reflexivity.
Qed.

Lemma promotion_needs_completion_witness :
  promote_dependents (fst (_execute_task Scenario.ready_state "t1" "w"
                                         Scenario.fail_env)) "t1"
  = fst (_execute_task Scenario.ready_state "t1" "w" Scenario.fail_env).
Proof.
  refine (promotion_needs_completion
            (fst (_execute_task Scenario.ready_state "t1" "w"
                                Scenario.fail_env)) "t1" _ eq_refl _).
  discriminate.
Defined.

Lemma select_is_registered s task id :
  _select_agent_for_task s task = Some id -> dict_get (agents s) id <> None.
Proof.
  intros Hsel.
  destruct (select_located s task id Hsel)
    as (before & agent & after & Hreg & _).
  apply (In_dict_get _ id agent). rewrite Hreg.
  apply in_or_app. right. now left.
Qed.

(** X6: once [unregister_agent] has been called for an id, the selector
    does not return that id, whatever the task (and whether or not the id
    was registered). *)
Theorem unregistered_never_selected :
  forall s id task,
    _select_agent_for_task (fst (unregister_agent s id)) task <> Some id.
Proof.
  intros s id task Hsel. apply select_is_registered in Hsel. apply Hsel.
  destruct (dict_get (agents s) id) as [a|] eqn:Ha.
  - destruct (unregister_agent_fields s id a Ha) as (_ & Hag & _).
    rewrite Hag. apply dict_get_del_same.
  - unfold unregister_agent, dict_mem. now rewrite Ha.
Qed.

(** X7: registering an agent under an unused id and unregistering it again
    gives back the orchestrator as it was (no task being attached to that
    id): registry, adapters, tasks and queue are all restored, and the
    unregistration reports success. *)
Theorem register_then_unregister :
  forall s id name prov caps adapter metadata,
    dict_get (agents s) id = None ->
    dict_get (agent_adapters s) id = None ->
    (forall k t, In (k, t) (tasks s) -> held_by id t = false) ->
    unregister_agent
      (fst (register_agent s id name prov caps adapter metadata)) id
    = (s, true).
Proof.
  intros s id name prov caps adapter metadata Ha Had Hfree.
  assert (Hheld : filter (fun kv : string * Task => held_by id (snd kv))
                         (tasks s) = []).
  { revert Hfree. generalize (tasks s) as l.
    induction l as [|[k t] r IH]; intros Hfree; simpl; auto.
    rewrite (Hfree k t) by now left.
    apply IH. intros k' t' Hin. apply (Hfree k' t'). now right. }
  assert (Hmap : map (release_held id) (tasks s) = tasks s).
  { revert Hfree. generalize (tasks s) as l.
    induction l as [|[k t] r IH]; intros Hfree; simpl; auto.
    unfold release_held at 1. simpl. rewrite (Hfree k t) by now left.
    f_equal. apply IH. intros k' t' Hin. apply (Hfree k' t'). now right. }
  unfold register_agent, unregister_agent, drop_agent, dict_mem.
  destruct adapter as [a|];
    cbn [fst agents tasks task_queue agent_adapters pending_puts set_agents
         set_agent_adapters set_tasks set_task_queue set_pending_puts];
    rewrite dict_get_set_same, Hheld, Hmap;
    cbn [dict_keys map];
    rewrite ?app_nil_r, ?dict_get_set_same, ?Had, ?dict_del_set_fresh
      by assumption;
    destruct s; reflexivity.
Qed.

Lemma register_then_unregister_witness :
  unregister_agent
    (fst (register_agent Scenario.settled_state "extra" "Extra" "xai"
                         ["analysis"] (Some "GrokAdapter") None)) "extra"
  = (Scenario.settled_state, true).
Proof.
  apply register_then_unregister; try reflexivity.
  intros k t [[= <- <-]|[]]. reflexivity.
Defined.

(** What one failed execution does, spelled out for a chain of them. *)
Lemma failed_execution_shape s task agent_id env agent adapter t message :
  dict_get (agents s) agent_id = Some agent ->
  dict_get (agent_adapters s) agent_id = Some adapter ->
  dict_get (tasks s) task = Some t ->
  outcome env = Raised message ->
  let s' := fst (_execute_task s task agent_id env) in
  exists t' agent',
    dict_get (tasks s') task = Some t'
    /\ dict_get (agents s') agent_id = Some agent'
    /\ agent_adapters s' = agent_adapters s
    /\ max_retries t' = max_retries t
    /\ error t' = Some message
    /\ tasks_failed agent' = (tasks_failed agent + 1)%N
    /\ (retry_count t < max_retries t ->
          retry_count t' = retry_count t + 1
          /\ status t' = PENDING /\ assigned_agent t' = None
          /\ task_queue s' = (task_queue s ++ [task])%list)
    /\ (max_retries t <= retry_count t ->
          retry_count t' = retry_count t
          /\ status t' = FAILED
          /\ task_queue s' = task_queue s).
Proof.
  intros Ha Had Ht Hout s'.
  subst s'. unfold _execute_task. rewrite Ha, Had, Ht, Hout.
  cbn [retry_count max_retries task_fail task_begin].
  destruct (retry_count t <? max_retries t) eqn:Hlt;
    [apply Z.ltb_lt in Hlt|apply Z.ltb_ge in Hlt];
    cbn [fst agents tasks task_queue agent_adapters set_agents set_tasks
         set_task_queue _update_metrics set_performance_metrics];
    eexists; eexists;
    (split; [apply dict_get_set_same|]);
    (split; [apply dict_get_set_same|]);
    (split; [reflexivity|]); (split; [reflexivity|]);
    (split; [reflexivity|]); (split; [reflexivity|]);
    split; intros Hcase; first [lia | repeat split].
Qed.

Lemma execute_times_S n s task agent_id env :
  execute_times (S n) s task agent_id env
  = fst (_execute_task (execute_times n s task agent_id env) task agent_id env).
Proof. reflexivity. Qed.

Lemma failure_ladder s task agent_id env agent adapter t message :
  dict_get (agents s) agent_id = Some agent ->
  dict_get (agent_adapters s) agent_id = Some adapter ->
  dict_get (tasks s) task = Some t ->
  outcome env = Raised message ->
  forall n,
    Z.of_nat n <= max_retries t - retry_count t ->
    let s' := execute_times n s task agent_id env in
    exists t' agent',
      dict_get (tasks s') task = Some t'
      /\ dict_get (agents s') agent_id = Some agent'
      /\ dict_get (agent_adapters s') agent_id = Some adapter
      /\ max_retries t' = max_retries t
      /\ retry_count t' = retry_count t + Z.of_nat n
      /\ tasks_failed agent' = (tasks_failed agent + N.of_nat n)%N
      /\ (n <> O -> status t' = PENDING /\ assigned_agent t' = None)
      /\ task_queue s' = (task_queue s ++ repeat task n)%list.
Proof.
  intros Ha Had Ht Hout. induction n as [|n IH]; intros Hle s'.
  - exists t, agent. subst s'. simpl.
    rewrite Z.add_0_r, N.add_0_r, app_nil_r.
    repeat split; auto; congruence.
  - destruct IH as (t1 & a1 & Ht1 & Ha1 & Had1 & Hm1 & Hr1 & Hf1 & _ & Hq1);
      [lia|].
    subst s'. rewrite execute_times_S.
    destruct (failed_execution_shape _ task agent_id env a1 adapter t1 message
                Ha1 Had1 Ht1 Hout)
      as (t2 & a2 & Ht2 & Ha2 & Had2 & Hm2 & _ & Hf2 & Hretry & _).
    destruct Hretry as (Hr2 & Hst2 & Has2 & Hq2); [lia|].
    exists t2, a2.
    split; [exact Ht2|]. split; [exact Ha2|].
    split; [rewrite Had2; exact Had1|].
    split; [congruence|]. split; [lia|]. split; [lia|].
    split; [auto|].
    rewrite Hq2, Hq1, <- app_assoc. f_equal.
    change (repeat task (S n)) with (task :: repeat task n).
    now rewrite repeat_cons.
Qed.

(** X8: when the adapter keeps failing, a task with [r] retries used out
    of [m] is PENDING again after each of the next [m - r] executions, one
    retry further and one more time at the back of the queue; the execution
    after those leaves it FAILED with [retry_count = max_retries], the last
    error recorded and no further queue entry.  Each of these executions
    adds one to the agent's failure counter. *)
Theorem consecutive_failures :
  forall s task agent_id env agent adapter t message,
    dict_get (agents s) agent_id = Some agent ->
    dict_get (agent_adapters s) agent_id = Some adapter ->
    dict_get (tasks s) task = Some t ->
    outcome env = Raised message ->
    0 <= retry_count t <= max_retries t ->
    forall n,
      (0 < Z.of_nat n <= max_retries t - retry_count t ->
         exists t' agent',
           dict_get (tasks (execute_times n s task agent_id env)) task = Some t'
           /\ dict_get (agents (execute_times n s task agent_id env)) agent_id
              = Some agent'
           /\ status t' = PENDING
           /\ assigned_agent t' = None
           /\ retry_count t' = retry_count t + Z.of_nat n
           /\ tasks_failed agent' = (tasks_failed agent + N.of_nat n)%N
           /\ task_queue (execute_times n s task agent_id env)
              = (task_queue s ++ repeat task n)%list)
      /\ (Z.of_nat n = max_retries t - retry_count t ->
         exists t' agent',
           dict_get (tasks (execute_times (S n) s task agent_id env)) task
           = Some t'
           /\ dict_get (agents (execute_times (S n) s task agent_id env))
                       agent_id = Some agent'
           /\ status t' = FAILED
           /\ retry_count t' = max_retries t
           /\ error t' = Some message
           /\ tasks_failed agent' = (tasks_failed agent + N.of_nat (S n))%N
           /\ task_queue (execute_times (S n) s task agent_id env)
              = (task_queue s ++ repeat task n)%list).
Proof.
  intros s task agent_id env agent adapter t message Ha Had Ht Hout Hrange n.
  split.
  - intros Hn.
    destruct (failure_ladder s task agent_id env agent adapter t message
                Ha Had Ht Hout n)
      as (t' & a' & Ht' & Ha' & _ & _ & Hr & Hf & Hst & Hq); [lia|].
    exists t', a'. destruct Hst as [Hst Has]; [lia|].
    repeat split; assumption.
  - intros Hn.
    destruct (failure_ladder s task agent_id env agent adapter t message
                Ha Had Ht Hout n)
      as (t1 & a1 & Ht1 & Ha1 & Had1 & Hm1 & Hr1 & Hf1 & _ & Hq1); [lia|].
    rewrite execute_times_S.
    destruct (failed_execution_shape _ task agent_id env a1 adapter t1 message
                Ha1 Had1 Ht1 Hout)
      as (t2 & a2 & Ht2 & Ha2 & _ & Hm2 & Herr & Hf2 & _ & Hfinal).
    destruct Hfinal as (Hr2 & Hst2 & Hq2); [lia|].
    exists t2, a2.
    split; [exact Ht2|]. split; [exact Ha2|]. split; [exact Hst2|].
    split; [lia|]. split; [exact Herr|]. split; [lia|].
    now rewrite Hq2.
Qed.

Lemma consecutive_failures_witness :
  exists t',
    dict_get (tasks (execute_times 4 Scenario.ready_state "t1" "w"
                                   Scenario.fail_env)) "t1" = Some t'
    /\ status t' = FAILED
    /\ retry_count t' = 3
    /\ task_queue (execute_times 4 Scenario.ready_state "t1" "w"
                                 Scenario.fail_env)
       = ["t1"; "t1"; "t1"; "t1"].
Proof.
  destruct (consecutive_failures Scenario.ready_state "t1" "w"
              Scenario.fail_env _ _ _ "boom" eq_refl eq_refl eq_refl eq_refl)
    with (n := 3%nat) as [_ Hlast].
  - simpl. lia.
  - destruct Hlast as (t' & a' & Hget & _ & Hst & Hr & _ & _ & Hq);
      [reflexivity|].
    exists t'. repeat split; assumption.
Defined.

(* ================================================================== *)
(** ** Invariants of runs *)

Section DictShape.
Context {V : Type}.
Implicit Types (d : dict V) (k : string) (v : V).

Lemma in_dict_set d k v k' v' :
  In (k', v') (dict_set d k v) -> (k', v') = (k, v) \/ In (k', v') d.
Proof.
  induction d as [|[k0 v0] r IH]; simpl.
  - intros [H|[]]. left. congruence.
  - destruct (String.eqb k0 k); simpl; intros [H|H]; auto;
      try (left; congruence).
    destruct (IH H); auto.
Qed.

Lemma keys_dict_set d k v k' :
  In k' (dict_keys (dict_set d k v)) <-> k' = k \/ In k' (dict_keys d).
Proof.
  unfold dict_keys. induction d as [|[k0 v0] r IH]; simpl.
  - intuition.
  - destruct (String.eqb_spec k0 k) as [->|Hne]; simpl.
    + intuition.
    + rewrite IH. intuition.
Qed.

Lemma NoDup_dict_set d k v :
  NoDup (dict_keys d) -> NoDup (dict_keys (dict_set d k v)).
Proof.
  unfold dict_keys. induction d as [|[k0 v0] r IH]; simpl; intros Hnd.
  - constructor; [intros []|constructor].
  - inversion Hnd as [|x l Hnotin Hnd']; subst.
    destruct (String.eqb_spec k0 k) as [->|Hne]; simpl.
    + now constructor.
    + constructor; [|auto].
      intros Hin. apply (keys_dict_set r k v k0) in Hin.
      destruct Hin as [->|Hin]; [now apply Hne|now apply Hnotin].
Qed.

Lemma keys_dict_del d k k' :
  In k' (dict_keys (dict_del d k)) <-> k' <> k /\ In k' (dict_keys d).
Proof.
  unfold dict_keys, dict_del. rewrite !in_map_iff. split.
  - intros ([k0 v0] & <- & Hin). apply filter_In in Hin. simpl in *.
    destruct Hin as [Hin Hne]. apply negb_true_iff in Hne.
    apply String.eqb_neq in Hne. split; [exact Hne|].
    exists (k0, v0). auto.
  - intros (Hne & ([k0 v0] & <- & Hin)). exists (k0, v0). split; [reflexivity|].
    apply filter_In. split; [exact Hin|]. simpl in *.
    apply negb_true_iff. now apply String.eqb_neq.
Qed.

Lemma in_dict_del d k k' v' : In (k', v') (dict_del d k) -> In (k', v') d.
Proof. unfold dict_del. intros H. now apply filter_In in H. Qed.

Lemma NoDup_dict_del d k : NoDup (dict_keys d) -> NoDup (dict_keys (dict_del d k)).
Proof.
  unfold dict_keys, dict_del. induction d as [|[k0 v0] r IH]; simpl; auto.
  intros Hnd. inversion Hnd as [|x l Hnotin Hnd']; subst.
  destruct (String.eqb k0 k); simpl; auto.
  constructor; [|auto].
  intros Hin. apply Hnotin. apply in_map_iff in Hin.
  destruct Hin as ([k1 v1] & Heq & Hin). apply filter_In in Hin.
  apply in_map_iff. exists (k1, v1). tauto.
Qed.

Lemma keys_of_In d k v : In (k, v) d -> In k (dict_keys d).
Proof. intros H. apply (in_map fst _ _ H). Qed.

End DictShape.

(** The in-place update of [unregister_agent] keeps the keys. *)
Lemma release_keys (id : string) (store : dict Task) :
  dict_keys (map (release_held id) store) = dict_keys store.
Proof.
  unfold dict_keys. rewrite map_map. apply map_ext.
  intros [k t]. unfold release_held. simpl. now destruct (held_by id t).
Qed.

Lemma run_invariant (P : AgentOrchestrator -> Prop) :
  (forall s a, P s -> P (fst (step s a))) ->
  forall acts s, P s -> P (fst (run s acts)).
Proof.
  intros Hstep. induction acts as [|a rest IH]; intros s Hs; [exact Hs|].
  simpl. pose proof (Hstep s a Hs) as H1.
  destruct (step s a) as [s1 e1]. specialize (IH s1 H1).
  now destruct (run s1 rest).
Qed.

Lemma incl_keys_queue (s : AgentOrchestrator) (f : string * Task -> bool) k :
  In k (dict_keys (filter f (tasks s))) -> In k (dict_keys (tasks s)).
Proof.
  intros H. apply keys_of_filter in H. destruct H as (v & Hin & _).
  now apply (keys_of_In _ k v).
Qed.

(** Overwriting a stored task with one of the same id, whatever happens to
    the queue as long as it keeps to stored tasks. *)
Lemma store_after_set s s' key t' :
  store_consistent s ->
  tasks s' = dict_set (tasks s) key t' ->
  task_id t' = key ->
  (forall k, In k (task_queue s') -> k = key \/ In k (task_queue s)) ->
  pending_puts s' = pending_puts s ->
  store_consistent s'.
Proof.
  intros (Hnd & Hid & Hq & Hp) Hts Hid' Hqs Hps. unfold store_consistent.
  rewrite Hts, Hps. split; [now apply NoDup_dict_set|].
  split; [|split].
  - intros k t0 Hin. apply in_dict_set in Hin.
    destruct Hin as [[= -> ->]|Hin]; auto.
  - intros k Hin. apply keys_dict_set.
    destruct (Hqs k Hin) as [->|Hin']; auto.
  - intros k Hin. apply keys_dict_set. auto.
Qed.

Lemma execute_keeps_store s task agent_id env :
  store_consistent s ->
  store_consistent (fst (_execute_task s task agent_id env)).
Proof.
  intros Hinv. pose proof Hinv as (Hnd & Hid & Hq & Hp).
  unfold _execute_task.
  destruct (dict_get (agents s) agent_id) as [agent|]; [|exact Hinv].
  destruct (dict_get (agent_adapters s) agent_id); [|exact Hinv].
  destruct (dict_get (tasks s) task) as [t|] eqn:Ht; [|exact Hinv].
  pose proof (Hid task t (dict_get_In _ _ _ Ht)) as Htid.
  destruct (outcome env) as [payload|message].
  - eapply (store_after_set s _ task); [exact Hinv|reflexivity|exact Htid| |].
    + cbn [fst task_queue set_agents set_tasks _update_metrics
           set_performance_metrics]. auto.
    + reflexivity.
  - cbn [retry_count max_retries task_fail task_begin].
    destruct (retry_count t <? max_retries t).
    + eapply (store_after_set s _ task);
        [exact Hinv|reflexivity|exact Htid| |reflexivity].
      cbn [fst task_queue set_agents set_tasks set_task_queue _update_metrics
           set_performance_metrics queue_put].
      intros k Hin. apply in_app_or in Hin.
      destruct Hin as [Hin|[<-|[]]]; auto.
    + eapply (store_after_set s _ task);
        [exact Hinv|reflexivity|exact Htid| |reflexivity].
      cbn [fst task_queue set_agents set_tasks _update_metrics
           set_performance_metrics]. auto.
Qed.

Lemma queue_step_keeps_store s q' :
  store_consistent s ->
  (forall k, In k q' -> In k (task_queue s) \/ In k (dict_keys (tasks s))) ->
  store_consistent (set_task_queue s q').
Proof.
  intros (Hnd & Hid & Hq & Hp) Hq'. repeat split; auto.
  intros k Hin. cbn [task_queue tasks set_task_queue] in *.
  destruct (Hq' k Hin); auto.
Qed.

Lemma step_keeps_store s a :
  store_consistent s -> store_consistent (fst (step s a)).
Proof.
  intros Hinv. pose proof Hinv as (Hnd & Hid & Hq & Hp).
  destruct a as [i n p c ad|i|i now ty pr prio deps| |env| ]; cbn [step fst].
  - unfold register_agent. now destruct ad.
  - destruct (unregister_agent_cases s i) as [E|[a Ha]]; [now rewrite E|].
    destruct (unregister_agent_fields s i a Ha)
      as (_ & _ & _ & Htk & Hqs & Hps & _).
    unfold store_consistent. rewrite Htk, Hqs, Hps, release_keys.
    split; [exact Hnd|]. split; [|split; [exact Hq|]].
    + intros k t Hin. apply in_map_iff in Hin.
      destruct Hin as ([k0 t0] & Heq & Hin). unfold release_held in Heq.
      simpl in Heq.
      destruct (held_by i t0); injection Heq as <- <-; simpl; auto.
    + intros k Hin. apply in_app_or in Hin. destruct Hin as [Hin|Hin]; auto.
      now apply incl_keys_queue in Hin.
  - unfold submit_task.
    destruct (negb _); cbn [fst].
    + eapply (store_after_set s _ i); [exact Hinv|reflexivity|reflexivity| |].
      * cbn [task_queue set_tasks]. auto.
      * reflexivity.
    + eapply (store_after_set s _ i); [exact Hinv|reflexivity|reflexivity| |].
      * cbn [task_queue set_tasks set_task_queue queue_put].
        intros k Hin. apply in_app_or in Hin.
        destruct Hin as [|[<-|[]]]; auto.
      * reflexivity.
  - unfold _check_dependencies. apply queue_step_keeps_store; auto.
    intros k Hin. rewrite put_all_app in Hin. apply in_app_or in Hin.
    destruct Hin as [Hin|Hin]; auto. right. now apply incl_keys_queue in Hin.
  - unfold _worker.
    destruct (task_queue s) as [|ref rest] eqn:Hqueue; cbn [queue_get];
      [exact Hinv|].
    assert (Hrest : store_consistent (set_task_queue s rest)).
    { apply queue_step_keeps_store; auto. intros k Hin. left.
      rewrite Hqueue. now right. }
    assert (Hback : store_consistent
                      (set_task_queue (set_task_queue s rest)
                                      (queue_put rest ref))).
    { apply queue_step_keeps_store; auto. intros k Hin. right.
      apply Hq. unfold queue_put in Hin.
      apply in_app_or in Hin. destruct Hin as [Hin|[<-|[]]];
        [now right|now left]. }
    cbn [tasks set_task_queue].
    destruct (dict_get (tasks s) ref) as [task|]; [|exact Hrest].
    destruct (_select_agent_for_task _ task) as [agent_id|]; [|exact Hback].
    destruct (String.eqb agent_id ""); [exact Hback|].
    match goal with
    | |- context [_execute_task ?s0 ref agent_id env] =>
        assert (Hs0 : store_consistent s0) by exact Hrest;
        pose proof (execute_keeps_store s0 ref agent_id env Hs0) as Hex;
        destruct (_execute_task s0 ref agent_id env) as [s3 [tr|e]]
    end; cbn [fst] in *.
    + destruct Hex as (Hnd3 & Hid3 & Hq3 & Hp3). repeat split; auto.
      cbn [task_queue tasks set_active_tasks promote_dependents
           set_task_queue]. intros k Hin.
      rewrite put_all_app in Hin. apply in_app_or in Hin.
      destruct Hin as [Hin|Hin]; auto. now apply incl_keys_queue in Hin.
    + exact Hex.
  - unfold run_pending_put. destruct (pending_puts s) as [|k0 rest];
      [exact Hinv|].
    unfold store_consistent.
    cbn [tasks task_queue pending_puts set_pending_puts set_task_queue
         queue_put].
    split; [exact Hnd|]. split; [exact Hid|]. split.
    + intros k Hin. apply in_app_or in Hin.
      destruct Hin as [Hin|[<-|[]]]; [auto|].
      apply Hp. now left.
    + intros k Hin. apply Hp. now right.
Qed.

Lemma step_keeps_task s a k :
  In k (dict_keys (tasks s)) -> In k (dict_keys (tasks (fst (step s a)))).
Proof.
  intros Hk.
  destruct a as [i n p c ad|i|i now ty pr prio deps| |env| ]; cbn [step fst].
  6: { now rewrite (proj1 (proj2 (run_pending_put_frame s))). }
  - unfold register_agent. now destruct ad.
  - destruct (unregister_agent_cases s i) as [E|[a Ha]]; [now rewrite E|].
    destruct (unregister_agent_fields s i a Ha) as (_ & _ & _ & Htk & _).
    now rewrite Htk, release_keys.
  - unfold submit_task.
    destruct (negb _); cbn [fst tasks set_tasks set_task_queue];
      apply keys_dict_set; auto.
  - exact Hk.
  - unfold _worker.
    destruct (queue_get (task_queue s)) as [[ref rest]|]; [|exact Hk].
    cbn [tasks set_task_queue].
    destruct (dict_get (tasks s) ref) as [task|]; [|exact Hk].
    destruct (_select_agent_for_task _ task) as [agent_id|]; [|exact Hk].
    destruct (String.eqb agent_id ""); [exact Hk|].
    unfold _execute_task.
    cbn [agents agent_adapters tasks set_active_tasks set_task_queue].
    destruct (dict_get (agents s) agent_id); [|exact Hk].
    destruct (dict_get (agent_adapters s) agent_id); [|exact Hk].
    destruct (dict_get (tasks s) ref); [|exact Hk].
    destruct (outcome env); cbn [retry_count max_retries task_fail task_begin];
      [|destruct (_ <? _)];
      cbn [fst tasks set_agents set_tasks set_task_queue set_active_tasks
           promote_dependents _update_metrics set_performance_metrics];
      apply keys_dict_set; auto.
Qed.

(** X9: in every run from a fresh orchestrator the task store is a proper
    dictionary keyed by the tasks' own ids and every queue entry, like
    every pending put, refers to a stored task (so a worker always finds
    the task it dequeues); and from any state on, no call ever removes a
    task from the store. *)
Theorem store_stays_consistent :
  (forall n acts, store_consistent (fst (run (init n) acts)))
  /\ (forall s acts k,
        In k (dict_keys (tasks s)) ->
        In k (dict_keys (tasks (fst (run s acts))))).
Proof.
  split.
  - intros n acts. apply run_invariant; [apply step_keeps_store|].
    repeat split; simpl; [constructor|intros k t []|intros k []|intros k []].
  - intros s acts k.
    apply (run_invariant (fun s => In k (dict_keys (tasks s)))).
    intros s0 a. apply step_keeps_task.
Qed.

Lemma store_stays_consistent_witness :
  In "t1" (dict_keys (tasks Scenario.ready_state))
  /\ In "t1" (dict_keys (tasks (fst (run Scenario.ready_state
                                        [DoWork Scenario.fail_env;
                                         DoUnregister "w"; DoWatch])))).
Proof.
  assert (H : In "t1" (dict_keys (tasks Scenario.ready_state)))
    by (left; reflexivity).
  split; [exact H|].
  now apply (proj2 store_stays_consistent).
Defined.

Lemma settled_not_held id t : settled_task t -> held_by id t = false.
Proof.
  intros (_ & _ & Hst). unfold held_by.
  destruct (status t); try contradiction; simpl; apply andb_false_r.
Qed.

Lemma execute_keeps_settled s task agent_id env :
  tasks_settled s -> tasks_settled (fst (_execute_task s task agent_id env)).
Proof.
  intros Hinv. unfold _execute_task.
  destruct (dict_get (agents s) agent_id) as [agent|]; [|exact Hinv].
  destruct (dict_get (agent_adapters s) agent_id); [|exact Hinv].
  destruct (dict_get (tasks s) task) as [t|] eqn:Ht; [|exact Hinv].
  pose proof (Hinv task t (dict_get_In _ _ _ Ht)) as (Hmax & Hrange & _).
  assert (Hshape : forall t' s',
            tasks s' = dict_set (tasks s) task t' -> settled_task t' ->
            tasks_settled s').
  { intros t' s' Hts Hset k t0 Hin. rewrite Hts in Hin.
    apply in_dict_set in Hin. destruct Hin as [[= -> ->]|Hin]; eauto. }
  destruct (outcome env) as [payload|message].
  - eapply Hshape; [reflexivity|].
    repeat split; simpl; try assumption; try discriminate; lia.
  - cbn [retry_count max_retries task_fail task_begin].
    destruct (retry_count t <? max_retries t) eqn:Hlt;
      [apply Z.ltb_lt in Hlt|apply Z.ltb_ge in Hlt];
      (eapply Hshape; [reflexivity|]);
      repeat split; simpl; try assumption; try discriminate; lia.
Qed.

Lemma step_keeps_settled s a :
  tasks_settled s -> tasks_settled (fst (step s a)).
Proof.
  intros Hinv.
  destruct a as [i n p c ad|i|i now ty pr prio deps| |env| ]; cbn [step fst].
  6: { unfold tasks_settled.
       now rewrite (proj1 (proj2 (run_pending_put_frame s))). }
  - unfold register_agent. now destruct ad.
  - destruct (unregister_agent_cases s i) as [E|[a Ha]]; [now rewrite E|].
    destruct (unregister_agent_fields s i a Ha) as (_ & _ & _ & Htk & _).
    intros k t Hin. rewrite Htk in Hin. apply in_map_iff in Hin.
    destruct Hin as ([k0 t0] & Heq & Hin). unfold release_held in Heq.
    simpl in Heq.
    rewrite (settled_not_held i t0 (Hinv k0 t0 Hin)) in Heq.
    injection Heq as <- <-. eauto.
  - unfold submit_task.
    assert (Hgoal : forall s' t',
      tasks s' = dict_set (tasks s) i t' -> settled_task t' ->
      tasks_settled s').
    { intros s' t' Hts Hset k t0 Hin. rewrite Hts in Hin.
      apply in_dict_set in Hin. destruct Hin as [[= -> ->]|Hin]; eauto. }
    destruct (negb _); cbn [fst];
      (eapply Hgoal; [reflexivity|]);
      repeat split; simpl; lia.
  - exact Hinv.
  - unfold _worker.
    destruct (queue_get (task_queue s)) as [[ref rest]|]; [|exact Hinv].
    cbn [tasks set_task_queue].
    destruct (dict_get (tasks s) ref) as [task|]; [|exact Hinv].
    destruct (_select_agent_for_task _ task) as [agent_id|]; [|exact Hinv].
    destruct (String.eqb agent_id ""); [exact Hinv|].
    match goal with
    | |- context [_execute_task ?s0 ref agent_id env] =>
        pose proof (execute_keeps_settled s0 ref agent_id env Hinv) as Hex;
        destruct (_execute_task s0 ref agent_id env) as [s3 [tr|e]]
    end; exact Hex.
Qed.

Lemma tasks_settled_run_aux n acts : tasks_settled (fst (run (init n) acts)).
Proof.
  apply run_invariant; [apply step_keeps_settled|]. intros k t [].
Qed.

Lemma execute_keeps_pending s task agent_id env :
  pending_puts (fst (_execute_task s task agent_id env)) = pending_puts s.
Proof.
  unfold _execute_task.
  destruct (dict_get (agents s) agent_id); [|reflexivity].
  destruct (dict_get (agent_adapters s) agent_id); [|reflexivity].
  destruct (dict_get (tasks s) task); [|reflexivity].
  destruct (outcome env); [reflexivity|].
  cbn [retry_count max_retries task_fail task_begin].
  now destruct (_ <? _).
Qed.

Lemma worker_keeps_pending s env :
  pending_puts (fst (_worker s env)) = pending_puts s.
Proof.
  unfold _worker.
  destruct (queue_get (task_queue s)) as [[ref rest]|]; [|reflexivity].
  cbn [tasks set_task_queue].
  destruct (dict_get (tasks s) ref) as [task|]; [|reflexivity].
  destruct (_select_agent_for_task _ task) as [agent_id|]; [|reflexivity].
  destruct (String.eqb agent_id ""); [reflexivity|].
  match goal with
  | |- context [_execute_task ?s0 ref agent_id env] =>
      pose proof (execute_keeps_pending s0 ref agent_id env) as Hex;
      destruct (_execute_task s0 ref agent_id env) as [s3 [tr|e]]
  end; exact Hex.
Qed.

(** With every task settled, [unregister_agent] finds nothing to requeue,
    so no step leaves a put pending. *)
Lemma step_keeps_pending s a :
  tasks_settled s -> pending_puts s = [] -> pending_puts (fst (step s a)) = [].
Proof.
  intros Hinv Hnone.
  destruct a as [i n p c ad|i|i now ty pr prio deps| |env| ]; cbn [step fst].
  - unfold register_agent. now destruct ad.
  - destruct (unregister_agent_cases s i) as [E|[a Ha]]; [now rewrite E|].
    destruct (unregister_agent_fields s i a Ha) as (_ & _ & _ & _ & _ & Hp & _).
    rewrite Hp, Hnone. simpl.
    assert (Hfree : forall l : dict Task,
              (forall k t, In (k, t) l -> settled_task t) ->
              filter (fun kv => held_by i (snd kv)) l = []).
    { induction l as [|[k t] r IH]; intros Hall; simpl; auto.
      rewrite (settled_not_held i t (Hall k t (or_introl eq_refl))).
      apply IH. intros k' t' Hin. apply (Hall k' t'). now right. }
    now rewrite (Hfree (tasks s) Hinv).
  - unfold submit_task. now destruct (negb _).
  - exact Hnone.
  - pose proof (worker_keeps_pending s env) as Hw.
    destruct (_worker s env) as [s' e]. cbn [fst] in *. congruence.
  - unfold run_pending_put. now rewrite Hnone.
Qed.

(** X10: whenever no call is under way, every stored task allows three
    retries and has used between none and three; a PENDING task has no
    assigned agent; a COMPLETED task carries an agent and both timestamps;
    a FAILED task carries an error, an agent and both timestamps and has
    used all three retries; and no task is ASSIGNED, IN_PROGRESS or
    CANCELLED.  So [unregister_agent] never finds a task to requeue between
    calls, and no put is ever pending on the loop. *)
Theorem tasks_stay_settled :
  forall n acts,
    tasks_settled (fst (run (init n) acts))
    /\ pending_puts (fst (run (init n) acts)) = [].
Proof.
  intros n acts.
  apply (run_invariant (fun s => tasks_settled s /\ pending_puts s = [])).
  - intros s a [Hs Hp]. split.
    + now apply step_keeps_settled.
    + now apply step_keeps_pending.
  - split; [intros k t []|reflexivity].
Qed.

Lemma count_split (store : dict Task) :
  (forall k t, In (k, t) store -> settled_task t) ->
  count_status store IN_PROGRESS = O
  /\ (count_status store PENDING + count_status store COMPLETED
      + count_status store FAILED = List.length store)%nat.
Proof.
  unfold count_status. induction store as [|[k t] r IH]; intros Hall.
  - split; reflexivity.
  - destruct IH as [IH0 IH1];
      [intros k' t' Hin; apply (Hall k' t'); now right|].
    pose proof (Hall k t (or_introl eq_refl)) as (_ & _ & Hst).
    cbn [filter snd]. destruct (status t); try contradiction;
      cbn [TaskStatus_eqb List.length]; split; try assumption; lia.
Qed.

(** X11: the task counts reported by [get_status] between calls add up:
    pending + in_progress + completed + failed equals the total (no stored
    task is in a status the report leaves out), with none in progress. *)
Theorem status_counts_add_up :
  forall n acts,
    let report := get_status (fst (run (init n) acts)) in
    (count_pending (report_tasks report)
     + count_in_progress (report_tasks report)
     + count_completed (report_tasks report)
     + count_failed (report_tasks report)
     = count_total (report_tasks report))%nat
    /\ count_in_progress (report_tasks report) = O.
Proof.
  intros n acts report. subst report.
  destruct (count_split (tasks (fst (run (init n) acts)))) as [H0 H1].
  - apply tasks_settled_run_aux.
  - cbn [get_status report_tasks report_queue_size count_pending
         count_in_progress count_completed count_failed count_total].
    repeat split; lia.
Qed.

Lemma not_mem_keys {V} (d : dict V) k :
  dict_mem d k = false -> ~ In k (dict_keys d).
Proof.
  unfold dict_mem, dict_keys. intros Hmem Hin. apply in_map_iff in Hin.
  destruct Hin as ([k0 v0] & <- & Hin). apply In_dict_get in Hin. simpl in *.
  destruct (dict_get d k0); [discriminate|now apply Hin].
Qed.

Lemma execute_keeps_registry s task agent_id env :
  registry_free s ->
  registry_free (fst (_execute_task s task agent_id env))
  /\ active_tasks (fst (_execute_task s task agent_id env)) = active_tasks s.
Proof.
  intros Hinv. pose proof Hinv as (Hnd & Hfree & Hadp). unfold _execute_task.
  destruct (dict_get (agents s) agent_id) as [agent|] eqn:Ha;
    [|now split].
  destruct (dict_get (agent_adapters s) agent_id); [|now split].
  destruct (dict_get (tasks s) task) as [t|]; [|now split].
  pose proof (Hfree agent_id agent (dict_get_In _ _ _ Ha)) as (Hid & _).
  destruct (outcome env) as [payload|message];
    [|cbn [retry_count max_retries task_fail task_begin];
      destruct (retry_count t <? max_retries t)];
    (split; [|reflexivity]);
    cbn [fst agents agent_adapters set_agents set_tasks set_task_queue
         _update_metrics set_performance_metrics];
    (split; [now apply NoDup_dict_set|]);
    (split;
     [ intros k0 a0 Hin; apply in_dict_set in Hin;
       destruct Hin as [[= -> ->]|Hin];
       [repeat split; exact Hid|now apply Hfree]
     | intros k Hin; apply keys_dict_set; right; now apply Hadp ]).
Qed.

Lemma step_keeps_quiescent s a : quiescent s -> quiescent (fst (step s a)).
Proof.
  intros (Hact & Hreg). pose proof Hreg as (Hnd & Hfree & Hadp).
  destruct a as [i n p c ad|i|i now ty pr prio deps| |env| ]; cbn [step fst].
  6: { unfold run_pending_put. destruct (pending_puts s); now split. }
  - unfold register_agent. split; [now destruct ad|].
    assert (Hagents : forall s',
      agents s' = dict_set (agents s) i
                    (mkAgentInfo i n p c IDLE None 0%N 0%N PyFloat.zero None []) ->
      (forall k, In k (dict_keys (agent_adapters s')) ->
         k = i \/ In k (dict_keys (agent_adapters s))) ->
      registry_free s').
    { intros s' Hag Had'. unfold registry_free. rewrite Hag.
      split; [now apply NoDup_dict_set|]. split.
      - intros k a Hin. apply in_dict_set in Hin.
        destruct Hin as [[= -> ->]|Hin]; [now repeat split|now apply Hfree].
      - intros k Hin. apply keys_dict_set.
        destruct (Had' k Hin) as [->|Hin']; auto. }
    destruct ad as [ad|]; apply Hagents; try reflexivity;
      cbn [agent_adapters set_agents set_agent_adapters]; auto.
    intros k Hin. now apply keys_dict_set in Hin.
  - destruct (unregister_agent_cases s i) as [E|[a Ha]];
      [rewrite E; now split|].
    destruct (unregister_agent_fields s i a Ha)
      as (_ & Hag & Had & _ & _ & _ & Hac & _).
    split; [congruence|]. unfold registry_free. rewrite Hag, Had.
    split; [now apply NoDup_dict_del|]. split.
    + intros k a0 Hin. apply in_dict_del in Hin. now apply Hfree.
    + intros k Hin. apply keys_dict_del in Hin. destruct Hin as [Hne Hin].
      apply keys_dict_del. auto.
  - unfold submit_task. destruct (negb _); now split.
  - now split.
  - unfold _worker.
    destruct (queue_get (task_queue s)) as [[ref rest]|]; [|now split].
    cbn [tasks set_task_queue].
    destruct (dict_get (tasks s) ref) as [task|]; [|now split].
    destruct (_select_agent_for_task _ task) as [agent_id|]; [|now split].
    destruct (String.eqb agent_id ""); [now split|].
    match goal with
    | |- context [_execute_task ?s0 ref agent_id env] =>
        assert (Hs0 : registry_free s0) by exact Hreg;
        pose proof (execute_keeps_registry s0 ref agent_id env Hs0)
          as [Hex Hgauge];
        destruct (_execute_task s0 ref agent_id env) as [s3 [tr|e]]
    end; cbn [fst] in *;
      (split; [|exact Hex]);
      cbn [active_tasks set_active_tasks promote_dependents set_task_queue];
      rewrite Hgauge; cbn [active_tasks set_active_tasks set_task_queue]; lia.
Qed.

(** X12: whenever no call is under way, the active-task gauge is zero,
    every registered agent is IDLE with no current task, the registry is
    keyed by the agents' own ids without repetition, and every stored
    adapter belongs to a registered agent. *)
Theorem orchestrator_stays_quiescent :
  forall n acts, quiescent (fst (run (init n) acts)).
Proof.
  intros n acts. apply run_invariant.
  - apply step_keeps_quiescent.
  - split; [reflexivity|]. split; [constructor|].
    split; [intros k a []|intros k []].
Qed.

Lemma metrics_sum_set (f : Metrics -> Z) (pm : dict Metrics) k v :
  metrics_sum f (dict_set pm k v)
  = metrics_sum f pm
    - match dict_get pm k with Some old => f old | None => 0 end
    + f v.
Proof.
  induction pm as [|[k0 v0] r IH]; simpl.
  - lia.
  - destruct (String.eqb k0 k); simpl; [lia|]. rewrite IH. lia.
Qed.

Lemma update_metrics_sums s p ok time :
  let pm' := performance_metrics (_update_metrics s p ok time) in
  metrics_sum total_tasks pm' = metrics_sum total_tasks (performance_metrics s) + 1
  /\ metrics_sum successful_tasks pm'
     = metrics_sum successful_tasks (performance_metrics s)
       + (if ok then 1 else 0)
  /\ metrics_sum failed_tasks pm'
     = metrics_sum failed_tasks (performance_metrics s)
       + (if ok then 0 else 1).
Proof.
  unfold _update_metrics. cbn [performance_metrics set_performance_metrics].
  rewrite !metrics_sum_set.
  cbn [total_tasks successful_tasks failed_tasks].
  destruct (dict_get (performance_metrics s) p) as [m|]; destruct ok; simpl;
    repeat split; lia.
Qed.

Lemma execute_metrics s task agent_id env :
  let r := _execute_task s task agent_id env in
  match snd r with
  | Ok tr =>
      exists p, performance_metrics (fst r)
                = performance_metrics
                    (_update_metrics s p (tr_success tr) (elapsed env))
  | Exc _ => fst r = s
  end.
Proof.
  unfold _execute_task.
  destruct (dict_get (agents s) agent_id) as [agent|]; [|reflexivity].
  destruct (dict_get (agent_adapters s) agent_id); [|reflexivity].
  destruct (dict_get (tasks s) task) as [t|]; [|reflexivity].
  destruct (outcome env) as [payload|message]; cbn [snd fst tr_success].
  - exists (provider agent). reflexivity.
  - exists (provider agent). cbn [retry_count max_retries task_fail task_begin].
    now destruct (_ <? _).
Qed.

Lemma count_events_app f l1 l2 :
  count_events f (l1 ++ l2) = count_events f l1 + count_events f l2.
Proof.
  unfold count_events. rewrite filter_app, length_app. lia.
Qed.

Lemma step_sums s a :
  sums_match s (fst (step s a)) (snd (step s a)).
Proof.
  assert (Hsame : forall s', performance_metrics s' = performance_metrics s ->
                    forall trace,
                      count_events executed trace = 0 ->
                      count_events (executed_with true) trace = 0 ->
                      count_events (executed_with false) trace = 0 ->
                      sums_match s s' trace).
  { intros s' Hpm trace H0 H1 H2. unfold sums_match.
    rewrite Hpm, H0, H1, H2. repeat split; lia. }
  destruct a as [i n p c ad|i|i now ty pr prio deps| |env| ];
    cbn [step fst snd].
  6: { apply Hsame; try reflexivity. apply run_pending_put_frame. }
  - apply Hsame; try reflexivity. unfold register_agent. now destruct ad.
  - apply Hsame; try reflexivity.
    destruct (unregister_agent_cases s i) as [E|[a Ha]]; [now rewrite E|].
    apply (unregister_agent_fields s i a Ha).
  - apply Hsame; try reflexivity. unfold submit_task. now destruct (negb _).
  - now apply Hsame.
  - unfold _worker.
    destruct (queue_get (task_queue s)) as [[ref rest]|];
      [|now apply Hsame].
    cbn [tasks set_task_queue].
    destruct (dict_get (tasks s) ref) as [task|]; [|now apply Hsame].
    destruct (_select_agent_for_task _ task) as [agent_id|];
      [|now apply Hsame].
    destruct (String.eqb agent_id ""); [now apply Hsame|].
    match goal with
    | |- context [_execute_task ?s0 ref agent_id env] =>
        pose proof (execute_metrics s0 ref agent_id env) as Hex;
        destruct (_execute_task s0 ref agent_id env) as [s3 [tr|e]]
    end; cbn [fst snd] in *.
    + destruct Hex as [p Hpm].
      destruct (update_metrics_sums
                  (set_active_tasks (set_task_queue s rest)
                                    (active_tasks (set_task_queue s rest) + 1))
                  p (tr_success tr) (elapsed env)) as (Ht & Hs & Hf).
      unfold sums_match.
      cbn [performance_metrics set_active_tasks promote_dependents
           set_task_queue] in *.
      rewrite Hpm, Ht, Hs, Hf. unfold count_events.
      cbn [filter executed executed_with].
      destruct (tr_success tr); cbn [Bool.eqb List.length]; repeat split; lia.
    + apply Hsame; try reflexivity. now rewrite Hex.
Qed.

Lemma run_sums acts :
  forall s, sums_match s (fst (run s acts)) (snd (run s acts)).
Proof.
  induction acts as [|a rest IH]; intros s.
  - unfold sums_match, count_events. simpl. repeat split; lia.
  - simpl. pose proof (step_sums s a) as H1.
    destruct (step s a) as [s1 e1]. specialize (IH s1).
    destruct (run s1 rest) as [s2 e2]. cbn [fst snd] in *.
    unfold sums_match in *. rewrite !count_events_app.
    destruct H1 as (A1 & B1 & C1), IH as (A2 & B2 & C2).
    repeat split; lia.
Qed.

(** X13: over any run from a fresh orchestrator, the provider metrics
    count the worker turns that ran an adapter, each exactly once: summed
    over all providers, total_tasks is the number of executions in the
    trace, successful_tasks the number that returned and failed_tasks the
    number that raised.  Re-registering or unregistering agents never takes
    anything out of these counters. *)
Theorem metrics_count_executions :
  forall n acts,
    let s := fst (run (init n) acts) in
    let trace := snd (run (init n) acts) in
    metrics_sum total_tasks (performance_metrics s)
    = count_events executed trace
    /\ metrics_sum successful_tasks (performance_metrics s)
       = count_events (executed_with true) trace
    /\ metrics_sum failed_tasks (performance_metrics s)
       = count_events (executed_with false) trace.
Proof.
  intros n acts s trace. subst s trace.
  destruct (run_sums acts (init n)) as (Ht & Hs & Hf).
  cbn [performance_metrics init metrics_sum fold_right] in *.
  repeat split; lia.
Qed.

(* ================================================================== *)
(** ** Control API and bootstrap *)

Lemma get_after_submit s id now ty pr prio deps md :
  get_task_status (fst (submit_task s id now ty pr prio deps md)) id
  = Some (mkTaskView id ty "pending" (priority_value prio) None (Some now)
                     None None None None 0)
  /\ forall k, k <> id ->
       get_task_status (fst (submit_task s id now ty pr prio deps md)) k
       = get_task_status s k.
Proof.
  unfold get_task_status, submit_task.
  destruct (negb _); cbn [fst tasks set_tasks set_task_queue];
    rewrite dict_get_set_same; (split; [reflexivity|]);
    intros k Hk; now rewrite dict_get_set_other by congruence.
Qed.

Lemma parse_priority_default text :
  ~ In (str_lower text) ["low"; "high"; "critical"] ->
  parse_priority text = MEDIUM.
Proof.
  intros Hnot. unfold parse_priority, priority_map. cbn [dict_get].
  destruct (String.eqb_spec "low" (str_lower text)) as [E|_];
    [exfalso; apply Hnot; rewrite <- E; simpl; auto|].
  destruct (String.eqb_spec "medium" (str_lower text)) as [_|_];
    [reflexivity|].
  destruct (String.eqb_spec "high" (str_lower text)) as [E|_];
    [exfalso; apply Hnot; rewrite <- E; simpl; auto|].
  destruct (String.eqb_spec "critical" (str_lower text)) as [E|_];
    [exfalso; apply Hnot; rewrite <- E; simpl; auto|reflexivity].
Qed.

(** X14: once the service is initialised, a submission through the API is
    never refused: it answers "submitted" with the new id, and a lookup of
    that id then shows the task pending, unassigned, with no retries used,
    the submitted type and the priority the text names (MEDIUM unless the
    text, in lower case, is "low", "high" or "critical"); lookups of other
    ids answer as before. *)
Theorem api_submit_then_lookup :
  forall s submission new_id now,
    let r := api_submit_task (Some s) submission new_id now in
    snd r = Success (mkTaskResponse new_id "submitted"
                       ("Task " ++ new_id ++ " submitted successfully"))
    /\ (exists view,
          api_get_task_status (fst r) new_id = Success view
          /\ tv_id view = new_id
          /\ tv_type view = sub_task_type submission
          /\ tv_status view = "pending"
          /\ tv_assigned_agent view = None
          /\ tv_retry_count view = 0
          /\ 1 <= tv_priority view <= 4
          /\ (~ In (str_lower (sub_priority submission))
                   ["low"; "high"; "critical"] ->
              tv_priority view = 2))
    /\ (forall k, k <> new_id ->
          api_get_task_status (fst r) k = api_get_task_status (Some s) k).
Proof.
  intros s submission new_id now r. subst r.
  destruct (get_after_submit s new_id now (sub_task_type submission)
              (sub_prompt submission)
              (parse_priority (sub_priority submission))
              (sub_dependencies submission) (sub_metadata submission))
    as [Hnew Hold].
  unfold api_submit_task.
  assert (Hok : snd (submit_task s new_id now (sub_task_type submission)
                       (sub_prompt submission)
                       (parse_priority (sub_priority submission))
                       (sub_dependencies submission)
                       (sub_metadata submission)) = Ok new_id).
  { unfold submit_task. now destruct (negb _). }
  destruct (submit_task s new_id now (sub_task_type submission)
              (sub_prompt submission)
              (parse_priority (sub_priority submission))
              (sub_dependencies submission) (sub_metadata submission))
    as [s' res]. cbn [fst snd] in *. subst res.
  split; [reflexivity|]. cbn [fst api_get_task_status]. split.
  - rewrite Hnew. eexists. split; [reflexivity|].
    cbn [tv_id tv_type tv_status tv_assigned_agent tv_retry_count tv_priority].
    repeat split.
    + destruct (parse_priority (sub_priority submission)); simpl; lia.
    + destruct (parse_priority (sub_priority submission)); simpl; lia.
    + intros Hnot. now rewrite parse_priority_default.
  - intros k Hk. now rewrite Hold.
Qed.

Lemma api_submit_then_lookup_witness :
  exists view,
    api_get_task_status
      (fst (api_submit_task (Some (init 10))
              (mkSubmission "analysis" "look" "URGENT" None None) "t8" 3))
      "t8" = Success view
    /\ tv_status view = "pending"
    /\ tv_priority view = 2.
Proof.
  destruct (api_submit_then_lookup (init 10)
              (mkSubmission "analysis" "look" "URGENT" None None) "t8" 3)
    as (_ & (view & Hget & _ & _ & Hst & _ & _ & _ & Hprio) & _).
  exists view. split; [exact Hget|]. split; [exact Hst|].
  apply Hprio. simpl. intros [H|[H|[H|[]]]]; discriminate.
Defined.

(** X15: [POST /agents/register] on an initialised service, for a provider
    name in ASCII, succeeds exactly when the name, in lower case, is in the
    adapter table and the adapter built for it reports ready.  On success the agent is in the
    registry, IDLE, together with its adapter; on failure the answer is a
    400 and the orchestrator is left exactly as it was. *)
Theorem api_register_outcomes :
  forall s registration env probe,
    is_ascii (reg_provider registration) = true ->
    let r := api_register_agent (Some s) registration env probe in
    let id := reg_agent_id registration in
    ((exists body, snd r = Success body)
     <-> exists c,
           dict_get adapters (str_lower (reg_provider registration)) = Some c
           /\ initialize (construct env c (reg_api_key registration)) probe
              = true)
    /\ (forall body, snd r = Success body ->
          body_success body = true /\ body_agent_id body = id
          /\ exists s' agent,
               fst r = Some s'
               /\ dict_get (agents s') id = Some agent
               /\ agent_status agent = IDLE
               /\ provider agent = reg_provider registration
               /\ dict_get (agent_adapters s') id <> None
               /\ tasks s' = tasks s /\ task_queue s' = task_queue s)
    /\ (forall code detail, snd r = HTTPException code detail ->
          code = 400 /\ fst r = Some s).
Proof.
  intros s registration env probe _ r id. subst r id.
  unfold api_register_agent, create_adapter.
  destruct (dict_get adapters (str_lower (reg_provider registration)))
    as [c|] eqn:Hc.
  - destruct (initialize (construct env c (reg_api_key registration)) probe)
      eqn:Hinit; cbn [negb fst snd register_agent].
    + split; [split; [intros _; eauto|intros _; eauto]|].
      split; [|intros code detail [=]].
      intros body [= <-]. cbn [body_success body_agent_id agent_id].
      split; [reflexivity|]. split; [reflexivity|].
      eexists. eexists. split; [reflexivity|].
      cbn [agents agent_adapters tasks task_queue set_agents
           set_agent_adapters].
      rewrite !dict_get_set_same.
      split; [reflexivity|]. split; [reflexivity|]. split; [reflexivity|].
      split; [discriminate|]. split; reflexivity.
    + split.
      { split; [intros [body [=]]|].
        intros (c' & [= <-] & Hc'). congruence. }
      split; [intros body [=]|].
      intros code detail [= <- _]. split; reflexivity.
  - cbn [fst snd]. split.
    { split; [intros [body [=]]|]. intros (c' & [=] & _). }
    split; [intros body [=]|].
    intros code detail [= <- _]. split; reflexivity.
Qed.

Lemma api_register_outcomes_witness :
  (exists body,
      snd (api_register_agent (Some (init 10)) Scenario.sample_registration
                              Scenario.sample_env
                              (Unreachable "no network")) = Success body)
  /\ exists s' agent,
       fst (api_register_agent (Some (init 10)) Scenario.sample_registration
                               Scenario.sample_env (Unreachable "no network"))
       = Some s'
       /\ dict_get (agents s') "opus" = Some agent
       /\ agent_status agent = IDLE.
Proof.
  destruct (api_register_outcomes (init 10) Scenario.sample_registration
              Scenario.sample_env (Unreachable "no network") eq_refl)
    as (Hiff & Hok & _).
  assert (Hex : exists body,
            snd (api_register_agent (Some (init 10))
                   Scenario.sample_registration Scenario.sample_env
                   (Unreachable "no network")) = Success body).
  { apply Hiff. exists AnthropicAdapter. split; reflexivity. }
  split; [exact Hex|].
  destruct Hex as [body Hbody].
  destruct (Hok body Hbody) as (_ & _ & s' & agent & Hs' & Hget & Hst & _).
  exists s', agent. repeat split; assumption.
Defined.

Lemma keyed_block s env tag c v probe id name prov caps :
  dict_get adapters (str_lower tag) = Some c ->
  key_variable c = Some v ->
  (if str_truthy (env v)
   then try_register s env tag (env v) probe id name prov caps else s)
  = if str_truthy (env v)
       && match c with AnthropicAdapter => true | _ => probe_ok probe end
    then fst (register_agent s id name prov caps
                (Some (adapter_handle (mkAdapter c (env v)))) None)
    else s.
Proof.
  intros Hc Hv. destruct (str_truthy (env v)) eqn:Hkey; [|reflexivity].
  unfold try_register, create_adapter. rewrite Hc.
  unfold construct, initialize, str_or. rewrite Hv, Hkey.
  cbn [adapter_class api_key andb]. rewrite Hkey.
  destruct c; try discriminate; cbn [negb]; reflexivity.
Qed.

Lemma keyed_block_when s env tag c v probe id name prov caps :
  dict_get adapters (str_lower tag) = Some c ->
  key_variable c = Some v ->
  (if str_truthy (env v)
   then try_register s env tag (env v) probe id name prov caps else s)
  = register_when
      (str_truthy (env v)
       && match c with AnthropicAdapter => true | _ => probe_ok probe end)
      s id name prov caps (adapter_handle (mkAdapter c (env v))).
Proof.
  intros Hc Hv. now rewrite (keyed_block s env tag c v) by assumption.
Qed.

Lemma bootstrap_shape s env probes :
  auto_register_agents s env probes
  = register_when
      (str_truthy (env "XAI_API_KEY") && probe_ok (probes GrokAdapter))
      (register_when
         (str_truthy (env "ANTHROPIC_API_KEY") && true)
         (register_when
            (str_truthy (env "GOOGLE_API_KEY")
             && probe_ok (probes GeminiAdapter))
            (register_when
               (str_truthy (env "OPENAI_API_KEY")
                && probe_ok (probes GPTAdapter))
               (register_when (probe_ok (probes ClaudeFlowAdapter)) s
                  "claude_flow_hive" "Claude Flow Hive Mind" "claude_flow"
                  ["general"; "code_generation"; "documentation"; "analysis"]
                  "ClaudeFlowAdapter")
               "gpt4_primary" "GPT-4 Primary" "openai"
               ["code_generation"; "documentation"; "analysis"] "GPTAdapter")
            "gemini_pro" "Gemini Pro" "google"
            ["analysis"; "documentation"; "general"] "GeminiAdapter")
         "claude3_opus" "Claude 3 Opus" "anthropic"
         ["code_generation"; "analysis"; "documentation"] "AnthropicAdapter")
      "grok_beta" "Grok Beta" "xai" ["analysis"; "general"] "GrokAdapter".
Proof.
  unfold auto_register_agents. cbv zeta.
  rewrite (keyed_block_when _ env "grok" GrokAdapter "XAI_API_KEY")
    by reflexivity.
  rewrite (keyed_block_when _ env "anthropic" AnthropicAdapter
             "ANTHROPIC_API_KEY") by reflexivity.
  rewrite (keyed_block_when _ env "gemini" GeminiAdapter "GOOGLE_API_KEY")
    by reflexivity.
  rewrite (keyed_block_when _ env "gpt" GPTAdapter "OPENAI_API_KEY")
    by reflexivity.
  reflexivity.
Qed.

Lemma in_dict_set_other {V} (d : dict V) k v k' v' :
  In (k, v) d -> k <> k' -> In (k, v) (dict_set d k' v').
Proof.
  intros Hin Hne. induction d as [|[k0 v0] r IH]; simpl; [destruct Hin|].
  destruct (String.eqb_spec k0 k') as [->|_]; simpl;
    destruct Hin as [[= -> ->]|Hin]; auto.
  now contradiction Hne.
Qed.

Section RegisterWhen.
Variables (ready : bool) (s : AgentOrchestrator).
Variables (id name prov : string) (caps : list string) (ad : Adapter).

Lemma register_when_keys k :
  In k (dict_keys (agents (register_when ready s id name prov caps ad)))
  <-> (ready = true /\ k = id) \/ In k (dict_keys (agents s)).
Proof.
  unfold register_when, register_agent. destruct ready.
  - cbn [fst agents set_agents set_agent_adapters]. rewrite keys_dict_set.
    intuition.
  - intuition. discriminate.
Qed.

Lemma register_when_frame :
  tasks (register_when ready s id name prov caps ad) = tasks s
  /\ task_queue (register_when ready s id name prov caps ad) = task_queue s.
Proof.
  unfold register_when. now destruct ready.
Qed.

Lemma register_when_ready :
  (forall i a, In (i, a) (agents s) ->
     agent_status a = IDLE /\ dict_get (agent_adapters s) i <> None) ->
  forall i a,
    In (i, a) (agents (register_when ready s id name prov caps ad)) ->
    agent_status a = IDLE
    /\ dict_get (agent_adapters (register_when ready s id name prov caps ad)) i
       <> None.
Proof.
  unfold register_when, register_agent. intros Hold i a.
  destruct ready; [|apply Hold].
  cbn [fst agents agent_adapters set_agents set_agent_adapters].
  intros Hin. apply in_dict_set in Hin.
  destruct (String.eqb_spec id i) as [->|Hne].
  - rewrite dict_get_set_same. split; [|discriminate].
    destruct Hin as [[= ->]|Hin]; [reflexivity|now apply (Hold i a)].
  - rewrite dict_get_set_other by assumption.
    destruct Hin as [[= -> _]|Hin]; [now contradiction Hne|now apply Hold].
Qed.

Lemma register_when_keeps k a :
  In (k, a) (agents s) -> k <> id ->
  In (k, a) (agents (register_when ready s id name prov caps ad)).
Proof.
  unfold register_when, register_agent. intros Hin Hne.
  destruct ready; [|exact Hin].
  cbn [fst agents set_agents set_agent_adapters].
  now apply in_dict_set_other.
Qed.

End RegisterWhen.

(** X16: the start-up bootstrap, run on an empty registry, registers each
    of the five default agents exactly when its own adapter is ready,
    independently of the others: the hive-mind agent when its endpoint
    answers 200 (no key needed), the OpenAI, Google and X.AI agents when
    their key is set and their probe answers 200, and the Anthropic agent as
    soon as its key is set, with no probe at all.  Every agent it registers
    is IDLE and has its adapter; tasks and queue are untouched; and when the
    hive-mind agent is there, every task has an eligible agent. *)
Theorem bootstrap_registers_ready_agents :
  forall s env probes,
    agents s = [] -> agent_adapters s = [] ->
    let s' := auto_register_agents s env probes in
    let has := fun id => In id (dict_keys (agents s')) in
    (has "claude_flow_hive" <-> probe_ok (probes ClaudeFlowAdapter) = true)
    /\ (has "gpt4_primary"
        <-> str_truthy (env "OPENAI_API_KEY") = true
            /\ probe_ok (probes GPTAdapter) = true)
    /\ (has "gemini_pro"
        <-> str_truthy (env "GOOGLE_API_KEY") = true
            /\ probe_ok (probes GeminiAdapter) = true)
    /\ (has "claude3_opus" <-> str_truthy (env "ANTHROPIC_API_KEY") = true)
    /\ (has "grok_beta"
        <-> str_truthy (env "XAI_API_KEY") = true
            /\ probe_ok (probes GrokAdapter) = true)
    /\ (forall id a, In (id, a) (agents s') ->
          agent_status a = IDLE /\ dict_get (agent_adapters s') id <> None)
    /\ tasks s' = tasks s /\ task_queue s' = task_queue s
    /\ (probe_ok (probes ClaudeFlowAdapter) = true ->
        forall task, _select_agent_for_task s' task <> None).
Proof.
  intros s env probes Hag Had s' has. subst s' has. cbv beta.
  rewrite bootstrap_shape.
  assert (Hkeys : forall k,
    In k (dict_keys (agents
      (register_when
         (str_truthy (env "XAI_API_KEY") && probe_ok (probes GrokAdapter))
         (register_when (str_truthy (env "ANTHROPIC_API_KEY") && true)
            (register_when
               (str_truthy (env "GOOGLE_API_KEY")
                && probe_ok (probes GeminiAdapter))
               (register_when
                  (str_truthy (env "OPENAI_API_KEY")
                   && probe_ok (probes GPTAdapter))
                  (register_when (probe_ok (probes ClaudeFlowAdapter)) s
                     "claude_flow_hive" "Claude Flow Hive Mind" "claude_flow"
                     ["general"; "code_generation"; "documentation";
                      "analysis"] "ClaudeFlowAdapter")
                  "gpt4_primary" "GPT-4 Primary" "openai"
                  ["code_generation"; "documentation"; "analysis"]
                  "GPTAdapter")
               "gemini_pro" "Gemini Pro" "google"
               ["analysis"; "documentation"; "general"] "GeminiAdapter")
            "claude3_opus" "Claude 3 Opus" "anthropic"
            ["code_generation"; "analysis"; "documentation"]
            "AnthropicAdapter")
         "grok_beta" "Grok Beta" "xai" ["analysis"; "general"]
         "GrokAdapter")))
    <-> ((str_truthy (env "XAI_API_KEY") = true
          /\ probe_ok (probes GrokAdapter) = true) /\ k = "grok_beta")
        \/ (str_truthy (env "ANTHROPIC_API_KEY") = true /\ k = "claude3_opus")
        \/ ((str_truthy (env "GOOGLE_API_KEY") = true
             /\ probe_ok (probes GeminiAdapter) = true) /\ k = "gemini_pro")
        \/ ((str_truthy (env "OPENAI_API_KEY") = true
             /\ probe_ok (probes GPTAdapter) = true) /\ k = "gpt4_primary")
        \/ (probe_ok (probes ClaudeFlowAdapter) = true
            /\ k = "claude_flow_hive")).
  { intros k. rewrite !register_when_keys, Hag, !andb_true_iff. simpl.
    intuition. }
  split; [rewrite Hkeys; intuition discriminate|].
  split; [rewrite Hkeys; intuition discriminate|].
  split; [rewrite Hkeys; intuition discriminate|].
  split; [rewrite Hkeys; intuition discriminate|].
  split; [rewrite Hkeys; intuition discriminate|].
  split.
  { do 5 apply register_when_ready. rewrite Hag. intros i a []. }
  split.
  { repeat match goal with
           | |- context [tasks (register_when ?b ?s0 ?i ?n ?p ?c ?a)] =>
               rewrite (proj1 (register_when_frame b s0 i n p c a))
           end. reflexivity. }
  split.
  { repeat match goal with
           | |- context [task_queue (register_when ?b ?s0 ?i ?n ?p ?c ?a)] =>
               rewrite (proj2 (register_when_frame b s0 i n p c a))
           end. reflexivity. }
  intros Hcf task Hnone. rewrite Hcf in Hnone.
  pose proof (proj1 (select_none _ task) Hnone "claude_flow_hive"
                (mkAgentInfo "claude_flow_hive" "Claude Flow Hive Mind"
                   "claude_flow"
                   ["general"; "code_generation"; "documentation"; "analysis"]
                   IDLE None 0%N 0%N PyFloat.zero None [])) as He.
  assert (Hel : eligible task
                  (mkAgentInfo "claude_flow_hive" "Claude Flow Hive Mind"
                     "claude_flow"
                     ["general"; "code_generation"; "documentation";
                      "analysis"] IDLE None 0%N 0%N PyFloat.zero None [])
                = true).
  { unfold eligible. cbn [agent_status capabilities AgentStatus_eqb andb].
    replace (str_in "general"
               ["general"; "code_generation"; "documentation"; "analysis"])
      with true by reflexivity.
    cbn [negb]. now rewrite andb_false_r. }
  rewrite He in Hel; [discriminate|].
  do 4 (apply register_when_keeps; [|discriminate]).
  unfold register_when, register_agent.
  cbn [fst agents set_agents set_agent_adapters]. rewrite Hag. now left.
Qed.

Lemma bootstrap_registers_ready_agents_witness :
  dict_keys (agents (auto_register_agents (init 10) Scenario.sample_env
                                          Scenario.sample_probes))
  = ["claude_flow_hive"; "claude3_opus"]
  /\ forall task,
       _select_agent_for_task
         (auto_register_agents (init 10) Scenario.sample_env
                               Scenario.sample_probes) task <> None.
Proof.
  split; [reflexivity|].
  destruct (bootstrap_registers_ready_agents (init 10) Scenario.sample_env
              Scenario.sample_probes eq_refl eq_refl)
    as (_ & _ & _ & _ & _ & _ & _ & _ & Hsel).
  apply Hsel. reflexivity.
Defined.

(* ================================================================== *)
(** ** Waiting tasks *)

Lemma count_occ_added (q added : list string) k :
  ~ In k added ->
  count_occ string_dec (q ++ added) k = count_occ string_dec q k.
Proof.
  intros Hnot. rewrite count_occ_app.
  rewrite (proj1 (count_occ_not_In string_dec added k) Hnot). lia.
Qed.

(** X17: a task without dependencies is never put on the queue by the
    dependency watcher or by the promotion after an execution, whatever its
    status: the number of its queue entries is the same after either.  (So a
    dependency-free task that left the queue while still PENDING, as in X4,
    is not picked up again by the orchestrator.) *)
Theorem dependency_free_never_promoted :
  forall s k,
    (forall t, In (k, t) (tasks s) -> dependencies t = []) ->
    count_occ string_dec (task_queue (_check_dependencies s)) k
    = count_occ string_dec (task_queue s) k
    /\ forall done,
         count_occ string_dec (task_queue (promote_dependents s done)) k
         = count_occ string_dec (task_queue s) k.
Proof.
  intros s k Hfree. split; [|intros done];
    unfold _check_dependencies, promote_dependents;
    cbn [task_queue set_task_queue]; rewrite put_all_app;
    apply count_occ_added; intros Hin; apply keys_of_filter in Hin;
    destruct Hin as (t & Hin & Hready); cbn [snd] in Hready;
    pose proof (Hfree t Hin) as Hdeps.
  - apply watcher_ready_iff in Hready. destruct Hready as (_ & Hne & _).
    now apply Hne.
  - apply promotable_iff in Hready. destruct Hready as (Hdone & _).
    rewrite Hdeps in Hdone. destruct Hdone.
Qed.

Lemma dependency_free_never_promoted_witness :
  task_queue (fst (_worker Scenario.bare_state Scenario.ok_env)) = []
  /\ count_occ string_dec
       (task_queue (_check_dependencies
                      (fst (_worker Scenario.bare_state Scenario.ok_env))))
       "t5" = O.
Proof.
  split; [reflexivity|].
  destruct (dependency_free_never_promoted
              (fst (_worker Scenario.bare_state Scenario.ok_env)) "t5")
    as [Hwatch _].
  - intros t [[= <-]|[]]. reflexivity.
  - exact Hwatch.
Defined.

(** X18: a worker turn that runs the oldest queued task to a successful
    return reports the execution, leaves that task COMPLETED, and within the
    same turn puts on the queue every other stored task that lists it as a
    prerequisite and whose remaining prerequisites are already COMPLETED. *)
Theorem completion_promotes_dependent :
  forall s env ref rest task agent_id adapter payload k tk,
    task_queue s = ref :: rest ->
    dict_get (tasks s) ref = Some task ->
    task_id task = ref ->
    _select_agent_for_task s task = Some agent_id ->
    agent_id <> "" ->
    dict_get (agent_adapters s) agent_id = Some adapter ->
    outcome env = Returned payload ->
    In (k, tk) (tasks s) ->
    k <> ref ->
    In ref (dependencies tk) ->
    (forall d, In d (dependencies tk) -> d <> ref ->
       exists dt, dict_get (tasks s) d = Some dt /\ status dt = COMPLETED) ->
    snd (_worker s env) = Executed ref agent_id true
    /\ In k (task_queue (fst (_worker s env)))
    /\ exists t', dict_get (tasks (fst (_worker s env))) ref = Some t'
                  /\ status t' = COMPLETED.
Proof.
  intros s env ref rest task agent_id adapter payload k tk
         Hq Htask Hid Hsel Hne Had Hout Hk Hkref Hdep Hothers.
  assert (Hsel' : forall s1, agents s1 = agents s ->
                    _select_agent_for_task s1 task = Some agent_id).
  { intros s1 Heq. unfold _select_agent_for_task in *. now rewrite Heq. }
  destruct (dict_get (agents s) agent_id) as [agent|] eqn:Ha;
    [|now apply select_is_registered in Hsel].
  unfold _worker. rewrite Hq. cbn [queue_get tasks set_task_queue].
  rewrite Htask, Hsel' by reflexivity.
  destruct (String.eqb_spec agent_id "") as [->|_]; [congruence|].
  unfold _execute_task.
  cbn [agents agent_adapters tasks set_active_tasks set_task_queue].
  rewrite Ha, Had, Htask, Hout.
  cbn [fst snd tr_success tasks task_queue set_agents set_tasks
       set_active_tasks set_task_queue promote_dependents _update_metrics
       set_performance_metrics].
  split; [reflexivity|]. split.
  - rewrite put_all_app. apply in_or_app. right.
    apply keys_of_filter. exists tk. split.
    + apply in_dict_set_other; assumption.
    + cbn [snd]. apply promotable_iff. rewrite Hid. split; [exact Hdep|].
      intros d Hd. destruct (String.eqb_spec ref d) as [<-|Hnd].
      * rewrite dict_get_set_same. eexists. split; reflexivity.
      * rewrite dict_get_set_other by assumption.
        apply Hothers; [exact Hd|congruence].
  - rewrite dict_get_set_same. eexists. split; reflexivity.
Qed.

Lemma completion_promotes_dependent_witness :
  task_queue Scenario.chained_state = ["t1"]
  /\ snd (_worker Scenario.chained_state Scenario.ok_env)
     = Executed "t1" "w" true
  /\ In "t2" (task_queue (fst (_worker Scenario.chained_state
                                       Scenario.ok_env))).
Proof.
  split; [reflexivity|].
  destruct (completion_promotes_dependent Scenario.chained_state
              Scenario.ok_env "t1" [] _ "w" "GPTAdapter" (PyStr "ok") "t2"
              (mkTask "t2" "general" "second" MEDIUM PENDING None 2 None None
                      None None [] ["t1"] 0 3)
              eq_refl eq_refl eq_refl eq_refl)
    as (Hev & Hin & _); try reflexivity; try discriminate.
  - right. left. reflexivity.
  - left. reflexivity.
  - intros d [<-|[]] Hne. now contradiction Hne.
  - split; assumption.
Defined.
